(** * Avastar add-on: Animesh, Bakes-on-Mesh and performance tools

    A shallow embedding of [animesh.py], [bom.py] and [performance.py].

    The three files are operators over the scene graph of the host editor.
    The embedding therefore has three layers:

    - a small model of the Python runtime pieces the code relies on
      (exceptions, [len], [range], [str], the [{:,}] format, [in] on strings);
    - a model of the host data the code reads and writes (objects, meshes,
      armatures, modifiers, materials, node trees, images), kept in a store
      keyed by name so that an armature reached through a modifier is the
      same armature the scene holds;
    - the operators themselves, written in a state-and-exception monad over
      that store, one definition per [execute] method, under the names of
      the source; beside them the panels ([poll] and [draw], which builds a
      tree of labels and buttons) and the [register] and [unregister] of
      each file, over the host's registry of classes.

    Host behaviour that the source takes for granted is stated where it is
    modelled. Two things the host decides are part of the model: it keeps
    the names of modifiers and of nodes unique by numeric suffixes, and the
    inputs of its Principled BSDF node depend on its version, which the
    world carries as [host]. Collections are changed in place, so a loop
    that raises leaves what it has done so far. *)

From Stdlib Require Import ZArith String Ascii List Bool Lia PrimFloat DecimalString DecimalZ Sorted.
From stdpp Require Import gmap strings list fin_maps.

Set Warnings "-inexact-float".

Open Scope Z_scope.

(* ===================================================================== *)
(** ** Python runtime *)
(* ===================================================================== *)

Inductive exn : Type :=
| IndexError
| KeyError
| AttributeError
| ValueError
| ReferenceError
| RuntimeError.

Inductive outcome (A : Type) : Type :=
| Returned (a : A)
| Raised (e : exn).
Arguments Returned {A} a.
Arguments Raised {A} e.

#[global] Instance outcome_ret : MRet outcome := λ A a, Returned a.
#[global] Instance outcome_bind : MBind outcome := λ A B f m,
  match m with
  | Returned a => f a
  | Raised e => Raised e
  end.

(** [len(xs)] *)
Definition len {A : Type} (xs : list A) : Z := Z.of_nat (length xs).

(** [range(start, stop, step)]: the number of elements is CPython's
    formula; a zero step raises [ValueError]. *)
Definition range_len (start stop step : Z) : Z :=
  if 0 <? step then Z.max 0 ((stop - start + step - 1) / step)
  else Z.max 0 ((start - stop - step - 1) / (- step)).

Definition range (start stop step : Z) : outcome (list Z) :=
  if step =? 0 then Raised ValueError
  else Returned (map (λ i : nat, start + Z.of_nat i * step)
                     (seq 0 (Z.to_nat (range_len start stop step)))).

(** [range(n)] *)
Definition range1 (n : Z) : list Z :=
  map Z.of_nat (seq 0 (Z.to_nat n)).

(** [xs[start:stop]] for non-negative bounds *)
Definition slice {A : Type} (xs : list A) (start stop : Z) : list A :=
  take (Z.to_nat stop - Z.to_nat start)%nat (drop (Z.to_nat start) xs).

(** [needle in hay] on strings *)
Fixpoint str_in (needle hay : string) : bool :=
  String.prefix needle hay
  || match hay with
     | EmptyString => false
     | String _ rest => str_in needle rest
     end.

(** [str(n)] for an integer *)
Definition str (n : Z) : string := NilZero.string_of_int (Z.to_int n).

(** Thousands separators, on the digits from the least significant one. *)
Fixpoint group_thousands (rev_digits : list ascii) : list ascii :=
  match rev_digits with
  | a :: b :: c :: ((_ :: _) as more) => a :: b :: c :: ","%char :: group_thousands more
  | short => short
  end.

Definition with_commas (digits : string) : string :=
  string_of_list_ascii (rev (group_thousands (rev (list_ascii_of_string digits)))).

(** [f"{n:,}"] *)
Definition format_comma (n : Z) : string :=
  if n <? 0 then "-" +:+ with_commas (str (- n)) else with_commas (str n).

(** ["\n"] *)
Definition newline : string := String (ascii_of_nat 10) EmptyString.

(** Removing the first item that matches, as the host collections do when
    an item is removed by its key. *)
Fixpoint remove_first {A : Type} (p : A → bool) (xs : list A) : list A :=
  match xs with
  | [] => []
  | x :: rest => if p x then rest else x :: remove_first p rest
  end.

(** A loop whose body may raise. *)
Fixpoint fold_outcome {A S : Type} (f : S → A → outcome S) (xs : list A) (s : S)
    : outcome S :=
  match xs with
  | [] => Returned s
  | x :: rest =>
      match f s x with
      | Returned s' => fold_outcome f rest s'
      | Raised e => Raised e
      end
  end.

(** A loop over a state that the body changes in place: when a round
    raises, the state is what the rounds so far have made of it. *)
Fixpoint fold_in_place {A S : Type} (f : S → A → S * option exn) (xs : list A) (s : S)
    : S * option exn :=
  match xs with
  | [] => (s, None)
  | x :: rest =>
      match f s x with
      | (s', None) => fold_in_place f rest s'
      | stopped => stopped
      end
  end.

(** [sep.join(parts)] *)
Definition join (sep : string) (parts : list string) : string :=
  String.concat sep parts.

(** A formatted message. Integers are rendered by [str] and [format_comma];
    a float rendered with a fixed number of decimals ([{x:.0f}], [{x:.3f}])
    is kept as the float and its precision. *)
Inductive piece : Type :=
| Str (s : string)
| Flt (decimals : nat) (x : float).

Definition text : Type := list piece.
Definition plain (s : string) : text := [Str s].

(* ===================================================================== *)
(** ** Host data (bpy.types) *)
(* ===================================================================== *)

Record Bone : Type := { bone_name : string; use_deform : bool }.

(** [edit_bones] is [None] outside edit mode, where the host exposes an
    empty collection. *)
Record Armature : Type := {
  bones : list Bone;
  edit_bones : option (list Bone)
}.

Record VertexGroupElement : Type := { group : nat; weight : float }.

(** [v.index] is the position of [v] in [mesh.vertices]; loops over the
    vertices carry it along. *)
Record MeshVertex : Type := { groups : list VertexGroupElement }.

Record MeshPolygon : Type := { verts : list nat }.

Record Mesh : Type := {
  vertices : list MeshVertex;
  polygons : list MeshPolygon;
  uv_layers : list string;
  materials : list (option string)
}.

Record Modifier : Type := {
  mod_name : string;
  mod_type : string;
  mod_object : option string;
  decimate_type : string;
  ratio : float;
  use_collapse_triangulate : bool
}.

Record VertexGroup : Type := { vg_name : string }.

Inductive OtherKind : Type := EMPTY | CURVE | CAMERA | LIGHT | LATTICE.

Inductive ObData : Type :=
| MeshData (m : Mesh)
| ArmatureData (a : Armature)
| OtherData (k : OtherKind).

Record Object : Type := {
  name : string;
  data : ObData;
  modifiers : list Modifier;
  vertex_groups : list VertexGroup;
  active_material_index : nat
}.

(** [obj.type] *)
Definition type (o : Object) : string :=
  match data o with
  | MeshData _ => "MESH"
  | ArmatureData _ => "ARMATURE"
  | OtherData EMPTY => "EMPTY"
  | OtherData CURVE => "CURVE"
  | OtherData CAMERA => "CAMERA"
  | OtherData LIGHT => "LIGHT"
  | OtherData LATTICE => "LATTICE"
  end.

Inductive SocketValue : Type :=
| VNone
| VFloat (x : float)
| VColor (r g b a : float).

Record NodeSocket : Type := { sock_name : string; default_value : SocketValue }.

Record Node : Type := {
  node_name : string;
  bl_idname : string;
  label : string;
  location : Z * Z;
  image : option string;
  inputs : list NodeSocket;
  outputs : list NodeSocket
}.

(** A link names its two nodes by their position in [nodes]. *)
Record NodeLink : Type := {
  from_node : nat;
  from_socket : string;
  to_node : nat;
  to_socket : string
}.

Record NodeTree : Type := { nodes : list Node; links : list NodeLink }.

Record Material : Type := {
  mat_name : string;
  use_nodes : bool;
  node_tree : option NodeTree
}.

Record Image : Type := {
  img_name : string;
  width : Z;
  height : Z;
  alpha : bool;
  source : string
}.

(** What the add-on meets of the version of the host: the input sockets a
    new Principled BSDF node comes with. Hosts before 4.0 have an input
    named 'Specular'; from 4.0 on that input is named 'Specular IOR
    Level'. *)
Record Host : Type := { principled_inputs : list NodeSocket }.

(** [bpy.data] and the active object of the view layer. References between
    data blocks are names. *)
Record Blend : Type := {
  data_objects : gmap string Object;
  data_materials : gmap string Material;
  data_images : gmap string Image;
  active : option string
}.

(* ===================================================================== *)
(** ** The world the operators run in *)
(* ===================================================================== *)

Inductive ReportType : Type := INFO | WARNING | ERROR.

Inductive LogLevel : Type := LOG_INFO | LOG_WARNING.

Record LogRecord : Type := {
  logger : string;
  level : LogLevel;
  msg : text
}.

(** An entry of [_mesh_cache]: the dict with keys ['vertex_count'],
    ['polygon_count'] and ['timestamp']. *)
Record CacheEntry : Type := {
  vertex_count : Z;
  polygon_count : Z;
  timestamp : float
}.

(** [clock] is what [time.time()] will answer at each successive call and
    [ticks] counts the calls made so far. No code writes [_bone_cache].
    [host] is the host the add-on runs in; nothing changes it. *)
Record World : Type := {
  blend : Blend;
  _mesh_cache : gmap string CacheEntry;
  _bone_cache : gmap string CacheEntry;
  reports : list (ReportType * text);
  log : list LogRecord;
  clock : nat → float;
  ticks : nat;
  host : Host
}.

Inductive OperatorResult : Type := FINISHED | CANCELLED.

Definition M (A : Type) : Type := World → outcome A * World.

#[global] Instance M_ret : MRet M := λ A a w, (Returned a, w).
#[global] Instance M_bind : MBind M := λ A B f m w,
  match m w with
  | (Returned a, w') => f a w'
  | (Raised e, w') => (Raised e, w')
  end.

Definition raise {A : Type} (e : exn) : M A := λ w, (Raised e, w).
Definition lift {A : Type} (r : outcome A) : M A := λ w, (r, w).
Definition get_blend : M Blend := λ w, (Returned (blend w), w).
Definition get_host : M Host := λ w, (Returned (host w), w).

Definition with_blend (b : Blend) (w : World) : World :=
  {| blend := b; _mesh_cache := _mesh_cache w; _bone_cache := _bone_cache w;
     reports := reports w; log := log w; clock := clock w; ticks := ticks w;
     host := host w |}.

Definition set_blend (b : Blend) : M unit := λ w, (Returned tt, with_blend b w).

Definition add_report (r : ReportType * text) (w : World) : World :=
  {| blend := blend w; _mesh_cache := _mesh_cache w; _bone_cache := _bone_cache w;
     reports := reports w ++ [r]; log := log w;
     clock := clock w; ticks := ticks w;
     host := host w |}.

(** [self.report({kind}, message)] *)
Definition report (kind : ReportType) (message : text) : M unit := λ w,
  (Returned tt, add_report (kind, message) w).

(** [logging.getLogger(lg).info(...)] and [.warning(...)] *)
Definition add_log (r : LogRecord) (w : World) : World :=
  {| blend := blend w; _mesh_cache := _mesh_cache w; _bone_cache := _bone_cache w;
     reports := reports w; log := log w ++ [r];
     clock := clock w; ticks := ticks w;
     host := host w |}.

Definition log_msg (lg : string) (lv : LogLevel) (message : text) : M unit := λ w,
  (Returned tt, add_log {| logger := lg; level := lv; msg := message |} w).

(** [time.time()] *)
Definition tick (w : World) : World :=
  {| blend := blend w; _mesh_cache := _mesh_cache w; _bone_cache := _bone_cache w;
     reports := reports w; log := log w; clock := clock w; ticks := S (ticks w);
     host := host w |}.

Definition time_time : M float := λ w, (Returned (clock w (ticks w)), tick w).

(** [for x in xs: body x] *)
Fixpoint for_each {A : Type} (xs : list A) (body : A → M unit) : M unit :=
  match xs with
  | [] => mret tt
  | x :: rest => body x ;; for_each rest body
  end.

(* ===================================================================== *)
(** ** Host operations (bpy) *)
(* ===================================================================== *)

(** [context.active_object]: the reference (its key in the store) and the
    object it denotes. *)
Definition active_object (b : Blend) : option (string * Object) :=
  k ← active b; o ← data_objects b !! k; Some (k, o).

Definition context_active_object : M (option (string * Object)) :=
  b ← get_blend;
  mret (active_object b).

(** The blend file with one of its parts replaced. *)
Definition with_active (a : option string) (b : Blend) : Blend :=
  {| data_objects := data_objects b; data_materials := data_materials b;
     data_images := data_images b; active := a |}.

Definition with_objects (objs : gmap string Object) (b : Blend) : Blend :=
  {| data_objects := objs; data_materials := data_materials b;
     data_images := data_images b; active := active b |}.

Definition with_data_materials (mats : gmap string Material) (b : Blend) : Blend :=
  {| data_objects := data_objects b; data_materials := mats;
     data_images := data_images b; active := active b |}.

Definition with_data_images (imgs : gmap string Image) (b : Blend) : Blend :=
  {| data_objects := data_objects b; data_materials := data_materials b;
     data_images := imgs; active := active b |}.

(** [bpy.context.view_layer.objects.active = ref] *)
Definition set_active (ref : string) : M unit :=
  b ← get_blend;
  set_blend (with_active (Some ref) b).

Definition with_data (d : ObData) (o : Object) : Object :=
  {| name := name o; data := d; modifiers := modifiers o;
     vertex_groups := vertex_groups o;
     active_material_index := active_material_index o |}.

Definition with_modifiers (ms : list Modifier) (o : Object) : Object :=
  {| name := name o; data := data o; modifiers := ms;
     vertex_groups := vertex_groups o;
     active_material_index := active_material_index o |}.

Definition with_vertex_groups (vgs : list VertexGroup) (o : Object) : Object :=
  {| name := name o; data := data o; modifiers := modifiers o;
     vertex_groups := vgs;
     active_material_index := active_material_index o |}.

(** Writing through an object reference. *)
Definition store_object (ref : string) (o : Object) : M unit :=
  b ← get_blend;
  set_blend (with_objects (<[ref := o]> (data_objects b)) b).

Definition store_material (ref : string) (m : Material) : M unit :=
  b ← get_blend;
  set_blend (with_data_materials (<[ref := m]> (data_materials b)) b).

Definition store_image (ref : string) (i : Image) : M unit :=
  b ← get_blend;
  set_blend (with_data_images (<[ref := i]> (data_images b)) b).

(** Following an object reference. *)
Definition deref_object (ref : string) : M Object :=
  b ← get_blend;
  match data_objects b !! ref with
  | Some o => mret o
  | None => raise ReferenceError
  end.

(** [armature.data] read as an armature: an object of another kind has no
    [bones]. *)
Definition armature_data (ref : string) : M Armature :=
  o ← deref_object ref;
  match data o with
  | ArmatureData a => mret a
  | _ => raise AttributeError
  end.

(** Entering edit mode builds the edit bones from the bones; leaving it
    rebuilds the bones from the edit bones. *)
Definition to_editmode (a : Armature) : Armature :=
  {| bones := bones a; edit_bones := Some (default (bones a) (edit_bones a)) |}.

Definition from_editmode (a : Armature) : Armature :=
  match edit_bones a with
  | Some eb => {| bones := eb; edit_bones := None |}
  | None => a
  end.

(** [bpy.ops.object.mode_set(mode=...)] on the active object. Only the
    armature's edit data is modelled; the operator needs an active object. *)
Definition mode_set (mode : string) : M unit :=
  act ← context_active_object;
  match act with
  | None => raise RuntimeError
  | Some (k, o) =>
      match data o with
      | ArmatureData a =>
          if String.eqb mode "EDIT" then store_object k (with_data (ArmatureData (to_editmode a)) o)
          else if String.eqb mode "OBJECT" then store_object k (with_data (ArmatureData (from_editmode a)) o)
          else mret tt
      | _ => mret tt
      end
  end.

(** [armature.data.edit_bones.remove(bone)]: bone names are unique within
    an armature, and the bone is found by its name. *)
Definition edit_bones_remove (bone : Bone) (eb : list Bone) : list Bone :=
  remove_first (λ b, String.eqb (bone_name b) (bone_name bone)) eb.

(** ["%03d" % k], from the digits of [k] *)
Definition pad3 (digits : string) : string :=
  match String.length digits with
  | 1%nat => "00" +:+ digits
  | 2%nat => "0" +:+ digits
  | _ => digits
  end.

(** [nm] with the numeric suffix [k]: ['Name.001'] *)
Definition numbered (nm : string) (k : nat) : string :=
  nm +:+ "." +:+ pad3 (str (Z.of_nat k)).

(** The host keeps the names of the modifiers of an object, and of the
    nodes of a tree, unique. An item that asks for the name [nm] while the
    other items have the names [taken] gets [nm] when it is free, and
    otherwise [nm] with the first free suffix among ['.001'], ['.002'],
    and so on; one of the first [len(taken) + 1] suffixes is free. The
    names this add-on asks for end in no such suffix themselves. *)
Definition unique_name (taken : list string) (nm : string) : string :=
  if bool_decide (nm ∈ taken) then
    default nm (head (filter (λ c, c ∉ taken)
                             (map (numbered nm) (seq 1 (S (length taken))))))
  else nm.

(** [obj.modifiers.new(name, type)] on the stack [mods]: a modifier with
    the host's defaults and a name that is unique in the stack; it is
    added at the end of the stack. *)
Definition modifiers_new (nm ty : string) (mods : list Modifier) : Modifier :=
  {| mod_name := unique_name (map mod_name mods) nm; mod_type := ty; mod_object := None;
     decimate_type := "COLLAPSE"; ratio := 1%float;
     use_collapse_triangulate := false |}.

(** The items of a collection with their index. *)
Definition indexed {A : Type} (xs : list A) : list (nat * A) :=
  zip (seq 0 (length xs)) xs.

(** [sum(xs)] *)
Definition sum (xs : list Z) : Z := foldr Z.add 0 xs.

(* ===================================================================== *)
(** ** animesh.py *)
(* ===================================================================== *)

Definition ANIMESH_MAX_BONES : Z := 110.
Definition ANIMESH_MAX_TRIANGLES : Z := 32768.
Definition ANIMESH_MAX_COMPLEXITY : Z := 16000.

Definition animesh_log : string := "avastar.animesh".

(** The loop shared by the animesh operators and the profiler:
    [for mod in obj.modifiers: if mod.type == 'ARMATURE' and mod.object:
       armature = mod.object; break] *)
Fixpoint find_armature (mods : list Modifier) : option string :=
  match mods with
  | [] => None
  | m :: rest =>
      match String.eqb (mod_type m) "ARMATURE", mod_object m with
      | true, Some a => Some a
      | _, _ => find_armature rest
      end
  end.

(** [len([b for b in armature.data.bones if b.use_deform])] *)
Definition deform_bone_count (a : Armature) : Z :=
  len (filter (λ b, use_deform b) (bones a)).

(** [sum(1 for f in bm.faces for _ in range(len(f.verts) - 2))]; the bmesh
    built from the mesh has one face per polygon. *)
Definition triangle_count (m : Mesh) : Z :=
  sum (map (λ _, 1) (flat_map (λ f, range1 (len (verts f) - 2)) (polygons m))).

(** The indices of the vertices with [len(v.groups) == 0]. *)
Definition unweighted (m : Mesh) : list nat :=
  map fst (filter (λ iv, len (groups (snd iv)) = 0) (indexed (vertices m))).

Module AVASTAR_OT_animesh_validate.

Definition bone_issue (bone_count : Z) : string :=
  if ANIMESH_MAX_BONES <? bone_count
  then "❌ Too many bones: " +:+ str bone_count +:+ "/" +:+ str ANIMESH_MAX_BONES
  else "✅ Bone count: " +:+ str bone_count +:+ "/" +:+ str ANIMESH_MAX_BONES.

Definition triangle_issue (triangles : Z) : string :=
  if ANIMESH_MAX_TRIANGLES <? triangles
  then "❌ Too many triangles: " +:+ format_comma triangles +:+ "/"
         +:+ format_comma ANIMESH_MAX_TRIANGLES
  else "✅ Triangle count: " +:+ format_comma triangles +:+ "/"
         +:+ format_comma ANIMESH_MAX_TRIANGLES.

Definition weight_issue (unweighted_vertices : list nat) : string :=
  match unweighted_vertices with
  | _ :: _ => "❌ Unweighted vertices: " +:+ str (len unweighted_vertices)
  | [] => "✅ All vertices weighted"
  end.

Definition execute : M OperatorResult :=
  act ← context_active_object;
  match act with
  | Some (_, {| data := MeshData mesh; modifiers := mods |}) =>
      match find_armature mods with
      | None =>
          report ERROR (plain "Mesh has no armature modifier") ;;
          mret CANCELLED
      | Some armature =>
          arm ← armature_data armature;
          let bone_count := deform_bone_count arm in
          let triangles := triangle_count mesh in
          let issues := [bone_issue bone_count; triangle_issue triangles;
                         weight_issue (unweighted mesh)] in
          let report_text := join newline issues in
          report INFO (plain ("Animesh Validation:" +:+ newline +:+ report_text)) ;;
          log_msg animesh_log LOG_INFO (plain "Animesh Validation Report:") ;;
          for_each issues (λ issue, log_msg animesh_log LOG_INFO (plain ("  " +:+ issue))) ;;
          if forallb (str_in "✅") issues
          then report INFO (plain "Mesh is Animesh compatible!") ;; mret FINISHED
          else report WARNING (plain "Mesh has Animesh compatibility issues") ;; mret FINISHED
      end
  | _ =>
      report ERROR (plain "Please select a mesh object") ;;
      mret CANCELLED
  end.

End AVASTAR_OT_animesh_validate.

Module AVASTAR_OT_animesh_optimize_bones.

(** The names of the vertex groups that some vertex refers to with an
    index inside [obj.vertex_groups]; the lookup succeeds exactly when
    [g.group < len(obj.vertex_groups)]. *)
Definition used_bones (vgs : list VertexGroup) (mesh : Mesh) : gset string :=
  foldl (λ used v,
           foldl (λ used g,
                    match vgs !! group g with
                    | Some vg => used ∪ {[vg_name vg]}
                    | None => used
                    end) used (groups v))
        ∅ (vertices mesh).

(** The removal loop. The host walks the edit bones as a linked
    collection: removing the bone in hand unlinks it and the walk goes on
    from its successor, so every bone present at the start is visited. *)
Definition remove_unused_bones (used_bones : gset string) (eb : list Bone) : list Bone * Z :=
  foldl (λ st bone,
           if use_deform bone && negb (bool_decide (bone_name bone ∈ used_bones))
           then (edit_bones_remove bone st.1, st.2 + 1)
           else st)
        (eb, 0) eb.

Definition set_edit_bones (ref : string) (eb : list Bone) : M unit :=
  o ← deref_object ref;
  a ← armature_data ref;
  store_object ref
    (with_data (ArmatureData {| bones := bones a;
                                edit_bones := (λ _, eb) <$> edit_bones a |}) o).

Definition execute (remove_unused : bool) : M OperatorResult :=
  act ← context_active_object;
  match act with
  | Some (obj, {| data := MeshData mesh; modifiers := mods; vertex_groups := vgs |}) =>
      match find_armature mods with
      | None =>
          report ERROR (plain "Mesh has no armature modifier") ;;
          mret CANCELLED
      | Some armature =>
          arm ← armature_data armature;
          let initial_bone_count := deform_bone_count arm in
          (if remove_unused then
             let used := used_bones vgs mesh in
             set_active armature ;;
             mode_set "EDIT" ;;
             arm_edit ← armature_data armature;
             set_edit_bones armature
               (remove_unused_bones used (default [] (edit_bones arm_edit))).1 ;;
             mode_set "OBJECT" ;;
             set_active obj
           else mret tt) ;;
          arm_final ← armature_data armature;
          let final_bone_count := deform_bone_count arm_final in
          let bones_removed := initial_bone_count - final_bone_count in
          report INFO (plain ("Removed " +:+ str bones_removed +:+ " unused bones ("
                                +:+ str final_bone_count +:+ " remaining)")) ;;
          mret FINISHED
      end
  | _ =>
      report ERROR (plain "Please select a mesh object") ;;
      mret CANCELLED
  end.

End AVASTAR_OT_animesh_optimize_bones.

Module AVASTAR_OT_animesh_reduce_triangles.

Definition execute (ratio_prop : float) : M OperatorResult :=
  act ← context_active_object;
  match act with
  | Some (obj, ({| data := MeshData _ |} as o)) =>
      let decimate := modifiers_new "Animesh_Decimate" "DECIMATE" (modifiers o) in
      let decimate :=
        {| mod_name := mod_name decimate; mod_type := mod_type decimate;
           mod_object := mod_object decimate;
           decimate_type := "COLLAPSE"; ratio := ratio_prop;
           use_collapse_triangulate := true |} in
      store_object obj (with_modifiers (modifiers o ++ [decimate]) o) ;;
      report INFO [Str "Added decimate modifier with ";
                   Flt 0 (ratio_prop * 100)%float; Str "% ratio"] ;;
      mret FINISHED
  | _ =>
      report ERROR (plain "Please select a mesh object") ;;
      mret CANCELLED
  end.

End AVASTAR_OT_animesh_reduce_triangles.

(* ===================================================================== *)
(** ** Host operations on materials and node trees *)
(* ===================================================================== *)

Definition socket (nm : string) (v : SocketValue) : NodeSocket :=
  {| sock_name := nm; default_value := v |}.

(** A new node of one of the three node types the add-on creates, under
    the host's name for the type. The inputs of the Principled BSDF are
    those of the host [h]; of the other two node types the sockets the
    code goes on to use are listed. *)
Definition new_node (h : Host) (ty : string) : Node :=
  if String.eqb ty "ShaderNodeBsdfPrincipled" then
    {| node_name := "Principled BSDF"; bl_idname := ty; label := "";
       location := (0, 0); image := None;
       inputs := principled_inputs h;
       outputs := [socket "BSDF" VNone] |}
  else if String.eqb ty "ShaderNodeOutputMaterial" then
    {| node_name := "Material Output"; bl_idname := ty; label := "";
       location := (0, 0); image := None;
       inputs := [socket "Surface" VNone; socket "Volume" VNone;
                  socket "Displacement" VNone];
       outputs := [] |}
  else if String.eqb ty "ShaderNodeTexImage" then
    {| node_name := "Image Texture"; bl_idname := ty; label := "";
       location := (0, 0); image := None;
       inputs := [socket "Vector" VNone];
       outputs := [socket "Color" (VColor 0 0 0 1); socket "Alpha" (VFloat 1)] |}
  else
    {| node_name := ty; bl_idname := ty; label := ""; location := (0, 0);
       image := None; inputs := []; outputs := [] |}.

(** [sockets[nm]]: position of the first socket of that name. *)
Fixpoint socket_index (nm : string) (socks : list NodeSocket) : option nat :=
  match socks with
  | [] => None
  | s :: rest =>
      if String.eqb (sock_name s) nm then Some 0%nat
      else S <$> socket_index nm rest
  end.

(** [nodes.get(nm)]: position of the first node of that name. *)
Fixpoint nodes_get (nm : string) (ns : list Node) : option nat :=
  match ns with
  | [] => None
  | n :: rest =>
      if String.eqb (node_name n) nm then Some 0%nat
      else S <$> nodes_get nm rest
  end.

Definition with_nodes (ns : list Node) (t : NodeTree) : NodeTree :=
  {| nodes := ns; links := links t |}.

(** [nodes.clear()] takes the links of the removed nodes with it. *)
Definition nodes_clear (t : NodeTree) : NodeTree := {| nodes := []; links := [] |}.

Definition with_node_name (nm : string) (n : Node) : Node :=
  {| node_name := nm; bl_idname := bl_idname n; label := label n;
     location := location n; image := image n; inputs := inputs n;
     outputs := outputs n |}.

(** [nodes.new(ty)]: the tree with the node added, and the new node's
    position. The node gets the host's name for its type, made unique
    among the nodes of the tree. *)
Definition nodes_new (h : Host) (ty : string) (t : NodeTree) : NodeTree * nat :=
  let n := new_node h ty in
  (with_nodes
     (nodes t ++ [with_node_name (unique_name (map node_name (nodes t)) (node_name n)) n]) t,
   length (nodes t)).

Definition alter_node (f : Node → Node) (i : nat) (t : NodeTree) : NodeTree :=
  with_nodes (alter f i (nodes t)) t.

Definition set_location (xy : Z * Z) (n : Node) : Node :=
  {| node_name := node_name n; bl_idname := bl_idname n; label := label n;
     location := xy; image := image n; inputs := inputs n; outputs := outputs n |}.

(** [node.name = nm] for the node at position [i]: the host makes the name
    unique among the other nodes of the tree. *)
Definition set_name (i : nat) (nm : string) (t : NodeTree) : NodeTree :=
  alter_node (with_node_name (unique_name (map node_name (delete i (nodes t))) nm)) i t.

Definition set_label (lb : string) (n : Node) : Node :=
  {| node_name := node_name n; bl_idname := bl_idname n; label := lb;
     location := location n; image := image n; inputs := inputs n;
     outputs := outputs n |}.

Definition set_image (img : string) (n : Node) : Node :=
  {| node_name := node_name n; bl_idname := bl_idname n; label := label n;
     location := location n; image := Some img; inputs := inputs n;
     outputs := outputs n |}.

Definition set_inputs (ins : list NodeSocket) (n : Node) : Node :=
  {| node_name := node_name n; bl_idname := bl_idname n; label := label n;
     location := location n; image := image n; inputs := ins;
     outputs := outputs n |}.

(** [node.inputs[nm].default_value = v]; an unknown socket name is a
    [KeyError]. *)
Definition set_input_default (i : nat) (nm : string) (v : SocketValue)
    (t : NodeTree) : outcome NodeTree :=
  match nodes t !! i with
  | None => Raised ReferenceError
  | Some n =>
      match socket_index nm (inputs n) with
      | None => Raised KeyError
      | Some k => Returned (alter_node (set_inputs (alter (λ s, socket (sock_name s) v) k (inputs n))) i t)
      end
  end.

(** [links.new(a.outputs[out], b.inputs[inp])]: both socket lookups can
    raise [KeyError]; an input socket holds one link, so a link already
    ending there is replaced. *)
Definition links_new (a : nat) (out : string) (b : nat) (inp : string)
    (t : NodeTree) : outcome NodeTree :=
  match nodes t !! a, nodes t !! b with
  | Some na, Some nb =>
      match socket_index out (outputs na), socket_index inp (inputs nb) with
      | Some _, Some _ =>
          Returned
            {| nodes := nodes t;
               links := filter (λ l, ¬ (to_node l = b ∧ to_socket l = inp)) (links t)
                        ++ [{| from_node := a; from_socket := out;
                               to_node := b; to_socket := inp |}] |}
      | _, _ => Raised KeyError
      end
  | _, _ => Raised ReferenceError
  end.

(** The tree the host gives a material whose nodes are switched on for the
    first time: a Principled BSDF at (10, 300) wired to a Material Output
    at (300, 300). *)
Definition default_node_tree (h : Host) : NodeTree :=
  {| nodes := [set_location (10, 300) (new_node h "ShaderNodeBsdfPrincipled");
               set_location (300, 300) (new_node h "ShaderNodeOutputMaterial")];
     links := [{| from_node := 0; from_socket := "BSDF";
                  to_node := 1; to_socket := "Surface" |}] |}.

(** [bpy.data.materials.new(name=nm)] *)
Definition materials_new (nm : string) : Material :=
  {| mat_name := nm; use_nodes := false; node_tree := None |}.

(** [mat.use_nodes = True]: a material that has no node tree yet is given
    the default one. *)
Definition enable_nodes (h : Host) (m : Material) : Material :=
  {| mat_name := mat_name m; use_nodes := true;
     node_tree := Some (default (default_node_tree h) (node_tree m)) |}.

Definition with_node_tree (t : NodeTree) (m : Material) : Material :=
  {| mat_name := mat_name m; use_nodes := use_nodes m; node_tree := Some t |}.

(** [bpy.data.images.new(nm, width=w, height=h, alpha=a)] *)
Definition images_new (nm : string) (w h : Z) (a : bool) : Image :=
  {| img_name := nm; width := w; height := h; alpha := a; source := "GENERATED" |}.

Definition set_source (src : string) (i : Image) : Image :=
  {| img_name := img_name i; width := width i; height := height i;
     alpha := alpha i; source := src |}.

Definition with_materials (slots : list (option string)) (m : Mesh) : Mesh :=
  {| vertices := vertices m; polygons := polygons m; uv_layers := uv_layers m;
     materials := slots |}.

(** [obj.active_material]: the material of the active slot. *)
Definition active_material (b : Blend) (o : Object) : option (string * Material) :=
  match data o with
  | MeshData mesh =>
      slot ← materials mesh !! active_material_index o;
      ref ← slot;
      m ← data_materials b !! ref;
      Some (ref, m)
  | _ => None
  end.

(* ===================================================================== *)
(** ** bom.py *)
(* ===================================================================== *)

Inductive BomLayerType : Type := SKIN | TATTOO | CLOTHING | EYEBROW | HAIR.

Definition layer_id (l : BomLayerType) : string :=
  match l with
  | SKIN => "SKIN"
  | TATTOO => "TATTOO"
  | CLOTHING => "CLOTHING"
  | EYEBROW => "EYEBROW"
  | HAIR => "HAIR"
  end.

Module AVASTAR_OT_bom_setup_material.

(** One more step on a node tree that is changed in place: a step that
    raises leaves the tree as the steps before it made it, and no step is
    made after it. *)
Definition then_step (f : NodeTree → outcome NodeTree) (st : NodeTree * option exn)
    : NodeTree * option exn :=
  match st with
  | (t, None) =>
      match f t with
      | Returned t' => (t', None)
      | Raised e => (t, Some e)
      end
  | stopped => stopped
  end.

(** Lines 81 to 97: the node graph built in the tree of the material, from
    [nodes.clear()] on. The result is the tree as the lines have left it
    and the exception that stopped them, if one did. *)
Definition build_nodes (h : Host) (t : NodeTree) : NodeTree * option exn :=
  let t := nodes_clear t in
  let '(t, bsdf) := nodes_new h "ShaderNodeBsdfPrincipled" t in
  let t := alter_node (set_location (0, 0)) bsdf t in
  let '(t, output) := nodes_new h "ShaderNodeOutputMaterial" t in
  let t := alter_node (set_location (300, 0)) output t in
  then_step (set_input_default bsdf "Roughness" (VFloat 1))
    (then_step (set_input_default bsdf "Specular" (VFloat 0))
       (then_step (links_new bsdf "BSDF" output "Surface") (t, None))).

Definition execute : M OperatorResult :=
  act ← context_active_object;
  match act with
  | Some (obj, ({| data := MeshData mesh |} as o)) =>
      match uv_layers mesh with
      | [] =>
          report ERROR (plain "Mesh has no UV maps. Add UV coordinates first.") ;;
          mret CANCELLED
      | _ :: _ =>
          let mat_nm := name o +:+ "_BoM" in
          b ← get_blend;
          h ← get_host;
          mat ← match data_materials b !! mat_nm with
                | Some mat => mret mat
                | None =>
                    let mat := enable_nodes h (materials_new mat_nm) in
                    store_material mat_nm mat ;; mret mat
                end;
          match node_tree mat with
          | None => raise AttributeError
          | Some tree =>
              let '(tree, raised) := build_nodes h tree in
              store_material mat_nm (with_node_tree tree mat) ;;
              (match raised with
               | Some e => raise e
               | None => mret tt
               end) ;;
              store_object obj
                (with_data
                   (MeshData
                      (with_materials
                         (match materials mesh with
                          | [] => [Some mat_nm]
                          | _ :: _ => <[0%nat := Some mat_nm]> (materials mesh)
                          end) mesh)) o) ;;
              report INFO (plain ("BoM material '" +:+ mat_nm +:+ "' created successfully")) ;;
              mret FINISHED
          end
      end
  | _ =>
      report ERROR (plain "Please select a mesh object") ;;
      mret CANCELLED
  end.

End AVASTAR_OT_bom_setup_material.

Module AVASTAR_OT_bom_add_layer_slot.

Definition execute (layer_type : BomLayerType) : M OperatorResult :=
  act ← context_active_object;
  match act with
  | Some (_, ({| data := MeshData _ |} as o)) =>
      b ← get_blend;
      h ← get_host;
      match active_material b o with
      | None =>
          report ERROR (plain "No active material. Run 'Setup BoM Material' first") ;;
          mret CANCELLED
      | Some (ref, mat) =>
          mat ← (if use_nodes mat then mret mat
                 else store_material ref (enable_nodes h mat) ;; mret (enable_nodes h mat));
          match node_tree mat with
          | None => raise AttributeError
          | Some tree =>
              match nodes_get "Principled BSDF" (nodes tree) with
              | None =>
                  report ERROR (plain "Material is not BoM compatible") ;;
                  mret CANCELLED
              | Some bsdf =>
                  let '(tree, tex_node) := nodes_new h "ShaderNodeTexImage" tree in
                  let tree := set_name tex_node ("BoM_" +:+ layer_id layer_type) tree in
                  let tree := alter_node (set_label ("BoM " +:+ layer_id layer_type)) tex_node tree in
                  let tree := alter_node (set_location (-400, 0)) tex_node tree in
                  store_material ref (with_node_tree tree mat) ;;
                  let img_nm := name o +:+ "_" +:+ layer_id layer_type +:+ "_BoM" in
                  (match data_images b !! img_nm with
                   | None => store_image img_nm (set_source "GENERATED" (images_new img_nm 1024 1024 true))
                   | Some _ => mret tt
                   end) ;;
                  let tree := alter_node (set_image img_nm) tex_node tree in
                  store_material ref (with_node_tree tree mat) ;;
                  tree ← lift (links_new tex_node "Color" bsdf "Base Color" tree);
                  store_material ref (with_node_tree tree mat) ;;
                  report INFO (plain ("Added " +:+ layer_id layer_type +:+ " BoM layer to material")) ;;
                  mret FINISHED
              end
          end
      end
  | _ =>
      report ERROR (plain "Please select a mesh object") ;;
      mret CANCELLED
  end.

End AVASTAR_OT_bom_add_layer_slot.

Module AVASTAR_OT_bom_export_preview.

Definition execute : M OperatorResult :=
  act ← context_active_object;
  match act with
  | Some (_, ({| data := MeshData _ |} as o)) =>
      b ← get_blend;
      match active_material b o with
      | None =>
          report ERROR (plain "No material to preview") ;;
          mret CANCELLED
      | Some _ =>
          report INFO (plain "BoM preview generated (placeholder - requires full baking implementation)") ;;
          mret FINISHED
      end
  | _ =>
      report ERROR (plain "Please select a mesh object") ;;
      mret CANCELLED
  end.

End AVASTAR_OT_bom_export_preview.

(* ===================================================================== *)
(** ** Host operations on vertex groups and the modifier stack *)
(* ===================================================================== *)

Definition with_vertices (vs : list MeshVertex) (m : Mesh) : Mesh :=
  {| vertices := vs; polygons := polygons m; uv_layers := uv_layers m;
     materials := materials m |}.

(** [obj.vertex_groups[gi].remove([vi])]: vertex [vi] loses its assignment
    to group [gi]. *)
Definition vertex_group_remove (gi vi : nat) (m : Mesh) : Mesh :=
  with_vertices
    (alter (λ v, {| groups := remove_first (λ g, Nat.eqb (group g) gi) (groups v) |})
           vi (vertices m)) m.

(** [obj.vertex_groups.remove(obj.vertex_groups[i])]: the group leaves the
    object, every assignment to it leaves the mesh, and the assignments to
    the groups after it are renumbered. *)
Definition renumber (i : nat) (g : VertexGroupElement) : VertexGroupElement :=
  {| group := if bool_decide (i < group g)%nat then pred (group g) else group g;
     weight := weight g |}.

Definition drop_group (i : nat) (v : MeshVertex) : MeshVertex :=
  {| groups := map (renumber i) (filter (λ g, group g ≠ i) (groups v)) |}.

Definition vertex_groups_remove (i : nat) (st : list VertexGroup * Mesh)
    : list VertexGroup * Mesh :=
  (delete i st.1, with_vertices (map (drop_group i) (vertices st.2)) st.2).

(** [obj.modifiers.find(nm)] *)
Fixpoint modifiers_find (nm : string) (mods : list Modifier) : Z :=
  match mods with
  | [] => -1
  | m :: rest =>
      if String.eqb (mod_name m) nm then 0
      else let k := modifiers_find nm rest in if k <? 0 then -1 else k + 1
  end.

(** [bpy.ops.object.modifier_move_down(modifier=nm)] on the active object:
    the named modifier changes place with the one after it. *)
Fixpoint modifier_move_down (nm : string) (mods : list Modifier) : list Modifier :=
  match mods with
  | [] => []
  | m :: rest =>
      match rest with
      | [] => [m]
      | n :: rest' =>
          if String.eqb (mod_name m) nm then n :: m :: rest'
          else m :: modifier_move_down nm rest
      end
  end.

(* ===================================================================== *)
(** ** performance.py *)
(* ===================================================================== *)

Definition performance_log : string := "avastar.performance".

(** [clear_performance_caches()] *)
Definition with_caches (mc bc : gmap string CacheEntry) (w : World) : World :=
  {| blend := blend w; _mesh_cache := mc; _bone_cache := bc;
     reports := reports w; log := log w; clock := clock w; ticks := ticks w;
     host := host w |}.

Definition clear_performance_caches : M unit :=
  (λ w, (Returned tt, with_caches ∅ ∅ w)) ;;
  log_msg performance_log LOG_INFO (plain "Performance caches cleared").

(** The decorator [timed_operation]: two readings of the clock around the
    call, and a log line when they are more than 0.1 s apart. *)
Definition timed_operation {A : Type} (func_name : string) (func : M A) : M A :=
  start_time ← time_time;
  result ← func;
  end_time ← time_time;
  let elapsed := (end_time - start_time)%float in
  (if (0.1 <? elapsed)%float
   then log_msg performance_log LOG_INFO
          [Str (func_name +:+ " took "); Flt 3 elapsed; Str "s"]
   else mret tt) ;;
  mret result.

(** The world after the second reading of the clock and the log line, when
    the call started at [start_time] and ended in [w]. *)
Definition finish_timing (func_name : string) (start_time : float) (w : World) : World :=
  let elapsed := (clock w (ticks w) - start_time)%float in
  if (0.1 <? elapsed)%float
  then add_log {| logger := performance_log; level := LOG_INFO;
                  msg := [Str (func_name +:+ " took "); Flt 3 elapsed; Str "s"] |}
               (tick w)
  else tick w.

Definition cache_store (key : string) (e : CacheEntry) : M unit := λ w,
  (Returned tt, with_caches (<[key := e]> (_mesh_cache w)) (_bone_cache w) w).

Definition cache_lookup (key : string) : M (option CacheEntry) := λ w,
  (Returned (_mesh_cache w !! key), w).

(** [obj.data.vertices] and [obj.data.polygons] exist on mesh data only. *)
Definition mesh_of (o : Object) : M Mesh :=
  match data o with
  | MeshData m => mret m
  | _ => raise AttributeError
  end.

(** [get_cached_mesh_data(obj)] *)
Definition get_cached_mesh_data (obj : Object) : M CacheEntry :=
  timed_operation "get_cached_mesh_data"
    (hit ← cache_lookup (name obj);
     (match hit with
      | Some _ => mret tt
      | None =>
          mesh ← mesh_of obj;
          let vcount := len (vertices mesh) in
          let pcount := len (polygons mesh) in
          now ← time_time;
          cache_store (name obj)
            {| vertex_count := vcount; polygon_count := pcount; timestamp := now |}
      end) ;;
     entry ← cache_lookup (name obj);
     match entry with
     | Some e => mret e
     | None => raise KeyError
     end).

Abbreviation weights := (gmap string (list (nat * float))).

(** The body of the chunk loop: the assignments of the chunk's vertices,
    by vertex-group name, for the names in [bone_names]. *)
Definition chunk_weights (vgs : list VertexGroup) (bone_names : gset string)
    (chunk : list (nat * MeshVertex)) : weights :=
  foldl (λ cw iv,
           foldl (λ cw g,
                    match vgs !! group g with
                    | Some vg =>
                        if bool_decide (vg_name vg ∈ bone_names)
                        then <[vg_name vg :=
                                 default [] (cw !! vg_name vg) ++ [(iv.1, weight g)]]> cw
                        else cw
                    | None => cw
                    end) cw (groups iv.2))
        ∅ chunk.

(** The merge loop over the chunk results. *)
Definition merge_results (results : list weights) : weights :=
  foldl (λ final chunk_result,
           map_fold (λ bone_name ws final,
                       <[bone_name := default [] (final !! bone_name) ++ ws]> final)
                    final chunk_result)
        ∅ results.

Definition weight_calculation (obj : Object) (bone_names : gset string)
    (chunk_size : Z) : outcome weights :=
  match data obj with
  | MeshData mesh =>
      let vs := indexed (vertices mesh) in
      let total_verts := len vs in
      starts ← range 0 total_verts chunk_size;
      mret (merge_results
              (map (λ start_idx,
                      let end_idx := Z.min (start_idx + chunk_size) total_verts in
                      chunk_weights (vertex_groups obj) bone_names
                                    (slice vs start_idx end_idx))
                   starts))
  | _ => Raised AttributeError
  end.

(** [optimize_weight_calculation(obj, bone_names, chunk_size=1000)] *)
Definition optimize_weight_calculation (obj : Object) (bone_names : gset string)
    (chunk_size : Z) : M weights :=
  timed_operation "optimize_weight_calculation"
    (lift (weight_calculation obj bone_names chunk_size)).

Module AVASTAR_OT_performance_profile.

Definition warning_sign : string := "⚠️".

Definition execute : M OperatorResult :=
  act ← context_active_object;
  match act with
  | None =>
      report ERROR (plain "No active object") ;;
      mret CANCELLED
  | Some (_, obj) =>
      (* Mesh analysis *)
      '(rep, warnings) ←
        (if String.eqb (type obj) "MESH" then
           data ← get_cached_mesh_data obj;
           let vcount := vertex_count data in
           let pcount := polygon_count data in
           let mod_count := len (modifiers obj) in
           let vg_count := len (vertex_groups obj) in
           mret (["Vertices: " +:+ format_comma vcount;
                  "Polygons: " +:+ format_comma pcount;
                  "Modifiers: " +:+ str mod_count;
                  "Weight Groups: " +:+ str vg_count],
                 (if 50000 <? vcount
                  then [warning_sign +:+ " High vertex count (" +:+ format_comma vcount
                          +:+ "). Consider LOD optimization."]
                  else [])
                 ++ (if 5 <? mod_count
                     then [warning_sign +:+ " Many modifiers (" +:+ str mod_count
                             +:+ "). May impact viewport performance."]
                     else [])
                 ++ (if 100 <? vg_count
                     then [warning_sign +:+ " Many weight groups (" +:+ str vg_count
                             +:+ "). Animesh limit is 110 bones."]
                     else []))
         else mret ([], []));
      (* Armature analysis *)
      let armature :=
        find_armature (if String.eqb (type obj) "MESH" then modifiers obj else []) in
      '(rep, warnings) ←
        match armature with
        | Some armature =>
            arm ← armature_data armature;
            let bone_count := len (bones arm) in
            let deform_count := deform_bone_count arm in
            mret (rep ++ ["Total Bones: " +:+ str bone_count;
                          "Deform Bones: " +:+ str deform_count],
                  warnings ++
                  (if 110 <? deform_count
                   then [warning_sign +:+ " Exceeds Animesh bone limit ("
                           +:+ str deform_count +:+ "/110)"]
                   else []))
        | None => mret (rep, warnings)
        end;
      (* Display report *)
      report INFO (plain (join newline rep)) ;;
      (match warnings with
       | _ :: _ =>
           log_msg performance_log LOG_WARNING (plain "Performance Warnings:") ;;
           for_each warnings
             (λ w, log_msg performance_log LOG_WARNING (plain ("  " +:+ w)))
       | [] => mret tt
       end) ;;
      mret FINISHED
  end.

End AVASTAR_OT_performance_profile.

Module AVASTAR_OT_performance_optimize_scene.

(** [g.weight < 0.001] *)
Definition below_threshold (g : VertexGroupElement) : bool :=
  (weight g <? 0.001)%float.

(** The weight-cleaning loop. [list(v.groups)] is read when the loop
    reaches the vertex and is a copy of the assignments as they are then;
    [obj.vertex_groups[g.group]] raises [IndexError] for a group index
    outside the object's groups. The mesh is changed in place: the result
    is the mesh and [cleaned] as the loop has left them, and the exception
    that stopped it, if one did. *)
Definition clean_weights_loop (vgs : list VertexGroup) (mesh : Mesh)
    : Mesh * Z * option exn :=
  fold_in_place
    (λ st i,
       match vertices st.1 !! i with
       | None => (st, None)
       | Some v =>
           fold_in_place
             (λ st g,
                if below_threshold g then
                  match vgs !! group g with
                  | None => (st, Some IndexError)
                  | Some _ => ((vertex_group_remove (group g) i st.1, st.2 + 1), None)
                  end
                else (st, None))
             (groups v) st
       end)
    (seq 0 (length (vertices mesh))) (mesh, 0).

(** [used_groups]: the group indices some vertex refers to. *)
Definition used_groups (mesh : Mesh) : gset nat :=
  foldl (λ used v, foldl (λ used g, used ∪ {[group g]}) used (groups v))
        ∅ (vertices mesh).

(** The loop over [range(len(obj.vertex_groups) - 1, -1, -1)]. The result
    is the groups, the mesh and [removed]. *)
Definition remove_unused_loop (vgs : list VertexGroup) (mesh : Mesh)
    : outcome (list VertexGroup * Mesh * Z) :=
  let used := used_groups mesh in
  idxs ← range (len vgs - 1) (-1) (-1);
  fold_outcome
    (λ st i,
       if bool_decide (Z.to_nat i ∈ used) then Returned st
       else
         match st.1.1 !! Z.to_nat i with
         | None => Raised IndexError
         | Some _ => Returned (vertex_groups_remove (Z.to_nat i) st.1, st.2 + 1)
         end)
    idxs (vgs, mesh, 0).

(** [while obj.modifiers.find(mod.name) < len(obj.modifiers) - 1:
       bpy.ops.object.modifier_move_down(modifier=mod.name)].
    With the unique modifier names of the host the loop ends within
    [len(obj.modifiers)] rounds, which is the fuel given; the operator
    call fails on a name that is not in the stack. *)
Fixpoint move_to_end (fuel : nat) (nm : string) (mods : list Modifier)
    : outcome (list Modifier) :=
  if modifiers_find nm mods <? len mods - 1 then
    match fuel with
    | O => Raised RuntimeError
    | S fuel' =>
        if modifiers_find nm mods <? 0 then Raised RuntimeError
        else move_to_end fuel' nm (modifier_move_down nm mods)
    end
  else Returned mods.

Definition optimize_modifiers_loop (mods : list Modifier)
    : outcome (list Modifier * list Modifier) :=
  let armature_mods := filter (λ m, mod_type m = "ARMATURE") mods in
  mods' ← fold_outcome (λ ms m, move_to_end (length ms) (mod_name m) ms)
                       armature_mods mods;
  mret (mods', armature_mods).

Definition execute (clean_weights remove_unused_groups optimize_modifiers : bool)
    : M OperatorResult :=
  act ← context_active_object;
  match act with
  | Some (obj, ({| data := MeshData mesh |} as o)) =>
      (* Clean weights *)
      '(mesh, changes) ←
        (if clean_weights then
           let '(mesh', cleaned, raised) := clean_weights_loop (vertex_groups o) mesh in
           store_object obj (with_data (MeshData mesh') o) ;;
           match raised with
           | Some e => raise e
           | None =>
               mret (mesh',
                     if 0 <? cleaned
                     then ["Cleaned " +:+ str cleaned +:+ " zero-weight assignments"]
                     else [])
           end
         else mret (mesh, []));
      (* Remove unused groups *)
      '(vgs, mesh, changes) ←
        (if remove_unused_groups then
           '(vgs', mesh', removed) ← lift (remove_unused_loop (vertex_groups o) mesh);
           store_object obj (with_vertex_groups vgs' (with_data (MeshData mesh') o)) ;;
           mret (vgs', mesh',
                 changes ++
                 (if 0 <? removed
                  then ["Removed " +:+ str removed +:+ " unused weight groups"]
                  else []))
         else mret (vertex_groups o, mesh, changes));
      (* Optimize modifiers *)
      changes ←
        (if optimize_modifiers then
           '(mods', armature_mods) ← lift (optimize_modifiers_loop (modifiers o));
           store_object obj
             (with_modifiers mods' (with_vertex_groups vgs (with_data (MeshData mesh) o))) ;;
           mret (changes ++
                 match armature_mods with
                 | _ :: _ => ["Optimized modifier stack (" +:+ str (len armature_mods)
                                +:+ " armature mods)"]
                 | [] => []
                 end)
         else mret changes);
      (* Clear caches *)
      clear_performance_caches ;;
      let changes := changes ++ ["Cleared performance caches"] in
      (match changes with
       | _ :: _ => report INFO (plain (join " | " changes))
       | [] => report INFO (plain "No optimizations needed")
       end) ;;
      mret FINISHED
  | _ =>
      report ERROR (plain "Please select a mesh object") ;;
      mret CANCELLED
  end.

End AVASTAR_OT_performance_optimize_scene.

(* ===================================================================== *)
(** ** The operators that need a mesh *)
(* ===================================================================== *)

Inductive mesh_operator : Type :=
| Animesh_validate
| Animesh_optimize_bones (remove_unused : bool)
| Animesh_reduce_triangles (ratio_prop : float)
| Bom_setup_material
| Bom_add_layer_slot (layer_type : BomLayerType)
| Bom_export_preview
| Performance_optimize_scene (clean_weights remove_unused_groups optimize_modifiers : bool).

(** [bl_idname] of the operator class *)
Definition operator_idname (op : mesh_operator) : string :=
  match op with
  | Animesh_validate => "avastar.animesh_validate"
  | Animesh_optimize_bones _ => "avastar.animesh_optimize_bones"
  | Animesh_reduce_triangles _ => "avastar.animesh_reduce_triangles"
  | Bom_setup_material => "avastar.bom_setup_material"
  | Bom_add_layer_slot _ => "avastar.bom_add_layer_slot"
  | Bom_export_preview => "avastar.bom_export_preview"
  | Performance_optimize_scene _ _ _ => "avastar.performance_optimize_scene"
  end.

Definition run_operator (op : mesh_operator) : M OperatorResult :=
  match op with
  | Animesh_validate => AVASTAR_OT_animesh_validate.execute
  | Animesh_optimize_bones ru => AVASTAR_OT_animesh_optimize_bones.execute ru
  | Animesh_reduce_triangles r => AVASTAR_OT_animesh_reduce_triangles.execute r
  | Bom_setup_material => AVASTAR_OT_bom_setup_material.execute
  | Bom_add_layer_slot l => AVASTAR_OT_bom_add_layer_slot.execute l
  | Bom_export_preview => AVASTAR_OT_bom_export_preview.execute
  | Performance_optimize_scene c r o =>
      AVASTAR_OT_performance_optimize_scene.execute c r o
  end.

(** The two operators that look for an armature before doing anything. *)
Definition needs_armature (op : mesh_operator) : bool :=
  match op with
  | Animesh_validate | Animesh_optimize_bones _ => true
  | _ => false
  end.

(* ===================================================================== *)
(** ** A small scene to run the operators on *)
(* ===================================================================== *)

Definition demo_mesh : Mesh :=
  {| vertices := [ {| groups := [ {| group := 0; weight := 0.5 |};
                                  {| group := 1; weight := 0.0005 |} ] |};
                   {| groups := [ {| group := 0; weight := 1 |} ] |};
                   {| groups := [ {| group := 1; weight := 0.25 |} ] |} ];
     polygons := [ {| verts := [0; 1; 2]%nat |} ];
     uv_layers := ["UVMap"];
     materials := [] |}.

Definition demo_armature : Armature :=
  {| bones := [ {| bone_name := "Hip"; use_deform := true |};
                {| bone_name := "Knee"; use_deform := true |};
                {| bone_name := "Ankle"; use_deform := true |};
                {| bone_name := "Root"; use_deform := false |} ];
     edit_bones := None |}.

Definition demo_armature_modifier : Modifier :=
  {| mod_name := "Armature"; mod_type := "ARMATURE"; mod_object := Some "Rig";
     decimate_type := ""; ratio := 1; use_collapse_triangulate := false |}.

Definition demo_body : Object :=
  {| name := "Body"; data := MeshData demo_mesh;
     modifiers := [demo_armature_modifier];
     vertex_groups := [ {| vg_name := "Hip" |}; {| vg_name := "Toe" |};
                        {| vg_name := "Spare" |} ];
     active_material_index := 0 |}.

Definition demo_rig : Object :=
  {| name := "Rig"; data := ArmatureData demo_armature; modifiers := [];
     vertex_groups := []; active_material_index := 0 |}.

Definition demo_blend : Blend :=
  {| data_objects := {[ "Body" := demo_body; "Rig" := demo_rig ]};
     data_materials := ∅; data_images := ∅; active := Some "Body" |}.

(** Two hosts. The Principled BSDF of the first has an input named
    'Specular', as in the hosts before 4.0; in the second that input is
    named 'Specular IOR Level', as from 4.0 on. Of the other inputs of the
    node a few are listed. *)
Definition specular_host : Host :=
  {| principled_inputs := [socket "Base Color" (VColor 0.8 0.8 0.8 1);
                           socket "Metallic" (VFloat 0);
                           socket "Specular" (VFloat 0.5);
                           socket "Roughness" (VFloat 0.5)] |}.

Definition specular_ior_host : Host :=
  {| principled_inputs := [socket "Base Color" (VColor 0.8 0.8 0.8 1);
                           socket "Metallic" (VFloat 0);
                           socket "Roughness" (VFloat 0.5);
                           socket "IOR" (VFloat 1.5);
                           socket "Specular IOR Level" (VFloat 0.5)] |}.

(** A world on the first host, with empty caches and a clock at zero. *)
Definition world_of (b : Blend) : World :=
  {| blend := b; _mesh_cache := ∅; _bone_cache := ∅; reports := []; log := [];
     clock := λ _, 0%float; ticks := 0; host := specular_host |}.

(** The same world on another host. *)
Definition with_host (h : Host) (w : World) : World :=
  {| blend := blend w; _mesh_cache := _mesh_cache w; _bone_cache := _bone_cache w;
     reports := reports w; log := log w; clock := clock w; ticks := ticks w;
     host := h |}.

Definition demo_world : World := world_of demo_blend.


(* ===================================================================== *)
(** ** Notions used to state the properties *)
(* ===================================================================== *)

(** A byte below 128, and strings made of such bytes only. *)
Definition seven_bit (c : ascii) : bool :=
  match c with Ascii _ _ _ _ _ _ _ b7 => negb b7 end.

Fixpoint plain7 (s : string) : bool :=
  match s with
  | EmptyString => true
  | String c rest => seven_bit c && plain7 rest
  end.

Definition check_mark : string := "✅".



(** The number of bones with [use_deform] set, bone by bone. *)
Fixpoint count_deform (bs : list Bone) : Z :=
  match bs with
  | [] => 0
  | b :: rest => (if use_deform b then 1 else 0) + count_deform rest
  end.


(** [nm] is the name of a vertex group that some vertex of the mesh is
    assigned to, through a group index inside [vgs]. *)
Definition referenced_name (vgs : list VertexGroup) (mesh : Mesh) (nm : string) : Prop :=
  ∃ v g vg, v ∈ vertices mesh ∧ g ∈ groups v ∧ vgs !! group g = Some vg ∧ vg_name vg = nm.

(** The triangle count of the mesh of the object stored under [ref]. *)
Definition mesh_triangles (b : Blend) (ref : string) : option Z :=
  o ← data_objects b !! ref;
  match data o with
  | MeshData m => Some (triangle_count m)
  | _ => None
  end.

(** The modifier [avastar.animesh_reduce_triangles] adds, under the name
    the host gives it. *)
Definition animesh_decimate_named (nm : string) (r : float) : Modifier :=
  {| mod_name := nm; mod_type := "DECIMATE"; mod_object := None;
     decimate_type := "COLLAPSE"; ratio := r; use_collapse_triangulate := true |}.

Definition animesh_decimate (r : float) : Modifier :=
  animesh_decimate_named "Animesh_Decimate" r.

(** The object with that modifier at the end of its stack; the name is
    'Animesh_Decimate', or that name with the first free numeric suffix
    when a modifier of the object has it. *)
Definition decimated (o : Object) (r : float) : Object :=
  with_modifiers
    (modifiers o
     ++ [animesh_decimate_named (unique_name (map mod_name (modifiers o)) "Animesh_Decimate")
                                r]) o.

(** The triangle count a collapse Decimate modifier aims at on a mesh of
    [triangles] triangles: its ratio of them. *)
Definition decimate_target (m : Modifier) (triangles : float) : float :=
  (ratio m * triangles)%float.

(** A mesh of 40000 quads, 80000 triangles; its four vertices are
    weighted. *)
Definition dense_mesh : Mesh :=
  {| vertices := repeat {| groups := [ {| group := 0; weight := 1 |} ] |} 4;
     polygons := repeat {| verts := [0; 1; 2; 3]%nat |} (Z.to_nat 40000);
     uv_layers := ["UVMap"];
     materials := [] |}.

(** A mesh of 16385 quads, 32770 triangles, above the Animesh limit; its
    four vertices are weighted. *)
Definition heavy_mesh : Mesh :=
  {| vertices := repeat {| groups := [ {| group := 0; weight := 1 |} ] |} 4;
     polygons := repeat {| verts := [0; 1; 2; 3]%nat |} (Z.to_nat 16385);
     uv_layers := ["UVMap"];
     materials := [] |}.

Definition heavy_body : Object := with_data (MeshData heavy_mesh) demo_body.

Definition heavy_world : World :=
  world_of {| data_objects := {[ "Body" := heavy_body; "Rig" := demo_rig ]};
              data_materials := ∅; data_images := ∅; active := Some "Body" |}.

Definition dense_world : World :=
  world_of {| data_objects := {[ "Body" := with_data (MeshData dense_mesh) demo_body;
                                 "Rig" := demo_rig ]};
              data_materials := ∅; data_images := ∅; active := Some "Body" |}.

(** The verdict of [avastar.animesh_validate] in a world: its last report. *)
Definition validation_verdict (w : World) : option (ReportType * text) :=
  last (reports (AVASTAR_OT_animesh_validate.execute w).2).

(* ===================================================================== *)
(** ** Histories of calls, to state what the caches keep *)
(* ===================================================================== *)

(** What can happen to the world between two looks at the caches: a call
    of one of the functions of [performance.py], one of the operators, or
    the user editing the scene in the host. *)
Inductive call : Type :=
| Call_get_cached_mesh_data (obj : Object)
| Call_optimize_weight_calculation (obj : Object) (bone_names : gset string) (chunk_size : Z)
| Call_clear_performance_caches
| Call_performance_profile
| Call_operator (op : mesh_operator)
| Host_edit (f : Blend → Blend).

(** The calls that reach [clear_performance_caches]. *)
Definition clears (c : call) : bool :=
  match c with
  | Call_clear_performance_caches => true
  | Call_operator (Performance_optimize_scene _ _ _) => true
  | _ => false
  end.

Definition run_call (c : call) (w : World) : World :=
  match c with
  | Call_get_cached_mesh_data obj => (get_cached_mesh_data obj w).2
  | Call_optimize_weight_calculation obj names size =>
      (optimize_weight_calculation obj names size w).2
  | Call_clear_performance_caches => (clear_performance_caches w).2
  | Call_performance_profile => (AVASTAR_OT_performance_profile.execute w).2
  | Call_operator op => (run_operator op w).2
  | Host_edit f => with_blend (f (blend w)) w
  end.

Definition run_calls (cs : list call) (w : World) : World :=
  foldl (λ w c, run_call c w) w cs.

(** The caches of [w'] hold every entry of the caches of [w], unchanged. *)
Definition caches_kept (w w' : World) : Prop :=
  _mesh_cache w ⊆ _mesh_cache w' ∧ _bone_cache w ⊆ _bone_cache w'.

(** An action leaves the caches as they are. *)
Definition same_caches {A : Type} (m : M A) : Prop :=
  ∀ w, _mesh_cache (m w).2 = _mesh_cache w ∧ _bone_cache (m w).2 = _bone_cache w.

(** An action loses no cache entry. *)
Definition keeps_caches {A : Type} (m : M A) : Prop :=
  ∀ w, caches_kept w (m w).2.

(* ===================================================================== *)
(** ** The weight table, as a single pass describes it *)
(* ===================================================================== *)

(** The [(vertex index, weight)] pairs of the assignments to vertex groups
    named [bone], vertex after vertex. *)
Definition assignment_pairs (vgs : list VertexGroup) (bone : string) (i : nat)
    (g : VertexGroupElement) : list (nat * float) :=
  match vgs !! group g with
  | Some vg => if bool_decide (vg_name vg = bone) then [(i, weight g)] else []
  | None => []
  end.

Definition assignments_of (vgs : list VertexGroup) (bone : string)
    (vs : list (nat * MeshVertex)) : list (nat * float) :=
  flat_map (λ iv, flat_map (assignment_pairs vgs bone iv.1) (groups iv.2)) vs.

(** The entry of the table for a name with the pairs [l]: present when the
    name is asked for and has an assignment. *)
Definition entry_of (bone_names : gset string) (bone : string) (l : list (nat * float))
    : option (list (nat * float)) :=
  if bool_decide (bone ∈ bone_names) then match l with [] => None | _ => Some l end
  else None.

(** The same pairs for the vertices [vs] of a mesh, the first of which
    has the index [i]. *)
Fixpoint assignments_from (vgs : list VertexGroup) (bone : string) (i : nat)
    (vs : list MeshVertex) : list (nat * float) :=
  match vs with
  | [] => []
  | v :: rest =>
      flat_map (assignment_pairs vgs bone i) (groups v)
      ++ assignments_from vgs bone (S i) rest
  end.

(** The entry of the table for [bone], for a mesh with the vertices
    [vs]. *)
Definition weights_entry (vgs : list VertexGroup) (bone_names : gset string)
    (vs : list MeshVertex) (bone : string) : option (list (nat * float)) :=
  entry_of bone_names bone (assignments_from vgs bone 0 vs).

(** [(i, x)] is an assignment of weight [x] by the vertex of index [i] to
    a vertex group named [bone]. *)
Definition assigned (vgs : list VertexGroup) (mesh : Mesh) (bone : string)
    (i : nat) (x : float) : Prop :=
  ∃ v g vg, vertices mesh !! i = Some v ∧ g ∈ groups v
            ∧ vgs !! group g = Some vg ∧ vg_name vg = bone ∧ weight g = x.

(* ===================================================================== *)
(** ** Notions used to state what the profiler reports *)
(* ===================================================================== *)

(** The armature the profiler analyses for [o]: the target of the first
    armature modifier that has one. *)
Definition profiled_armature (b : Blend) (o : Object) (arm : option Armature) : Prop :=
  match find_armature (modifiers o) with
  | None => arm = None
  | Some a => ∃ rig armature, data_objects b !! a = Some rig
                              ∧ data rig = ArmatureData armature
                              ∧ arm = Some armature
  end.

(** The lines of the report for a mesh with [vcount] vertices and [pcount]
    polygons. *)
Definition profile_lines (vcount pcount : Z) (o : Object) (arm : option Armature)
    : list string :=
  ["Vertices: " +:+ format_comma vcount;
   "Polygons: " +:+ format_comma pcount;
   "Modifiers: " +:+ str (len (modifiers o));
   "Weight Groups: " +:+ str (len (vertex_groups o))]
  ++ match arm with
     | Some a => ["Total Bones: " +:+ str (len (bones a));
                  "Deform Bones: " +:+ str (deform_bone_count a)]
     | None => []
     end.

(** The warnings of the profiler, in the order the checks are made. *)
Definition profile_warnings (vcount : Z) (o : Object) (arm : option Armature)
    : list string :=
  (if 50000 <? vcount
   then [AVASTAR_OT_performance_profile.warning_sign +:+ " High vertex count ("
           +:+ format_comma vcount +:+ "). Consider LOD optimization."]
   else [])
  ++ (if 5 <? len (modifiers o)
      then [AVASTAR_OT_performance_profile.warning_sign +:+ " Many modifiers ("
              +:+ str (len (modifiers o)) +:+ "). May impact viewport performance."]
      else [])
  ++ (if 100 <? len (vertex_groups o)
      then [AVASTAR_OT_performance_profile.warning_sign +:+ " Many weight groups ("
              +:+ str (len (vertex_groups o)) +:+ "). Animesh limit is 110 bones."]
      else [])
  ++ match arm with
     | Some a =>
         if 110 <? deform_bone_count a
         then [AVASTAR_OT_performance_profile.warning_sign
                 +:+ " Exceeds Animesh bone limit (" +:+ str (deform_bone_count a)
                 +:+ "/110)"]
         else []
     | None => []
     end.

(** One of the four thresholds is exceeded. *)
Definition threshold_exceeded (vcount : Z) (o : Object) (arm : option Armature) : Prop :=
  50000 < vcount
  ∨ 5 < len (modifiers o)
  ∨ 100 < len (vertex_groups o)
  ∨ ∃ a, arm = Some a ∧ 110 < deform_bone_count a.

(** The demo scene with a mesh cache that holds an entry for "Body" of
    60000 vertices. *)
Definition stale_world : World :=
  with_caches {[ "Body" := {| vertex_count := 60000; polygon_count := 1;
                              timestamp := 0 |} ]} ∅ demo_world.

(** How such a cache comes about: "Body" has 60000 vertices when it is
    profiled; the user then replaces its mesh by the demo mesh. *)
Definition large_mesh : Mesh :=
  with_vertices (repeat {| groups := [ {| group := 0; weight := 1 |} ] |} (Z.to_nat 60000))
                demo_mesh.

Definition large_world : World :=
  world_of {| data_objects := {[ "Body" := with_data (MeshData large_mesh) demo_body;
                                 "Rig" := demo_rig ]};
              data_materials := ∅; data_images := ∅; active := Some "Body" |}.

Definition profiled_then_edited : World :=
  with_blend demo_blend (AVASTAR_OT_performance_profile.execute large_world).2.

(* ===================================================================== *)
(** ** Notions used to state what the Bakes-on-Mesh operators build *)
(* ===================================================================== *)

(** The host's Principled BSDF has an input named [nm]. *)
Definition has_input (h : Host) (nm : string) : bool :=
  bool_decide (nm ∈ map sock_name (principled_inputs h)).

(** The setup finds the two inputs it writes. *)
Definition bom_ready (h : Host) : bool :=
  has_input h "Specular" && has_input h "Roughness".

(** The sockets [socks] with the value [v] in the first socket named
    [nm], and the value of the first socket named [nm]. *)
Fixpoint with_default (nm : string) (v : SocketValue) (socks : list NodeSocket)
    : list NodeSocket :=
  match socks with
  | [] => []
  | s :: rest =>
      if String.eqb (sock_name s) nm then socket nm v :: rest
      else s :: with_default nm v rest
  end.


(** The inputs of the BSDF as the setup leaves them: 'Specular' at 0 and
    'Roughness' at 1 where the host has these inputs; 'Roughness' is
    written only once 'Specular' has been. *)
Definition bom_inputs (h : Host) : list NodeSocket :=
  if has_input h "Specular"
  then with_default "Roughness" (VFloat 1)
         (with_default "Specular" (VFloat 0) (principled_inputs h))
  else principled_inputs h.

(** The node graph of a Bakes-on-Mesh material: a Principled BSDF with
    these inputs, wired to a Material Output. *)
Definition bom_node_tree (h : Host) : NodeTree :=
  {| nodes :=
       [ {| node_name := "Principled BSDF"; bl_idname := "ShaderNodeBsdfPrincipled";
            label := ""; location := (0, 0); image := None;
            inputs := bom_inputs h;
            outputs := [socket "BSDF" VNone] |};
         {| node_name := "Material Output"; bl_idname := "ShaderNodeOutputMaterial";
            label := ""; location := (300, 0); image := None;
            inputs := [socket "Surface" VNone; socket "Volume" VNone;
                       socket "Displacement" VNone];
            outputs := [] |} ];
     links := [ {| from_node := 0; from_socket := "BSDF";
                   to_node := 1; to_socket := "Surface" |} ] |}.

(** The material slots after the material [ref] has taken slot 0. *)
Definition slots_with (ref : string) (slots : list (option string)) : list (option string) :=
  match slots with
  | [] => [Some ref]
  | _ :: rest => Some ref :: rest
  end.

(** The demo scene after [avastar.bom_setup_material]. *)
Definition bom_world : World := (AVASTAR_OT_bom_setup_material.execute demo_world).2.

(** The user switching the nodes of a material off. *)
Definition switch_nodes_off (ref : string) (b : Blend) : Blend :=
  with_data_materials
    (alter (λ m, {| mat_name := mat_name m; use_nodes := false;
                    node_tree := node_tree m |}) ref (data_materials b)) b.

(** The demo scene after the setup, with the nodes of "Body_BoM" switched
    off since. *)
Definition nodes_off_world : World :=
  with_blend (switch_nodes_off "Body_BoM" (blend bom_world)) bom_world.

(** The demo scene on the second host. *)
Definition later_world : World := with_host specular_ior_host demo_world.

(** "Body" with the material "Body_BoM" in its only slot, where the tree
    of the material holds one node: an image texture that the user has
    named 'Principled BSDF'. *)
Definition renamed_texture : Node :=
  {| node_name := "Principled BSDF"; bl_idname := "ShaderNodeTexImage"; label := "";
     location := (0, 0); image := None;
     inputs := [socket "Vector" VNone];
     outputs := [socket "Color" (VColor 0 0 0 1); socket "Alpha" (VFloat 1)] |}.

Definition misnamed_world : World :=
  world_of
    {| data_objects :=
         {[ "Body" := with_data (MeshData (with_materials [Some "Body_BoM"] demo_mesh))
                                demo_body;
            "Rig" := demo_rig ]};
       data_materials :=
         {[ "Body_BoM" := {| mat_name := "Body_BoM"; use_nodes := true;
                             node_tree := Some {| nodes := [renamed_texture];
                                                  links := [] |} |} ]};
       data_images := ∅; active := Some "Body" |}.

(** The names of the nodes and the links of the tree of a material, and
    the slots of the mesh of an object, as a world has them. *)
Definition node_names (w : World) (ref : string) : option (list string) :=
  m ← data_materials (blend w) !! ref; t ← node_tree m; Some (map node_name (nodes t)).

Definition node_links (w : World) (ref : string) : option (list NodeLink) :=
  m ← data_materials (blend w) !! ref; t ← node_tree m; Some (links t).

(** The material as the layer operator leaves it before it looks for the
    BSDF: with its nodes switched on. *)
Definition effective_material (h : Host) (mat : Material) : Material :=
  if use_nodes mat then mat else enable_nodes h mat.

(** The operator has nothing to add a layer to: no active mesh, no active
    material, or no node named 'Principled BSDF' in the material's tree. *)
Definition bom_layer_blocked (h : Host) (b : Blend) : Prop :=
  active_object b = None
  ∨ (∃ k o, active_object b = Some (k, o) ∧ type o ≠ "MESH")
  ∨ (∃ k o, active_object b = Some (k, o) ∧ type o = "MESH"
            ∧ active_material b o = None)
  ∨ (∃ k o ref mat tree,
       active_object b = Some (k, o) ∧ type o = "MESH"
       ∧ active_material b o = Some (ref, mat)
       ∧ node_tree (effective_material h mat) = Some tree
       ∧ nodes_get "Principled BSDF" (nodes tree) = None).

(** The active material, when there is one, has a node tree once its
    nodes are on, as the host guarantees, and the node found under the
    name 'Principled BSDF' has a 'Base Color' input. *)
Definition bom_well_formed (h : Host) (b : Blend) : bool :=
  match active_object b with
  | Some (_, o) =>
      match active_material b o with
      | Some (_, mat) =>
          match node_tree (effective_material h mat) with
          | None => false
          | Some tree =>
              match nodes_get "Principled BSDF" (nodes tree) with
              | Some i =>
                  match nodes tree !! i with
                  | Some n => bool_decide (is_Some (socket_index "Base Color" (inputs n)))
                  | None => false
                  end
              | None => true
              end
          end
      | None => true
      end
  | None => true
  end.

(** The texture node of a layer, its image, and the tree with the node
    added and wired to the 'Base Color' input of the node [bsdf]. *)
Definition bom_image_name (o : Object) (layer : BomLayerType) : string :=
  name o +:+ "_" +:+ layer_id layer +:+ "_BoM".

Definition bom_texture_node (o : Object) (layer : BomLayerType) (tree : NodeTree) : Node :=
  {| node_name := unique_name (map node_name (nodes tree)) ("BoM_" +:+ layer_id layer);
     bl_idname := "ShaderNodeTexImage";
     label := "BoM " +:+ layer_id layer; location := (-400, 0);
     image := Some (bom_image_name o layer);
     inputs := [socket "Vector" VNone];
     outputs := [socket "Color" (VColor 0 0 0 1); socket "Alpha" (VFloat 1)] |}.

Definition bom_layer_image (nm : string) : Image :=
  {| img_name := nm; width := 1024; height := 1024; alpha := true;
     source := "GENERATED" |}.

Definition bom_layer_tree (o : Object) (layer : BomLayerType) (tree : NodeTree)
    (bsdf : nat) : NodeTree :=
  {| nodes := nodes tree ++ [bom_texture_node o layer tree];
     links := filter (λ l, ¬ (to_node l = bsdf ∧ to_socket l = "Base Color")) (links tree)
              ++ [ {| from_node := length (nodes tree); from_socket := "Color";
                      to_node := bsdf; to_socket := "Base Color" |} ] |}.

(** The world after a layer was added. *)
Definition bom_layer_added (w : World) (o : Object) (layer : BomLayerType)
    (ref : string) (mat : Material) (tree : NodeTree) (bsdf : nat) : World :=
  add_report (INFO, plain ("Added " +:+ layer_id layer +:+ " BoM layer to material"))
    (with_blend
       {| data_objects := data_objects (blend w);
          data_materials :=
            <[ref := {| mat_name := mat_name mat; use_nodes := true;
                        node_tree := Some (bom_layer_tree o layer tree bsdf) |}]>
              (data_materials (blend w));
          data_images :=
            match data_images (blend w) !! bom_image_name o layer with
            | None => <[bom_image_name o layer := bom_layer_image (bom_image_name o layer)]>
                        (data_images (blend w))
            | Some _ => data_images (blend w)
            end;
          active := active (blend w) |} w).

(** The world after the operator cancelled: an error report, and nothing
    else but, at most, the nodes of the active material switched on. *)
Definition bom_layer_cancelled (w w' : World) : Prop :=
  ∃ message,
    w' = add_report (ERROR, message) w
    ∨ ∃ k o ref mat,
        active_object (blend w) = Some (k, o)
        ∧ active_material (blend w) o = Some (ref, mat)
        ∧ w' = add_report (ERROR, message)
                 (with_blend
                    (with_data_materials
                       (<[ref := enable_nodes (host w) mat]> (data_materials (blend w)))
                       (blend w)) w).

(* ===================================================================== *)
(** ** Notions used to state what the scene optimiser establishes *)
(* ===================================================================== *)

(** Every assignment refers to a vertex group of the object. *)
Definition valid_assignments (vgs : list VertexGroup) (mesh : Mesh) : Prop :=
  Forall (λ v, Forall (λ g, (group g < length vgs)%nat) (groups v)) (vertices mesh).

(** No vertex is assigned twice to the same group; the host keeps meshes
    that way. *)
Definition distinct_assignments (mesh : Mesh) : Prop :=
  Forall (λ v, NoDup (map group (groups v))) (vertices mesh).

(** No assignment is left with a weight below 0.001. *)
Definition no_low_weights (mesh : Mesh) : Prop :=
  Forall (λ v, Forall (λ g, AVASTAR_OT_performance_optimize_scene.below_threshold g = false)
                      (groups v)) (vertices mesh).

(** Some vertex is assigned to the group of index [p]. *)
Definition group_referenced (mesh : Mesh) (p : nat) : Prop :=
  ∃ v g, v ∈ vertices mesh ∧ g ∈ groups v ∧ group g = p.

(** The number of assignments of the mesh. *)
Definition assignment_count (mesh : Mesh) : Z :=
  sum (map (λ v, len (groups v)) (vertices mesh)).

(** A vertex without its assignments below the threshold. *)
Definition clean_vertex (v : MeshVertex) : MeshVertex :=
  {| groups := filter (λ g, AVASTAR_OT_performance_optimize_scene.below_threshold g = false)
                      (groups v) |}.


(** The demo mesh with one more assignment on its first vertex: weight 0,
    to a group index the object does not have. *)
Definition dangling_mesh : Mesh :=
  with_vertices
    ({| groups := [ {| group := 0; weight := 0.5 |}; {| group := 7; weight := 0 |} ] |}
     :: drop 1 (vertices demo_mesh)) demo_mesh.

Definition dangling_world : World :=
  world_of {| data_objects := {[ "Body" := with_data (MeshData dangling_mesh) demo_body;
                                 "Rig" := demo_rig ]};
              data_materials := ∅; data_images := ∅; active := Some "Body" |}.

(** The demo mesh with such an assignment on its second vertex, after the
    assignment of weight 0.0005 that the first vertex has. *)
Definition late_dangling_mesh : Mesh :=
  with_vertices
    [ {| groups := [ {| group := 0; weight := 0.5 |}; {| group := 1; weight := 0.0005 |} ] |};
      {| groups := [ {| group := 7; weight := 0 |} ] |};
      {| groups := [ {| group := 1; weight := 0.25 |} ] |} ] demo_mesh.

Definition late_dangling_world : World :=
  world_of {| data_objects := {[ "Body" := with_data (MeshData late_dangling_mesh) demo_body;
                                 "Rig" := demo_rig ]};
              data_materials := ∅; data_images := ∅; active := Some "Body" |}.

(** The invariant of the group-removal loop when it is about to look at
    the indices below [j]: the groups from [j] on are referenced, the
    indices below [j] are referenced exactly when they were at the start,
    [removed] is the number of groups gone, no weight is low, and the
    number of assignments is [a0]. *)
Definition removal_invariant (used : gset nat) (n0 : nat) (a0 : Z) (j : nat)
    (st : list VertexGroup * Mesh * Z) : Prop :=
  (∀ p, (j ≤ p < length st.1.1)%nat → group_referenced st.1.2 p)
  ∧ (∀ p, (p < j)%nat → (group_referenced st.1.2 p ↔ p ∈ used))
  ∧ (j ≤ length st.1.1)%nat
  ∧ st.2 = Z.of_nat n0 - len st.1.1
  ∧ no_low_weights st.1.2
  ∧ assignment_count st.1.2 = a0.

(* ===================================================================== *)
(** ** More scenes *)
(* ===================================================================== *)

(** The demo scene with a "Body" that has no modifier. *)
Definition bare_world : World :=
  world_of {| data_objects := {[ "Body" := with_modifiers [] demo_body; "Rig" := demo_rig ]};
              data_materials := ∅; data_images := ∅; active := Some "Body" |}.

(** "Body" as it is in [bom_world]. *)
Definition bom_body : Object :=
  with_data (MeshData (with_materials [Some "Body_BoM"] demo_mesh)) demo_body.

(** A "Body" that has since been given the heavy mesh. *)
Definition edited_body : Object := with_data (MeshData heavy_mesh) demo_body.

(** A mesh object without vertices. *)
Definition empty_body : Object :=
  with_data (MeshData (with_vertices [] demo_mesh)) demo_body.

(* ===================================================================== *)
(** ** Notions used to state what the scene optimiser does besides *)
(* ===================================================================== *)

(** The armature modifiers of a stack and the other ones, in stack order. *)
Definition armature_modifiers (mods : list Modifier) : list Modifier :=
  filter (λ m, mod_type m = "ARMATURE") mods.

Definition other_modifiers (mods : list Modifier) : list Modifier :=
  filter (λ m, mod_type m ≠ "ARMATURE") mods.

(** The world after [clear_performance_caches()]. *)
Definition caches_cleared (w : World) : World :=
  add_log {| logger := performance_log; level := LOG_INFO;
             msg := plain "Performance caches cleared" |} (with_caches ∅ ∅ w).

(** The line of the optimiser's report about the modifier stack. *)
Definition modifier_changes (armature_mods : list Modifier) : list string :=
  match armature_mods with
  | _ :: _ => ["Optimized modifier stack (" +:+ str (len armature_mods) +:+ " armature mods)"]
  | [] => []
  end.

(** A "Body" with four modifiers: an armature, a subdivision, a second
    armature and a decimation. *)
Definition demo_subsurf_modifier : Modifier :=
  {| mod_name := "Subdivision"; mod_type := "SUBSURF"; mod_object := None;
     decimate_type := ""; ratio := 1; use_collapse_triangulate := false |}.

Definition demo_second_armature_modifier : Modifier :=
  {| mod_name := "Armature.001"; mod_type := "ARMATURE"; mod_object := None;
     decimate_type := ""; ratio := 1; use_collapse_triangulate := false |}.

Definition stacked_body : Object :=
  with_modifiers [demo_armature_modifier; demo_subsurf_modifier;
                  demo_second_armature_modifier; animesh_decimate 0.5] demo_body.

Definition stacked_world : World :=
  world_of {| data_objects := {[ "Body" := stacked_body; "Rig" := demo_rig ]};
              data_materials := ∅; data_images := ∅; active := Some "Body" |}.

(** An action leaves a part of the world, read by [part], as it is,
    whether it returns or raises. *)
Definition preserves {B A : Type} (part : World → B) (m : M A) : Prop :=
  ∀ w, part (m w).2 = part w.

(** The demo scene as the optimiser leaves it: the weight of 0.0005 is
    gone from the first vertex and the group "Spare" from the object. *)
Definition clean_mesh : Mesh :=
  with_vertices [ {| groups := [ {| group := 0; weight := 0.5 |} ] |};
                  {| groups := [ {| group := 0; weight := 1 |} ] |};
                  {| groups := [ {| group := 1; weight := 0.25 |} ] |} ] demo_mesh.

Definition clean_body : Object :=
  with_vertex_groups [ {| vg_name := "Hip" |}; {| vg_name := "Toe" |} ]
    (with_data (MeshData clean_mesh) demo_body).

Definition optimized_world : World :=
  (AVASTAR_OT_performance_optimize_scene.execute true true false demo_world).2.

(** The demo scene with the armature object active. *)
Definition rig_active_world : World :=
  with_blend (with_active (Some "Rig") demo_blend) demo_world.

(** The log record of the decorator [timed_operation] for a call of
    [func_name] that took [elapsed] seconds. *)
Definition timing_record (func_name : string) (elapsed : float) : LogRecord :=
  {| logger := performance_log; level := LOG_INFO;
     msg := [Str (func_name +:+ " took "); Flt 3 elapsed; Str "s"] |}.

(** An outcome is a result, not an exception. *)
Definition returned {A : Type} (r : outcome A) : bool :=
  match r with Returned _ => true | Raised _ => false end.

(* ===================================================================== *)
(** ** Notions used to state what repeated runs of the operators do *)
(* ===================================================================== *)

(** The settings of a modifier, apart from its name. *)
Definition modifier_settings (m : Modifier) : string * string * float * bool :=
  (mod_type m, decimate_type m, ratio m, use_collapse_triangulate m).

(** [avastar.animesh_reduce_triangles] run once for each of the ratios. *)
Definition reduce_repeatedly (ratios : list float) (w : World) : World :=
  foldl (λ w r, (AVASTAR_OT_animesh_reduce_triangles.execute r w).2) w ratios.

(** The bones [avastar.animesh_optimize_bones] removes: the deform bones
    whose name no vertex group in use carries. *)
Definition unused_bone (o : Object) (mesh : Mesh) (b : Bone) : bool :=
  use_deform b
  && negb (bool_decide
             (bone_name b ∈ AVASTAR_OT_animesh_optimize_bones.used_bones (vertex_groups o) mesh)).

Definition kept_bones (o : Object) (mesh : Mesh) (arm : Armature) : Armature :=
  {| bones := filter (λ b, unused_bone o mesh b = false) (bones arm); edit_bones := None |}.

(* ===================================================================== *)
(** ** The panels *)
(* ===================================================================== *)

(** The truth value of a Python value that is [None] or a [bool]. *)
Definition truthy (v : option bool) : bool := default false v.

(** An icon: one of the three constants the files import from [.const],
    or a literal name. *)
Inductive Icon : Type :=
| ICON_MESH_DATA
| ICON_ERROR
| ICON_INFO
| IconNamed (value : string).

(** What [draw] puts into the layout: labels and operator buttons, in
    boxes, rows and columns. A button carries the [layer_type] that
    [draw] assigns to the operator properties, if it assigns one. *)
#[local] Unset Elimination Schemes.
Inductive UIElement : Type :=
| UILabel (text : string) (icon : option Icon)
| UIOperator (idname : string) (text : option string) (icon : option Icon)
    (layer_type : option string)
| UIBox (children : list UIElement)
| UIColumn (align : bool) (children : list UIElement)
| UIRow (align : bool) (children : list UIElement).
#[local] Set Elimination Schemes.

(** The labels and buttons of an element, in the order they are drawn. *)
Fixpoint leaves (e : UIElement) : list UIElement :=
  match e with
  | UIBox children | UIColumn _ children | UIRow _ children => flat_map leaves children
  | leaf => [leaf]
  end.

Definition panel_leaves (layout : list UIElement) : list UIElement :=
  flat_map leaves layout.

(** The operators a layout has buttons for, and the layer types its
    layer buttons carry. *)
Definition panel_operators (layout : list UIElement) : list string :=
  omap (λ e, match e with UIOperator idname _ _ _ => Some idname | _ => None end)
       (panel_leaves layout).

Definition panel_layers (layout : list UIElement) : list string :=
  omap (λ e, match e with
             | UIOperator "avastar.bom_add_layer_slot" _ _ layer => layer
             | _ => None
             end)
       (panel_leaves layout).

Module AVASTAR_PT_animesh_tools.

(** [poll]: [x and y] is [x] when [x] is falsy, so the value is [None]
    without an active object and the comparison otherwise. *)
Definition poll (b : Blend) : option bool :=
  match active_object b with
  | None => None
  | Some (_, obj) => Some (String.eqb (type obj) "MESH")
  end.

(** The bone statistics [draw] shows under the validation button. *)
Definition bone_stats (b : Blend) : outcome (list UIElement) :=
  match active_object b with
  | Some (_, obj) =>
      match find_armature (modifiers obj) with
      | Some armature =>
          match data_objects b !! armature with
          | None => Raised ReferenceError
          | Some rig =>
              match data rig with
              | ArmatureData arm =>
                  let bone_count := deform_bone_count arm in
                  Returned
                    [UIColumn true
                       [UIRow false
                          (UILabel ("Bones: " +:+ str bone_count +:+ "/"
                                    +:+ str ANIMESH_MAX_BONES) None
                           :: (if ANIMESH_MAX_BONES <? bone_count
                               then [UILabel "" (Some ICON_ERROR)] else []))]]
              | _ => Raised AttributeError
              end
          end
      | None => Returned []
      end
  | None => Returned []
  end.

Definition draw (b : Blend) : outcome (list UIElement) :=
  stats ← bone_stats b;
  mret [UIBox ([UILabel "Validation" (Some ICON_INFO);
                UIOperator "avastar.animesh_validate" None (Some (IconNamed "ZOOM_ALL")) None]
               ++ stats);
        UIBox [UILabel "Optimization" (Some ICON_MESH_DATA);
               UIOperator "avastar.animesh_optimize_bones" None None None;
               UIOperator "avastar.animesh_reduce_triangles" None None None];
        UIBox [UILabel "Limits" (Some ICON_INFO);
               UIColumn true
                 [UILabel ("Max Bones: " +:+ str ANIMESH_MAX_BONES) None;
                  UILabel ("Max Triangles: " +:+ format_comma ANIMESH_MAX_TRIANGLES) None;
                  UILabel ("Max Complexity: " +:+ format_comma ANIMESH_MAX_COMPLEXITY)
                          None]]].

End AVASTAR_PT_animesh_tools.

Module AVASTAR_PT_bom_tools.

Definition poll (b : Blend) : option bool :=
  match active_object b with
  | None => None
  | Some (_, obj) => Some (String.eqb (type obj) "MESH")
  end.

(** The box of layer buttons, drawn when [obj and obj.active_material]. *)
Definition layer_box (b : Blend) : list UIElement :=
  match active_object b with
  | Some (_, obj) =>
      match active_material b obj with
      | Some _ =>
          [UIBox [UILabel "System Layers" (Some (IconNamed "TEXTURE"));
                  UIOperator "avastar.bom_add_layer_slot" None (Some (IconNamed "ADD"))
                             (Some "SKIN");
                  UIRow true
                    [UIOperator "avastar.bom_add_layer_slot" (Some "Tattoo") None
                                (Some "TATTOO");
                     UIOperator "avastar.bom_add_layer_slot" (Some "Clothing") None
                                (Some "CLOTHING")]]]
      | None => []
      end
  | None => []
  end.

Definition draw (b : Blend) : list UIElement :=
  [UIBox [UILabel "BoM Material Setup" (Some (IconNamed "MATERIAL"));
          UIOperator "avastar.bom_setup_material" None (Some (IconNamed "ADD")) None]]
  ++ layer_box b
  ++ [UIBox [UILabel "Preview & Export" (Some (IconNamed "RENDER_RESULT"));
             UIOperator "avastar.bom_export_preview" None (Some (IconNamed "PLAY")) None]].

End AVASTAR_PT_bom_tools.

Module AVASTAR_PT_performance_tools.

Definition draw (b : Blend) : list UIElement :=
  [UIBox [UILabel "Analysis" None;
          UIOperator "avastar.performance_profile" None (Some (IconNamed "TIME")) None];
   UIBox [UILabel "Optimization" None;
          UIOperator "avastar.performance_optimize_scene" None
                     (Some (IconNamed "MOD_BUILD")) None]].

End AVASTAR_PT_performance_tools.

(** [bl_idname] of the operator classes, by class name, and the operators
    among the classes of a file. *)
Definition operator_classes : list (string * string) :=
  [("AVASTAR_OT_animesh_validate", "avastar.animesh_validate");
   ("AVASTAR_OT_animesh_optimize_bones", "avastar.animesh_optimize_bones");
   ("AVASTAR_OT_animesh_reduce_triangles", "avastar.animesh_reduce_triangles");
   ("AVASTAR_OT_bom_setup_material", "avastar.bom_setup_material");
   ("AVASTAR_OT_bom_add_layer_slot", "avastar.bom_add_layer_slot");
   ("AVASTAR_OT_bom_export_preview", "avastar.bom_export_preview");
   ("AVASTAR_OT_performance_profile", "avastar.performance_profile");
   ("AVASTAR_OT_performance_optimize_scene", "avastar.performance_optimize_scene")].

(** Every report an action adds satisfies [P]. *)
Definition adds_reports {A : Type} (P : ReportType * text → Prop) (m : M A) : Prop :=
  ∀ w, ∃ new, reports (m w).2 = reports w ++ new ∧ Forall P new.

(* ===================================================================== *)
(** ** Notions used to state how the Bakes-on-Mesh operators compose *)
(* ===================================================================== *)

(** The material [avastar.bom_setup_material] leaves under the name
    [nm], where [found] is the material of that name it met, and the
    object it leaves. *)
Definition bom_material (h : Host) (nm : string) (found : option Material) : Material :=
  {| mat_name := from_option mat_name nm found;
     use_nodes := from_option use_nodes true found;
     node_tree := Some (bom_node_tree h) |}.

Definition bom_object (nm : string) (o : Object) (mesh : Mesh) : Object :=
  with_data (MeshData (with_materials (slots_with nm (materials mesh)) mesh)) o.

(** The world after [avastar.bom_setup_material] has finished. *)
Definition bom_material_set_up (w : World) (k : string) (o : Object) (mesh : Mesh) : World :=
  let nm := name o +:+ "_BoM" in
  add_report (INFO, plain ("BoM material '" +:+ nm +:+ "' created successfully"))
    (with_blend
       {| data_objects := <[k := bom_object nm o mesh]> (data_objects (blend w));
          data_materials :=
            <[nm := bom_material (host w) nm (data_materials (blend w) !! nm)]>
              (data_materials (blend w));
          data_images := data_images (blend w);
          active := active (blend w) |} w).

(** The world after [avastar.bom_setup_material] has stopped at an input
    the host's BSDF does not have: the material is there with its graph,
    the object and the reports are as before. *)
Definition bom_material_stopped (w : World) (o : Object) : World :=
  let nm := name o +:+ "_BoM" in
  with_blend
    (with_data_materials
       (<[nm := bom_material (host w) nm (data_materials (blend w) !! nm)]>
          (data_materials (blend w))) (blend w)) w.

(** The link from the texture node at position [tex] to the 'Base Color'
    input of the node at position [bsdf]. *)
Definition base_color_link (tex bsdf : nat) : NodeLink :=
  {| from_node := tex; from_socket := "Color"; to_node := bsdf; to_socket := "Base Color" |}.

(** The demo scene with a material named "Body_BoM" that never had its
    nodes switched on. *)
Definition plain_material_world : World :=
  with_blend (with_data_materials {[ "Body_BoM" := materials_new "Body_BoM" ]} demo_blend)
             demo_world.

(** A "Body" with two empty material slots, the second one active. *)
Definition two_slot_body : Object :=
  {| name := "Body"; data := MeshData (with_materials [None; None] demo_mesh);
     modifiers := [demo_armature_modifier];
     vertex_groups := vertex_groups demo_body;
     active_material_index := 1 |}.

Definition two_slot_world : World :=
  world_of {| data_objects := {[ "Body" := two_slot_body; "Rig" := demo_rig ]};
              data_materials := ∅; data_images := ∅; active := Some "Body" |}.

(* ===================================================================== *)
(** ** Notions used to compare runs of the validator *)
(* ===================================================================== *)

(** What a run of [avastar.animesh_validate] in [w] gives: its result and
    the reports it adds. *)
Definition validation (w : World) : outcome OperatorResult * list (ReportType * text) :=
  ((AVASTAR_OT_animesh_validate.execute w).1,
   drop (length (reports w)) (reports (AVASTAR_OT_animesh_validate.execute w).2)).

(** The two reports of the validator for an armature and a mesh. *)
Definition validation_reports (arm : Armature) (mesh : Mesh) : list (ReportType * text) :=
  let issues := [AVASTAR_OT_animesh_validate.bone_issue (deform_bone_count arm);
                 AVASTAR_OT_animesh_validate.triangle_issue (triangle_count mesh);
                 AVASTAR_OT_animesh_validate.weight_issue (unweighted mesh)] in
  [(INFO, plain ("Animesh Validation:" +:+ newline +:+ join newline issues));
   if forallb (str_in "✅") issues
   then (INFO, plain "Mesh is Animesh compatible!")
   else (WARNING, plain "Mesh has Animesh compatibility issues")].

(* ===================================================================== *)
(** ** Registration *)
(* ===================================================================== *)

(** The classes the host has registered, by class name, beside the
    world. *)
Record Session : Type := { world : World; registered : list string }.

Definition R (A : Type) : Type := Session → outcome A * Session.

#[global] Instance R_ret : MRet R := λ A a s, (Returned a, s).
#[global] Instance R_bind : MBind R := λ A B f m s,
  match m s with
  | (Returned a, s') => f a s'
  | (Raised e, s') => (Raised e, s')
  end.

(** An action on the world, run in a session. *)
Definition in_world {A : Type} (m : M A) : R A := λ s,
  ((m (world s)).1, {| world := (m (world s)).2; registered := registered s |}).

(** [bpy.utils.register_class(cls)]: the host refuses a class that is
    registered with [ValueError]. *)
Definition register_class (cls : string) : R unit := λ s,
  if bool_decide (cls ∈ registered s) then (Raised ValueError, s)
  else (Returned tt, {| world := world s; registered := registered s ++ [cls] |}).

(** [bpy.utils.unregister_class(cls)]: the host refuses a class that is
    not registered with [RuntimeError]. *)
Definition unregister_class (cls : string) : R unit := λ s,
  if bool_decide (cls ∈ registered s)
  then (Returned tt, {| world := world s;
                        registered := filter (λ c, c ≠ cls) (registered s) |})
  else (Raised RuntimeError, s).

(** [for cls in classes: body cls] *)
Fixpoint for_classes (classes : list string) (body : string → R unit) : R unit :=
  match classes with
  | [] => mret tt
  | cls :: rest => body cls ;; for_classes rest body
  end.

Definition register_log : string := "avastar.register".

(** ["%s" % cls] for a class of the module [module_name]. *)
Definition class_str (module_name cls : string) : string :=
  "<class '" +:+ module_name +:+ "." +:+ cls +:+ "'>".

(** The two loops the three files share, up to the tag in the message:
    [for cls in classes: register_class(cls); registerlog.info(...)] and
    [for cls in reversed(classes): unregister_class(cls); registerlog.info(...)]. *)
Definition register_classes (tag module_name : string) (classes : list string) : R unit :=
  for_classes classes
    (λ cls, register_class cls ;;
            in_world (log_msg register_log LOG_INFO
                        (plain ("Registered " +:+ tag +:+ ":" +:+ class_str module_name cls)))).

Definition unregister_classes (tag module_name : string) (classes : list string) : R unit :=
  for_classes (rev classes)
    (λ cls, unregister_class cls ;;
            in_world (log_msg register_log LOG_INFO
                        (plain ("Unregistered " +:+ tag +:+ ":" +:+ class_str module_name cls)))).

(** [register()] and [unregister()] of each file; [module_name] is the
    name the file is imported under. *)
Module animesh.

Definition classes : list string :=
  ["AVASTAR_OT_animesh_validate"; "AVASTAR_OT_animesh_optimize_bones";
   "AVASTAR_OT_animesh_reduce_triangles"; "AVASTAR_PT_animesh_tools"].

Definition register (module_name : string) : R unit :=
  register_classes "animesh" module_name classes.

Definition unregister (module_name : string) : R unit :=
  unregister_classes "animesh" module_name classes.

End animesh.

Module bom.

Definition classes : list string :=
  ["AVASTAR_OT_bom_setup_material"; "AVASTAR_OT_bom_add_layer_slot";
   "AVASTAR_OT_bom_export_preview"; "AVASTAR_PT_bom_tools"].

Definition register (module_name : string) : R unit :=
  register_classes "bom" module_name classes.

Definition unregister (module_name : string) : R unit :=
  unregister_classes "bom" module_name classes.

End bom.

Module performance.

Definition classes : list string :=
  ["AVASTAR_OT_performance_profile"; "AVASTAR_OT_performance_optimize_scene";
   "AVASTAR_PT_performance_tools"].

Definition register (module_name : string) : R unit :=
  register_classes "performance" module_name classes.

Definition unregister (module_name : string) : R unit :=
  in_world clear_performance_caches ;;
  unregister_classes "performance" module_name classes.

End performance.

(** The three files. *)
Inductive addon_file : Type := animesh_py | bom_py | performance_py.

Definition file_classes (f : addon_file) : list string :=
  match f with
  | animesh_py => animesh.classes
  | bom_py => bom.classes
  | performance_py => performance.classes
  end.

Definition file_register (f : addon_file) : string → R unit :=
  match f with
  | animesh_py => animesh.register
  | bom_py => bom.register
  | performance_py => performance.register
  end.

Definition file_unregister (f : addon_file) : string → R unit :=
  match f with
  | animesh_py => animesh.unregister
  | bom_py => bom.unregister
  | performance_py => performance.unregister
  end.

(** The world a file's [unregister] works on: [performance.py] clears the
    caches first. *)
Definition unregister_start (f : addon_file) (w : World) : World :=
  match f with
  | performance_py => caches_cleared w
  | _ => w
  end.

(** A session on the demo scene with a stale cache entry and nothing
    registered. *)
Definition fresh_session : Session := {| world := stale_world; registered := [] |}.

(** The tag of a file in its messages, and the record of a message. *)
Definition file_tag (f : addon_file) : string :=
  match f with
  | animesh_py => "animesh"
  | bom_py => "bom"
  | performance_py => "performance"
  end.

Definition registration_record (verb tag module_name cls : string) : LogRecord :=
  {| logger := register_log; level := LOG_INFO;
     msg := plain (verb +:+ " " +:+ tag +:+ ":" +:+ class_str module_name cls) |}.

(** The log records of [clear_performance_caches] where a file's
    [unregister] calls it. *)
Definition unregister_clearing (f : addon_file) : list LogRecord :=
  match f with
  | performance_py => [ {| logger := performance_log; level := LOG_INFO;
                           msg := plain "Performance caches cleared" |} ]
  | _ => []
  end.

(* ===================================================================== *)
(** ** Notions used to state what the scene optimiser keeps *)
(* ===================================================================== *)

(** The assignments of a vertex as [(group name, weight)] pairs, for the
    assignments whose index is inside [vgs]. *)
Definition named_weights (vgs : list VertexGroup) (v : MeshVertex) : list (string * float) :=
  omap (λ g, (λ vg, (vg_name vg, weight g)) <$> vgs !! group g) (groups v).

(** What a mesh is apart from the assignments of its vertices. *)
Definition geometry (m : Mesh) : nat * list MeshPolygon * list string * list (option string) :=
  (length (vertices m), polygons m, uv_layers m, materials m).

(** The [bl_idname]s of the operators among the classes a file
    registers. *)
Definition file_operators (f : addon_file) : list string :=
  omap (λ cls, (list_to_map operator_classes : gmap string string) !! cls) (file_classes f).

(** The demo scene with an armature of 111 deform bones. *)
Definition crowded_armature : Armature :=
  {| bones := map (λ i, {| bone_name := "Bone" +:+ str (Z.of_nat i); use_deform := true |})
                  (seq 0 111);
     edit_bones := None |}.

Definition crowded_blend : Blend :=
  {| data_objects := {[ "Body" := demo_body;
                        "Rig" := with_data (ArmatureData crowded_armature) demo_rig ]};
     data_materials := ∅; data_images := ∅; active := Some "Body" |}.

(* ===================================================================== *)
(** ** Proof tools *)
(* ===================================================================== *)

(** Running the monad: binds and the primitive actions are unfolded, the
    world updates are left as they are. *)
Ltac run_monad :=
  cbv [mbind M_bind mret M_ret context_active_object get_blend set_blend report
       raise lift armature_data deref_object log_msg for_each store_object
       store_material store_image set_active].

Ltac world_simpl :=
  cbn [blend reports log _mesh_cache _bone_cache clock ticks add_report add_log
       with_blend tick with_caches data_objects data_materials data_images active
       with_objects with_active with_data_materials with_data_images].

Ltac world_simpl_in H :=
  cbn [blend reports log _mesh_cache _bone_cache clock ticks add_report add_log
       with_blend tick with_caches data_objects data_materials data_images active
       with_objects with_active with_data_materials with_data_images] in H.

Ltac unfold_execute :=
  cbn [run_operator];
  unfold AVASTAR_OT_animesh_validate.execute,
         AVASTAR_OT_animesh_optimize_bones.execute,
         AVASTAR_OT_animesh_reduce_triangles.execute,
         AVASTAR_OT_bom_setup_material.execute,
         AVASTAR_OT_bom_add_layer_slot.execute,
         AVASTAR_OT_bom_export_preview.execute,
         AVASTAR_OT_performance_optimize_scene.execute.

(* ===================================================================== *)
(** ** The guards of the mesh operators *)
(* ===================================================================== *)

Lemma type_mesh (o : Object) : type o = "MESH" ↔ ∃ m, data o = MeshData m.
Proof.
  unfold type. destruct (data o) as [m| |[]]; split; intros H; try discriminate; eauto;
  destruct H as [? H]; discriminate.
Qed.

(** C10. An operator that needs a mesh cancels when there is no active
    object or the active object is not a mesh, and the two operators that
    need an armature cancel when the mesh has no armature modifier with a
    target; in each case the world is the one before, with one error
    report added. *)
Theorem mesh_operators_cancel (op : mesh_operator) (w : World) :
  active_object (blend w) = None
  ∨ (∃ k o, active_object (blend w) = Some (k, o) ∧ type o ≠ "MESH")
  ∨ (needs_armature op = true
     ∧ ∃ k o, active_object (blend w) = Some (k, o) ∧ type o = "MESH"
              ∧ find_armature (modifiers o) = None) →
  ∃ message, run_operator op w = (Returned CANCELLED, add_report (ERROR, message) w).
Proof.
  intros [Hnone | [(k & o & Hact & Hty) | (Hneed & k & o & Hact & Hty & Hfind)]].
  - destruct op; unfold_execute; run_monad; rewrite Hnone; eauto.
  - assert (Hd : ∀ m, data o ≠ MeshData m).
    { intros m Hm. apply Hty, type_mesh. eauto. }
    destruct op; unfold_execute; run_monad; rewrite Hact;
      destruct o as [nm [m| |] mods vgs ami]; cbn in *;
      try (exfalso; eapply Hd; reflexivity); eauto.
  - apply type_mesh in Hty as [m Hm].
    destruct op; try discriminate; unfold_execute; run_monad; rewrite Hact;
      destruct o as [nm d mods vgs ami]; cbn in *; subst d; rewrite Hfind; eauto.
Qed.

(* ===================================================================== *)
(** ** Animesh validation *)
(* ===================================================================== *)


Lemma plain7_app s t : plain7 (s +:+ t) = plain7 s && plain7 t.
Proof. induction s as [|c s IH]; simpl; [done|]. rewrite IH. by rewrite andb_assoc. Qed.

Lemma plain7_no_check s : plain7 s = true → str_in check_mark s = false.
Proof.
  induction s as [|c s IH]; [done|].
  cbn [plain7]. intros [Hc Hs]%andb_true_iff.
  cbn [str_in]. rewrite (IH Hs), orb_false_r.
  destruct c as [b0 b1 b2 b3 b4 b5 b6 b7]. cbn in Hc.
  destruct b7; [done|]. 
  unfold check_mark. cbn. 
  destruct b0, b1, b2, b3, b4, b5, b6; reflexivity.
Qed.

Lemma plain7_uint d : plain7 (NilEmpty.string_of_uint d) = true.
Proof. induction d; cbn; auto. Qed.

Lemma plain7_str n : plain7 (str n) = true.
Proof.
  unfold str. destruct (Z.to_int n) as [d|d]; cbn.
  - destruct d; cbn; auto using plain7_uint.
  - destruct d; cbn; auto using plain7_uint.
Qed.






Import AVASTAR_OT_animesh_validate.

Lemma cross_then s : str_in check_mark ("❌" +:+ s) = str_in check_mark s.
Proof.
  change ("❌" +:+ s) with (String "226" (String "157" (String "140" s))).
  cbn [str_in]. 
  assert (H1 : String.prefix check_mark (String "226" (String "157" (String "140" s))) = false) by reflexivity.
  assert (H2 : String.prefix check_mark (String "157" (String "140" s)) = false) by reflexivity.
  assert (H3 : String.prefix check_mark (String "140" s) = false) by reflexivity.
  rewrite H1, H2, H3. reflexivity.
Qed.

Lemma check_first s : str_in check_mark (check_mark +:+ s) = true.
Proof.
  change (check_mark +:+ s) with (String "226" (String "156" (String "133" s))).
  cbn [str_in].
  assert (H1 : String.prefix check_mark (String "226" (String "156" (String "133" s))) = true).
  { unfold check_mark. cbn. destruct s; reflexivity. }
  rewrite H1. reflexivity.
Qed.

Lemma bone_issue_ok n : str_in check_mark (bone_issue n) = negb (ANIMESH_MAX_BONES <? n).
Proof.
  unfold bone_issue. destruct (ANIMESH_MAX_BONES <? n); cbn [negb].
  - change (str_in check_mark ("❌" +:+ (" Too many bones: " +:+ str n +:+ "/" +:+ str ANIMESH_MAX_BONES)) = false).
    rewrite cross_then. apply plain7_no_check.
    rewrite !plain7_app, !plain7_str. reflexivity.
  - apply (check_first (" Bone count: " +:+ str n +:+ "/" +:+ str ANIMESH_MAX_BONES)).
Qed.











(** The comprehension of the source counts what the bone-by-bone count
    counts. *)
Lemma deform_bone_count_spec (arm : Armature) :
  deform_bone_count arm = count_deform (bones arm).
Proof.
  unfold deform_bone_count, len. induction (bones arm) as [|b bs IH]; [done|].
  rewrite filter_cons. cbn [count_deform]. rewrite <- IH.
  destruct (use_deform b); case_decide; cbn [length]; try lia; simpl in *; tauto.
Qed.



(* ===================================================================== *)
(** ** Removing while walking a collection *)
(* ===================================================================== *)

Lemma remove_first_mid {A} (p : A → bool) (pre : list A) (x : A) (post : list A) :
  Forall (λ y, p y = false) pre → p x = true →
  remove_first p (pre ++ x :: post) = pre ++ post.
Proof.
  intros Hpre Hx. induction Hpre as [|y pre Hy _ IH]; cbn.
  - by rewrite Hx.
  - by rewrite Hy, IH.
Qed.

Lemma remove_first_none {A} (p : A → bool) (xs : list A) :
  Forall (λ y, p y = false) xs → remove_first p xs = xs.
Proof. induction 1 as [|y ys Hy _ IH]; cbn; [done|]. by rewrite Hy, IH. Qed.

(** A walk over [xs] that removes, by key, every item selected by [sel]
    from a collection that starts as [xs], leaves the items not selected,
    in their order, and counts the selected ones. *)
Lemma walk_remove {A K} (key : A → K) (same : A → A → bool) (sel : A → bool)
    (done rest : list A) (count : Z) :
  (∀ x y, same y x = true ↔ key y = key x) →
  NoDup (map key (done ++ rest)) →
  foldl (λ st x, if sel x then (remove_first (λ y, same y x) st.1, st.2 + 1) else st)
        (filter (λ x, sel x = false) done ++ rest, count) rest
  = (filter (λ x, sel x = false) (done ++ rest),
     count + len (filter (λ x, sel x = true) rest)).
Proof.
  intros Hsame. revert done count.
  induction rest as [|x rest IH]; intros done count Hnd.
  - cbn. rewrite !app_nil_r. f_equal. unfold len. cbn. lia.
  - cbn [foldl]. rewrite filter_cons.
    replace (done ++ x :: rest) with ((done ++ [x]) ++ rest) in * by by rewrite <- app_assoc.
    destruct (sel x) eqn:Hx.
    + cbn [fst snd]. rewrite remove_first_mid; [| |by apply Hsame].
      * specialize (IH (done ++ [x]) (count + 1) Hnd).
        rewrite filter_app, filter_cons, Hx in IH.
        rewrite decide_False in IH by done. rewrite filter_nil, app_nil_r in IH.
        rewrite IH. rewrite decide_True by done.
        f_equal. unfold len. cbn [length]. lia.
      * apply Forall_forall. intros y Hy.
        apply list_elem_of_filter in Hy as [_ Hy].
        destruct (same y x) eqn:Hs; [|done]. apply Hsame in Hs.
        rewrite map_app, map_app in Hnd. apply NoDup_app in Hnd as [Hnd _].
        apply NoDup_app in Hnd as (_ & Hnd & _).
        exfalso. apply (Hnd (key y)).
        -- apply list_elem_of_fmap. eauto.
        -- rewrite Hs. cbn. left.
    + specialize (IH (done ++ [x]) count Hnd).
      rewrite filter_app, filter_cons, Hx in IH.
      rewrite decide_True in IH by done. rewrite filter_nil, <- app_assoc in IH.
      cbn [app] in IH. rewrite IH. rewrite decide_False by done. done.
Qed.

(* ===================================================================== *)
(** ** Bone optimisation *)
(* ===================================================================== *)

Import AVASTAR_OT_animesh_optimize_bones.

Lemma used_bones_inner (vgs : list VertexGroup) (gs : list VertexGroupElement)
    (used : gset string) (nm : string) :
  nm ∈ foldl (λ used g, match vgs !! group g with
                        | Some vg => used ∪ {[vg_name vg]}
                        | None => used
                        end) used gs
  ↔ nm ∈ used ∨ ∃ g vg, g ∈ gs ∧ vgs !! group g = Some vg ∧ vg_name vg = nm.
Proof.
  revert used. induction gs as [|g gs IH]; intros used; cbn [foldl].
  - split; [auto|]. intros [H|(g & vg & H & _)]; [done|]. by apply elem_of_nil in H.
  - rewrite IH. split.
    + intros [H|(g' & vg & Hg & Hvg & Hnm)].
      * destruct (vgs !! group g) as [vg|] eqn:E; [|auto].
        apply elem_of_union in H as [H|H]; [auto|].
        apply elem_of_singleton in H. right. exists g, vg. split; [left|done].
      * right. exists g', vg. split; [by right|done].
    + intros [H|(g' & vg & Hg & Hvg & Hnm)].
      * left. destruct (vgs !! group g); [|done]. apply elem_of_union. by left.
      * apply elem_of_cons in Hg as [->|Hg].
        -- left. rewrite Hvg. apply elem_of_union. right. by apply elem_of_singleton.
        -- right. eauto.
Qed.

Lemma used_bones_spec (vgs : list VertexGroup) (mesh : Mesh) (nm : string) :
  nm ∈ used_bones vgs mesh ↔ referenced_name vgs mesh nm.
Proof.
  unfold used_bones, referenced_name.
  assert (H : ∀ (vs : list MeshVertex) (used : gset string),
    nm ∈ foldl (λ used v,
                  foldl (λ used g, match vgs !! group g with
                                   | Some vg => used ∪ {[vg_name vg]}
                                   | None => used
                                   end) used (groups v)) used vs
    ↔ nm ∈ used ∨ ∃ v g vg, v ∈ vs ∧ g ∈ groups v ∧ vgs !! group g = Some vg
                            ∧ vg_name vg = nm).
  { induction vs as [|v vs IH]; intros used; cbn [foldl].
    - split; [auto|]. intros [H|(v & g & vg & H & _)]; [done|]. by apply elem_of_nil in H.
    - rewrite IH, used_bones_inner. split.
      + intros [[H|(g & vg & Hg & Hvg & Hnm)]|(v' & g & vg & Hv & Hg & Hvg & Hnm)].
        * auto.
        * right. exists v, g, vg. split; [left|done].
        * right. exists v', g, vg. split; [by right|done].
      + intros [H|(v' & g & vg & Hv & Hg & Hvg & Hnm)]; [auto|].
        apply elem_of_cons in Hv as [->|Hv]; [left; right; eauto|right; eauto 8]. }
  rewrite H. split; [|auto]. intros [Hn|Hn]; [|done]. by apply not_elem_of_empty in Hn.
Qed.

Lemma remove_unused_bones_filter (used : gset string) (eb : list Bone) :
  NoDup (map bone_name eb) →
  remove_unused_bones used eb
  = (filter (λ b, use_deform b && negb (bool_decide (bone_name b ∈ used)) = false) eb,
     len (filter (λ b, use_deform b && negb (bool_decide (bone_name b ∈ used)) = true) eb)).
Proof.
  intros Hnd. unfold remove_unused_bones, edit_bones_remove.
  pose proof (walk_remove bone_name (λ y x, String.eqb (bone_name y) (bone_name x))
                (λ b, use_deform b && negb (bool_decide (bone_name b ∈ used)))
                [] eb 0) as H.
  cbn [filter app] in H. rewrite filter_nil in H. apply H; [|done].
  intros x y. apply String.eqb_eq.
Qed.

Lemma active_object_inv (b : Blend) (k : string) (o : Object) :
  active_object b = Some (k, o) → active b = Some k ∧ data_objects b !! k = Some o.
Proof.
  unfold active_object. destruct (active b) as [k'|]; [|done]. cbn.
  destruct (data_objects b !! k') as [o'|] eqn:E; [|done]. cbn.
  intros [= -> ->]. done.
Qed.


Lemma run_bind {A B} (m : M A) (f : A → M B) (w : World) :
  (m ≫= f) w = match m w with
               | (Returned a, w') => f a w'
               | (Raised e, w') => (Raised e, w')
               end.
Proof. reflexivity. Qed.

Lemma armature_data_run (w : World) (a : string) (rig : Object) (arm : Armature) :
  data_objects (blend w) !! a = Some rig →
  data rig = ArmatureData arm →
  armature_data a w = (Returned arm, w).
Proof. intros H1 H2. unfold armature_data, deref_object. run_monad. by rewrite H1, H2. Qed.

Lemma set_active_run (w : World) (a : string) :
  set_active a w = (Returned tt, with_blend (with_active (Some a) (blend w)) w).
Proof. reflexivity. Qed.

Lemma store_object_run (w : World) (k : string) (o : Object) :
  store_object k o w
  = (Returned tt, with_blend (with_objects (<[k := o]> (data_objects (blend w))) (blend w)) w).
Proof. reflexivity. Qed.

Lemma mode_set_armature (w : World) (mode : string) (a : string) (rig : Object)
    (arm : Armature) :
  active (blend w) = Some a →
  data_objects (blend w) !! a = Some rig →
  data rig = ArmatureData arm →
  mode = "EDIT" ∨ mode = "OBJECT" →
  mode_set mode w
  = (Returned tt,
     with_blend
       (with_objects
          (<[a := with_data (ArmatureData (if String.eqb mode "EDIT" then to_editmode arm
                                           else from_editmode arm)) rig]>
             (data_objects (blend w))) (blend w)) w).
Proof.
  intros Ha Hrig Harm Hmode. unfold mode_set. rewrite run_bind.
  unfold context_active_object. run_monad. unfold active_object.
  rewrite Ha. cbn. rewrite Hrig. cbn. rewrite Harm.
  destruct Hmode as [-> | ->]; reflexivity.
Qed.

Lemma set_edit_bones_run (w : World) (a : string) (rig : Object) (arm : Armature)
    (eb : list Bone) :
  data_objects (blend w) !! a = Some rig →
  data rig = ArmatureData arm →
  set_edit_bones a eb w
  = (Returned tt,
     with_blend
       (with_objects
          (<[a := with_data (ArmatureData {| bones := bones arm;
                                             edit_bones := (λ _, eb) <$> edit_bones arm |})
                            rig]>
             (data_objects (blend w))) (blend w)) w).
Proof.
  intros Hrig Harm. unfold set_edit_bones.
  assert (Hd : deref_object a w = (Returned rig, w)).
  { unfold deref_object. run_monad. by rewrite Hrig. }
  rewrite run_bind, Hd, run_bind, (armature_data_run w a rig arm) by done.
  reflexivity.
Qed.

Lemma context_active_object_run (w : World) :
  context_active_object w = (Returned (active_object (blend w)), w).
Proof. reflexivity. Qed.

Lemma with_blend_same (w : World) : with_blend (blend w) w = w.
Proof. by destruct w. Qed.

Lemma with_blend_twice (b1 b2 : Blend) (w : World) :
  with_blend b2 (with_blend b1 w) = with_blend b2 w.
Proof. reflexivity. Qed.

Lemma with_objects_twice (o1 o2 : gmap string Object) (b : Blend) :
  with_objects o2 (with_objects o1 b) = with_objects o2 b.
Proof. reflexivity. Qed.

Lemma count_deform_split (sel : Bone → bool) (bs : list Bone) :
  count_deform bs
  = count_deform (filter (λ b, sel b = false) bs) + count_deform (filter (λ b, sel b = true) bs).
Proof.
  induction bs as [|b bs IH]; [done|].
  rewrite !filter_cons. destruct (sel b); repeat case_decide; try done;
    cbn [count_deform]; lia.
Qed.

Lemma count_deform_all (bs : list Bone) :
  Forall (λ b, use_deform b = true) bs → count_deform bs = len bs.
Proof.
  unfold len. induction 1 as [|b bs Hb _ IH]; [done|].
  cbn [count_deform length]. rewrite Hb. lia.
Qed.

(** C7. With [remove_unused] on, the armature is left with exactly the
    bones that are not unused deform bones, in their order; a bone is an
    unused deform bone when it deforms and no vertex is assigned, through
    a valid group index, to a vertex group of its name; bones that do not
    deform stay. The count reported is the number of deform bones before,
    counted bone by bone, minus the number after, and that is the number
    of bones removed; the second number reported is the number of deform
    bones after. *)
Theorem optimize_bones_removes_unused (w : World) (k : string) (o : Object)
    (mesh : Mesh) (a : string) (rig : Object) (arm : Armature) :
  active_object (blend w) = Some (k, o) →
  data o = MeshData mesh →
  find_armature (modifiers o) = Some a →
  data_objects (blend w) !! a = Some rig →
  data rig = ArmatureData arm →
  edit_bones arm = None →
  NoDup (map bone_name (bones arm)) →
  let unused b :=
    use_deform b && negb (bool_decide (bone_name b ∈ used_bones (vertex_groups o) mesh)) in
  let kept := filter (λ b, unused b = false) (bones arm) in
  let removed := filter (λ b, unused b = true) (bones arm) in
  let arm' := {| bones := kept; edit_bones := None |} in
  AVASTAR_OT_animesh_optimize_bones.execute true w
  = (Returned FINISHED,
     add_report (INFO, plain ("Removed " +:+ str (count_deform (bones arm) - count_deform kept)
                               +:+ " unused bones (" +:+ str (count_deform kept)
                               +:+ " remaining)"))
       (with_blend
          (with_objects (<[a := with_data (ArmatureData arm') rig]> (data_objects (blend w)))
                        (blend w)) w))
  ∧ (∀ b, unused b = true
          ↔ use_deform b = true ∧ ¬ referenced_name (vertex_groups o) mesh (bone_name b))
  ∧ (∀ b, b ∈ bones arm → (b ∈ kept ↔ unused b = false))
  ∧ (∀ b, b ∈ bones arm → use_deform b = false → b ∈ kept)
  ∧ count_deform (bones arm) - count_deform kept = len removed.
Proof.
  intros Hact Hmesh Hfind Hrig Harm Hedit Hnd unused kept removed arm'.
  split; [|split; [|split; [|split]]].
  - apply active_object_inv in Hact as Hk. destruct Hk as [Hk Hko].
    unfold AVASTAR_OT_animesh_optimize_bones.execute.
    rewrite run_bind, context_active_object_run, Hact.
    destruct o as [nm d mods vgs ami]. cbn in Hmesh, Hfind. subst d.
    cbv beta iota. rewrite Hfind. cbn [vertex_groups] in *.
    rewrite run_bind, (armature_data_run w a rig arm) by done.
    rewrite run_bind. rewrite (run_bind (set_active a)), set_active_run.
    set (w1 := with_blend _ w).
    rewrite run_bind, (mode_set_armature w1 "EDIT" a rig arm); [|done..|by left].
    cbn [String.eqb Ascii.eqb Bool.eqb]. subst w1. rewrite with_blend_twice.
    set (w2 := with_blend _ w).
    assert (H2 : data_objects (blend w2) !! a
                 = Some (with_data (ArmatureData (to_editmode arm)) rig)).
    { subst w2. world_simpl. apply lookup_insert_eq. }
    rewrite run_bind, (armature_data_run w2 a _ (to_editmode arm) H2) by done.
    rewrite run_bind, (set_edit_bones_run w2 a _ (to_editmode arm) _ H2) by done.
    subst w2. rewrite with_blend_twice. world_simpl.
    rewrite insert_insert_eq, with_objects_twice.
    unfold to_editmode. rewrite Hedit.
    cbn [default bones edit_bones fmap option_fmap option_map].
    rewrite remove_unused_bones_filter by done. cbn [fst].
    fold unused. fold kept.
    set (w3 := with_blend _ w).
    rewrite (run_bind (mode_set "OBJECT")).
    rewrite (mode_set_armature w3 "OBJECT" a
               (with_data (ArmatureData {| bones := bones arm; edit_bones := Some kept |})
                          (with_data (ArmatureData {| bones := bones arm;
                                                      edit_bones := Some (bones arm) |}) rig))
               {| bones := bones arm; edit_bones := Some kept |});
      [|done|subst w3; world_simpl; apply lookup_insert_eq|done|by right].
    cbn [String.eqb Ascii.eqb Bool.eqb]. subst w3. rewrite with_blend_twice.
    world_simpl. rewrite insert_insert_eq, with_objects_twice.
    rewrite set_active_run, with_blend_twice.
    unfold from_editmode. cbn [edit_bones]. world_simpl.
    set (w4 := with_blend _ w).
    assert (H4 : data_objects (blend w4) !! a = Some (with_data (ArmatureData arm') rig)).
    { subst w4. world_simpl. apply lookup_insert_eq. }
    rewrite run_bind, (armature_data_run w4 a _ arm' H4) by done.
    rewrite run_bind. unfold report. cbv beta iota.
    rewrite !deform_bone_count_spec. cbn [bones arm'].
    subst w4. unfold with_objects, with_active. world_simpl. rewrite Hk. reflexivity.
  - intros b. unfold unused. rewrite andb_true_iff, negb_true_iff, bool_decide_eq_false.
    by rewrite used_bones_spec.
  - intros b Hb. unfold kept. rewrite list_elem_of_filter. tauto.
  - intros b Hb Hd. apply list_elem_of_filter. split; [|done]. unfold unused. by rewrite Hd.
  - rewrite (count_deform_split unused (bones arm)). fold kept removed.
    rewrite (count_deform_all removed); [lia|].
    apply Forall_forall. intros b Hb. apply list_elem_of_filter in Hb as [Hb _].
    unfold unused in Hb. by apply andb_true_iff in Hb as [Hb _].
Qed.

(* ===================================================================== *)
(** ** Names the host keeps unique *)
(* ===================================================================== *)

(** The digits [str] gives are read back as the number, and so are the
    digits of the suffix, whose leading zeros do not count. *)
Lemma str_digits (k : nat) :
  ∃ u, NilEmpty.uint_of_string (str (Z.of_nat k)) = Some u ∧ Z.of_uint u = Z.of_nat k
       ∧ str (Z.of_nat k) ≠ EmptyString.
Proof.
  unfold str. pose proof (DecimalZ.of_to (Z.of_nat k)) as Hk.
  destruct (Z.to_int (Z.of_nat k)) as [u|u] eqn:E.
  - exists u. cbn [NilZero.string_of_int Z.of_int] in *.
    destruct u; cbn [NilZero.string_of_uint]; try (rewrite NilEmpty.usu; repeat split; try done;
      cbn; discriminate).
    destruct (Z.of_nat k); cbn in E; discriminate.
  - exfalso. destruct (Z.of_nat k) eqn:Ek; cbn in E; try discriminate. lia.
Qed.

Lemma pad3_value (k : nat) :
  Z.of_uint <$> NilEmpty.uint_of_string (pad3 (str (Z.of_nat k))) = Some (Z.of_nat k).
Proof.
  destruct (str_digits k) as (u & Hu & Hv & Hne).
  assert (H0 : ∀ s d, NilEmpty.uint_of_string s = Some d →
                      NilEmpty.uint_of_string (String "0" s) = Some (Decimal.D0 d)).
  { intros s d H. cbn [NilEmpty.uint_of_string]. by rewrite H. }
  unfold pad3. generalize dependent (str (Z.of_nat k)). intros s Hu _.
  destruct (String.length s) as [|[|[|n]]].
  - rewrite Hu. cbn. by rewrite Hv.
  - change ("00" +:+ s) with (String "0" (String "0" s)).
    rewrite (H0 _ _ (H0 _ _ Hu)). cbn -[Z.of_uint]. f_equal. exact Hv.
  - change ("0" +:+ s) with (String "0" s).
    rewrite (H0 _ _ Hu). cbn -[Z.of_uint]. f_equal. exact Hv.
  - rewrite Hu. cbn. by rewrite Hv.
Qed.

Lemma append_inj (s t1 t2 : string) : s +:+ t1 = s +:+ t2 → t1 = t2.
Proof. induction s as [|c s IH]; cbn; [done|]. intros [= H]. by apply IH. Qed.

Lemma numbered_inj (nm : string) (a b : nat) : numbered nm a = numbered nm b → a = b.
Proof.
  unfold numbered. intros H%append_inj.
  change ("." +:+ ?x) with (String "." x) in H. injection H as H.
  apply (f_equal (λ s, Z.of_uint <$> NilEmpty.uint_of_string s)) in H.
  rewrite !pad3_value in H. injection H as H. lia.
Qed.

(** The name the host gives is not among the names that are taken. *)
Lemma unique_name_fresh (taken : list string) (nm : string) :
  unique_name taken nm ∉ taken.
Proof.
  unfold unique_name. case_bool_decide as Hin; [|done].
  set (cands := map (numbered nm) (seq 1 (S (length taken)))).
  destruct (filter (λ c, c ∉ taken) cands) as [|c l] eqn:E.
  - exfalso.
    assert (Hall : ∀ c, c ∈ cands → c ∈ taken).
    { intros c Hc. destruct (decide (c ∈ taken)) as [|Hn]; [done|].
      assert (Hf : c ∈ filter (λ c, c ∉ taken) cands) by by apply list_elem_of_filter.
      rewrite E in Hf. by apply elem_of_nil in Hf. }
    assert (Hnd : NoDup cands).
    { subst cands. apply NoDup_fmap_2; [|apply NoDup_seq].
      intros a b. apply numbered_inj. }
    pose proof (submseteq_length _ _ (NoDup_submseteq _ _ Hnd Hall)) as Hlen.
    subst cands. rewrite length_map, length_seq in Hlen. lia.
  - cbn [head default].
    assert (Hc : c ∈ filter (λ c, c ∉ taken) cands) by (rewrite E; left).
    by apply list_elem_of_filter in Hc as [Hc _].
Qed.

Lemma unique_name_free (taken : list string) (nm : string) :
  nm ∉ taken → unique_name taken nm = nm.
Proof. intros H. unfold unique_name. by rewrite bool_decide_eq_false_2. Qed.

(** The modifier stack keeps its names distinct when the operator adds its
    modifier, and so does a node tree when a layer is added. *)
Lemma decimated_names_distinct (o : Object) (r : float) :
  NoDup (map mod_name (modifiers o)) → NoDup (map mod_name (modifiers (decimated o r))).
Proof.
  intros Hnd. unfold decimated. cbn [modifiers with_modifiers]. rewrite map_app.
  apply NoDup_app. split; [done|]. split; [|apply NoDup_singleton].
  intros x Hx Hin. cbn in Hin. apply list_elem_of_singleton in Hin. subst x.
  by apply unique_name_fresh in Hx.
Qed.

Lemma layer_names_distinct (o : Object) (layer : BomLayerType) (tree : NodeTree) (bsdf : nat) :
  NoDup (map node_name (nodes tree)) →
  NoDup (map node_name (nodes (bom_layer_tree o layer tree bsdf))).
Proof.
  intros Hnd. cbn [nodes bom_layer_tree]. rewrite map_app.
  apply NoDup_app. split; [done|]. split; [|apply NoDup_singleton].
  intros x Hx Hin. cbn in Hin. apply list_elem_of_singleton in Hin. subst x.
  by apply unique_name_fresh in Hx.
Qed.

(* ===================================================================== *)
(** ** Triangle reduction *)
(* ===================================================================== *)

(** The run of the operator on an active mesh: it finishes, and the
    object has one more modifier, at the end of its stack: a collapse
    Decimate modifier with the given ratio and triangulation. Nothing
    else is changed, and the run does not depend on the mesh. *)
Lemma reduce_triangles_run (w : World) (k : string) (o : Object) (mesh : Mesh) (r : float) :
  active_object (blend w) = Some (k, o) →
  data o = MeshData mesh →
  AVASTAR_OT_animesh_reduce_triangles.execute r w
  = (Returned FINISHED,
     add_report (INFO, [Str "Added decimate modifier with "; Flt 0 (r * 100)%float;
                        Str "% ratio"])
       (with_blend
          (with_objects
             (<[k := decimated o r]>
                (data_objects (blend w))) (blend w)) w)).
Proof.
  intros Hact Hmesh. unfold AVASTAR_OT_animesh_reduce_triangles.execute.
  rewrite run_bind, context_active_object_run, Hact.
  destruct o as [nm d mods vgs ami]. cbn in Hmesh. subst d. reflexivity.
Qed.

(** The mesh data, and with it the triangle count of the mesh, is what it
    was before the operator ran. *)
Lemma reduce_triangles_keeps_mesh (w : World) (k : string) (o : Object) (mesh : Mesh)
    (r : float) :
  active_object (blend w) = Some (k, o) →
  data o = MeshData mesh →
  mesh_triangles (blend (AVASTAR_OT_animesh_reduce_triangles.execute r w).2) k
  = mesh_triangles (blend w) k.
Proof.
  intros Hact Hmesh. rewrite (reduce_triangles_run w k o mesh r Hact Hmesh).
  apply active_object_inv in Hact as [_ Hko].
  unfold mesh_triangles. cbn [snd]. world_simpl. rewrite lookup_insert_eq, Hko. cbn.
  by rewrite Hmesh.
Qed.

(** C2. The operator promises to bring the mesh under the Animesh limit
    and to aim at 80% of it. On "Body" with a mesh of 80000 triangles and
    the default ratio 0.5 it finishes after adding a Decimate modifier
    with ratio 0.5, the modifier it adds to the demo mesh of one triangle
    as well: the limit and the triangle count play no part. The modifier
    aims at 40000 triangles, above the limit of 32768 and above 80% of it;
    the mesh has its 80000 triangles as before, and the add-on's own
    validator, run next, still finds too many triangles. *)
Lemma reduce_triangles_ignores_limit :
  let run := AVASTAR_OT_animesh_reduce_triangles.execute 0.5 in
  let stack (w : World) := modifiers <$> data_objects (blend w) !! "Body" in
  (run dense_world).1 = Returned FINISHED
  ∧ mesh_triangles (blend dense_world) "Body" = Some 80000
  ∧ ANIMESH_MAX_TRIANGLES < 80000
  ∧ stack (run dense_world).2 = Some [demo_armature_modifier; animesh_decimate 0.5]
  ∧ stack (run demo_world).2 = Some [demo_armature_modifier; animesh_decimate 0.5]
  ∧ decimate_target (animesh_decimate 0.5) 80000 = 40000%float
  ∧ (32768 <? decimate_target (animesh_decimate 0.5) 80000)%float = true
  ∧ mesh_triangles (blend (run dense_world).2) "Body" = Some 80000
  ∧ validation_verdict (run dense_world).2
    = Some (WARNING, plain "Mesh has Animesh compatibility issues").
Proof. vm_compute. repeat split; reflexivity. Qed.

(** Run twice on the demo scene, the operator leaves two Decimate
    modifiers; the host names the second one 'Animesh_Decimate.001'. *)
Example reduce_triangles_twice_names :
  map mod_name <$> (modifiers <$> data_objects (blend (reduce_repeatedly [0.5; 0.5]%float
                                                        demo_world)) !! "Body")
  = Some ["Armature"; "Animesh_Decimate"; "Animesh_Decimate.001"].
Proof. vm_compute. reflexivity. Qed.

(* ===================================================================== *)
(** ** The performance caches *)
(* ===================================================================== *)

Lemma same_caches_ret {A} (a : A) : same_caches (mret a).
Proof. by intros w. Qed.

Lemma same_caches_bind {A B} (m : M A) (f : A → M B) :
  same_caches m → (∀ a, same_caches (f a)) → same_caches (m ≫= f).
Proof.
  intros Hm Hf w. rewrite run_bind. specialize (Hm w).
  destruct (m w) as [[a|e] w1]; cbn [snd] in *; [|done].
  destruct (Hf a w1) as [H1 H2]. destruct Hm as [H3 H4]. split; congruence.
Qed.

Lemma same_caches_raise {A} (e : exn) : same_caches (raise (A := A) e).
Proof. by intros w. Qed.

Lemma same_caches_lift {A} (r : outcome A) : same_caches (lift r).
Proof. by intros w. Qed.

Lemma same_caches_report kind message : same_caches (report kind message).
Proof. by intros w. Qed.

Lemma same_caches_log lg lv message : same_caches (log_msg lg lv message).
Proof. by intros w. Qed.

Lemma same_caches_get_blend : same_caches get_blend.
Proof. by intros w. Qed.

Lemma same_caches_set_blend b : same_caches (set_blend b).
Proof. by intros w. Qed.

Lemma same_caches_time : same_caches time_time.
Proof. by intros w. Qed.

Lemma same_caches_for_each {A} (xs : list A) (body : A → M unit) :
  (∀ x, same_caches (body x)) → same_caches (for_each xs body).
Proof.
  intros Hb. induction xs as [|x xs IH]; cbn [for_each].
  - apply same_caches_ret.
  - apply same_caches_bind; [apply Hb|intros _; apply IH].
Qed.

(** Goes through an action built from the primitives above. *)
Ltac same_caches_step :=
  first
    [ apply same_caches_ret
    | apply same_caches_raise
    | apply same_caches_lift
    | apply same_caches_report
    | apply same_caches_log
    | apply same_caches_get_blend
    | apply same_caches_set_blend
    | apply same_caches_time
    | apply same_caches_for_each; intros ?
    | apply same_caches_bind; [|intros ?]
    | match goal with
      | |- same_caches (match ?x with _ => _ end) => destruct x
      | |- same_caches (let '(_, _) := ?x in _) => destruct x
      end ].

Ltac same_caches_tac :=
  unfold context_active_object, set_active, store_object, store_material, store_image,
         deref_object, armature_data, mode_set, mesh_of,
         AVASTAR_OT_animesh_optimize_bones.set_edit_bones;
  repeat same_caches_step.

Lemma same_caches_operator (op : mesh_operator) :
  clears (Call_operator op) = false → same_caches (run_operator op).
Proof.
  destruct op; intros Hc; try discriminate; unfold_execute; same_caches_tac.
Qed.

Lemma timed_operation_run {A} (nm : string) (m : M A) (w : World) :
  timed_operation nm m w
  = match m (tick w) with
    | (Returned a, w1) => (Returned a, finish_timing nm (clock w (ticks w)) w1)
    | (Raised e, w1) => (Raised e, w1)
    end.
Proof.
  unfold timed_operation. rewrite run_bind. unfold time_time at 1. cbv beta iota.
  rewrite run_bind. destruct (m (tick w)) as [[a|e] w1]; [|done].
  rewrite run_bind. unfold time_time. cbv beta iota zeta.
  rewrite run_bind. unfold finish_timing. destruct (_ <? _)%float; reflexivity.
Qed.

Lemma finish_timing_world (nm : string) (t0 : float) (w : World) :
  blend (finish_timing nm t0 w) = blend w
  ∧ _mesh_cache (finish_timing nm t0 w) = _mesh_cache w
  ∧ _bone_cache (finish_timing nm t0 w) = _bone_cache w
  ∧ reports (finish_timing nm t0 w) = reports w
  ∧ ∃ timing, log (finish_timing nm t0 w) = log w ++ timing
              ∧ Forall (λ r, level r = LOG_INFO) timing.
Proof.
  unfold finish_timing. cbv zeta. destruct (_ <? _)%float; world_simpl; repeat split.
  - eexists [_]. split; [done|]. by repeat constructor.
  - exists []. by rewrite app_nil_r.
Qed.

Lemma same_caches_timed {A} (nm : string) (m : M A) :
  same_caches m → same_caches (timed_operation nm m).
Proof.
  intros Hm. unfold timed_operation. same_caches_tac; try done.
Qed.

(** A hit: the stored entry is returned and the caches are not touched. *)
Lemma get_cached_mesh_data_hit (w : World) (obj : Object) (e : CacheEntry) :
  _mesh_cache w !! name obj = Some e →
  get_cached_mesh_data obj w
  = (Returned e, finish_timing "get_cached_mesh_data" (clock w (ticks w)) (tick w)).
Proof.
  intros Hhit. unfold get_cached_mesh_data. rewrite timed_operation_run.
  rewrite run_bind. unfold cache_lookup at 1. world_simpl. rewrite Hhit.
  cbv beta iota. rewrite run_bind. cbn [mret M_ret]. cbv beta iota.
  rewrite run_bind. unfold cache_lookup. world_simpl. rewrite Hhit.
  reflexivity.
Qed.

(** A miss on a mesh object: the entry is computed from the object, stored
    under its name and returned. *)
Lemma get_cached_mesh_data_miss (w : World) (obj : Object) (mesh : Mesh) :
  _mesh_cache w !! name obj = None →
  data obj = MeshData mesh →
  let e := {| vertex_count := len (vertices mesh);
              polygon_count := len (polygons mesh);
              timestamp := clock w (S (ticks w)) |} in
  get_cached_mesh_data obj w
  = (Returned e,
     finish_timing "get_cached_mesh_data" (clock w (ticks w))
       (with_caches (<[name obj := e]> (_mesh_cache w)) (_bone_cache w) (tick (tick w)))).
Proof.
  intros Hmiss Hmesh e. unfold get_cached_mesh_data. rewrite timed_operation_run.
  rewrite run_bind. unfold cache_lookup at 1. world_simpl. rewrite Hmiss.
  cbv beta iota. rewrite run_bind, run_bind. unfold mesh_of. rewrite Hmesh.
  cbn [mret M_ret]. cbv beta iota. rewrite run_bind. unfold time_time. cbv beta iota.
  unfold cache_store. rewrite run_bind. unfold cache_lookup. world_simpl.
  rewrite lookup_insert_eq. reflexivity.
Qed.

(** A miss on an object without mesh data raises and stores nothing. *)
Lemma get_cached_mesh_data_no_mesh (w : World) (obj : Object) :
  _mesh_cache w !! name obj = None →
  (∀ mesh, data obj ≠ MeshData mesh) →
  get_cached_mesh_data obj w = (Raised AttributeError, tick w).
Proof.
  intros Hmiss Hdata. unfold get_cached_mesh_data. rewrite timed_operation_run.
  rewrite run_bind. unfold cache_lookup at 1. world_simpl. rewrite Hmiss.
  cbv beta iota. rewrite run_bind, run_bind. unfold mesh_of.
  destruct (data obj) as [mesh| |]; [by destruct (Hdata mesh)|done..].
Qed.

Lemma get_cached_mesh_data_kept (w : World) (obj : Object) :
  caches_kept w (get_cached_mesh_data obj w).2.
Proof.
  unfold caches_kept.
  destruct (_mesh_cache w !! name obj) as [e|] eqn:Hc.
  - rewrite (get_cached_mesh_data_hit w obj e Hc). cbn [snd].
    destruct (finish_timing_world "get_cached_mesh_data" (clock w (ticks w)) (tick w))
      as (_ & -> & -> & _). done.
  - destruct (data obj) as [mesh|arm|kind] eqn:Hd.
    + rewrite (get_cached_mesh_data_miss w obj mesh Hc Hd). cbn [snd].
      destruct (finish_timing_world "get_cached_mesh_data" (clock w (ticks w))
                  (with_caches (<[name obj := {| vertex_count := len (vertices mesh);
                                                 polygon_count := len (polygons mesh);
                                                 timestamp := clock w (S (ticks w)) |}]>
                                  (_mesh_cache w)) (_bone_cache w) (tick (tick w))))
        as (_ & -> & -> & _). world_simpl.
      split; [by apply insert_subseteq|done].
    + rewrite get_cached_mesh_data_no_mesh; [done..|]. intros m. by rewrite Hd.
    + rewrite get_cached_mesh_data_no_mesh; [done..|]. intros m. by rewrite Hd.
Qed.

Lemma caches_kept_refl (w : World) : caches_kept w w.
Proof. by split. Qed.

Lemma caches_kept_trans (w1 w2 w3 : World) :
  caches_kept w1 w2 → caches_kept w2 w3 → caches_kept w1 w3.
Proof. intros [H1 H2] [H3 H4]. split; by etrans. Qed.

Lemma same_caches_keeps {A} (m : M A) : same_caches m → keeps_caches m.
Proof. intros H w. destruct (H w) as [H1 H2]. split; by rewrite ?H1, ?H2. Qed.

Lemma keeps_caches_bind {A B} (m : M A) (f : A → M B) :
  keeps_caches m → (∀ a, keeps_caches (f a)) → keeps_caches (m ≫= f).
Proof.
  intros Hm Hf w. rewrite run_bind. specialize (Hm w).
  destruct (m w) as [[a|e] w1]; cbn [snd] in *; [|done].
  eapply caches_kept_trans; [done|apply Hf].
Qed.

Lemma performance_profile_keeps : keeps_caches AVASTAR_OT_performance_profile.execute.
Proof.
  unfold AVASTAR_OT_performance_profile.execute.
  apply keeps_caches_bind; [apply same_caches_keeps; same_caches_tac|].
  intros [[k obj]|]; [|apply same_caches_keeps; same_caches_tac].
  apply keeps_caches_bind.
  - destruct (String.eqb _ _); [|apply same_caches_keeps; same_caches_tac].
    apply keeps_caches_bind; [intros w; apply get_cached_mesh_data_kept|].
    intros e. apply same_caches_keeps. same_caches_tac.
  - intros [rep warnings]. apply same_caches_keeps. same_caches_tac.
Qed.

Lemma run_call_kept (c : call) (w : World) :
  clears c = false → caches_kept w (run_call c w).
Proof.
  destruct c as [obj|obj names size| | |op|f]; intros Hc; try discriminate; cbn [run_call].
  - apply get_cached_mesh_data_kept.
  - apply same_caches_keeps. unfold optimize_weight_calculation.
    apply same_caches_timed. same_caches_tac.
  - apply performance_profile_keeps.
  - by apply same_caches_keeps, same_caches_operator.
  - by split.
Qed.

Lemma run_calls_kept (cs : list call) (w : World) :
  Forall (λ c, clears c = false) cs → caches_kept w (run_calls cs w).
Proof.
  intros Hcs. revert w. unfold run_calls.
  induction Hcs as [|c cs Hc _ IH]; intros w; cbn [foldl].
  - apply caches_kept_refl.
  - eapply caches_kept_trans; [by apply run_call_kept|apply IH].
Qed.

Lemma clear_performance_caches_run (w : World) :
  clear_performance_caches w
  = (Returned tt,
     add_log {| logger := performance_log; level := LOG_INFO;
                msg := plain "Performance caches cleared" |} (with_caches ∅ ∅ w)).
Proof. reflexivity. Qed.

(** C4. An entry of the mesh cache survives every history of calls that
    does not reach [clear_performance_caches], whatever else changes: after
    such a history [get_cached_mesh_data] answers any object of that name
    with the stored entry, without touching the caches, and every entry of
    both caches is still there; [clear_performance_caches] empties both. *)
Theorem mesh_cache_never_invalidated (w : World) (history : list call)
    (obj : Object) (e : CacheEntry) :
  _mesh_cache w !! name obj = Some e →
  Forall (λ c, clears c = false) history →
  let w1 := run_calls history w in
  let answer := get_cached_mesh_data obj w1 in
  answer.1 = Returned e
  ∧ _mesh_cache answer.2 = _mesh_cache w1
  ∧ _bone_cache answer.2 = _bone_cache w1
  ∧ caches_kept w w1
  ∧ _mesh_cache (clear_performance_caches w1).2 = ∅
  ∧ _bone_cache (clear_performance_caches w1).2 = ∅.
Proof.
  intros Hin Hhistory w1 answer.
  pose proof (run_calls_kept history w Hhistory) as Hkept. fold w1 in Hkept.
  assert (Hin1 : _mesh_cache w1 !! name obj = Some e).
  { destruct Hkept as [Hm _]. by eapply lookup_weaken. }
  subst answer. rewrite (get_cached_mesh_data_hit w1 obj e Hin1). cbn [fst snd].
  destruct (finish_timing_world "get_cached_mesh_data" (clock w1 (ticks w1)) (tick w1))
    as (_ & -> & -> & _).
  repeat split; try done; apply Hkept.
Qed.

(* ===================================================================== *)
(** ** Chunked weight calculation *)
(* ===================================================================== *)

Lemma assignments_of_app vgs bone vs1 vs2 :
  assignments_of vgs bone (vs1 ++ vs2)
  = assignments_of vgs bone vs1 ++ assignments_of vgs bone vs2.
Proof. unfold assignments_of. apply flat_map_app. Qed.

Lemma entry_of_default names bone l :
  bone ∈ names → default [] (entry_of names bone l) = l.
Proof. intros H. unfold entry_of. rewrite bool_decide_eq_true_2 by done. by destruct l. Qed.

Lemma entry_of_snoc names bone l x :
  bone ∈ names → entry_of names bone (l ++ [x]) = Some (l ++ [x]).
Proof.
  intros H. unfold entry_of. rewrite bool_decide_eq_true_2 by done.
  destruct l; reflexivity.
Qed.

Lemma chunk_inner_lookup (vgs : list VertexGroup) (names : gset string) (i : nat)
    (gs : list VertexGroupElement) (cw : weights) (L : string → list (nat * float)) :
  (∀ bone, cw !! bone = entry_of names bone (L bone)) →
  ∀ bone,
    foldl (λ cw g,
             match vgs !! group g with
             | Some vg =>
                 if bool_decide (vg_name vg ∈ names)
                 then <[vg_name vg := default [] (cw !! vg_name vg) ++ [(i, weight g)]]> cw
                 else cw
             | None => cw
             end) cw gs !! bone
    = entry_of names bone (L bone ++ flat_map (assignment_pairs vgs bone i) gs).
Proof.
  revert cw L. induction gs as [|g gs IH]; intros cw L Hcw bone; cbn [foldl flat_map].
  - by rewrite app_nil_r.
  - rewrite app_assoc.
    apply (IH _ (λ b, L b ++ assignment_pairs vgs b i g)).
    intros b. unfold assignment_pairs.
    destruct (vgs !! group g) as [vg|]; [|by rewrite app_nil_r].
    destruct (decide (vg_name vg ∈ names)) as [Hin|Hin].
    + rewrite bool_decide_eq_true_2 by done.
      destruct (decide (vg_name vg = b)) as [<-|Hne].
      * rewrite lookup_insert_eq, bool_decide_eq_true_2 by done.
        rewrite Hcw, entry_of_default, entry_of_snoc by done. done.
      * rewrite lookup_insert_ne, bool_decide_eq_false_2, app_nil_r by done. apply Hcw.
    + rewrite bool_decide_eq_false_2 by done. rewrite Hcw.
      destruct (decide (vg_name vg = b)) as [<-|Hne].
      * unfold entry_of. by rewrite !bool_decide_eq_false_2 by done.
      * by rewrite bool_decide_eq_false_2, app_nil_r by done.
Qed.

Lemma chunk_outer_lookup (vgs : list VertexGroup) (names : gset string)
    (chunk : list (nat * MeshVertex)) (cw : weights) (L : string → list (nat * float)) :
  (∀ bone, cw !! bone = entry_of names bone (L bone)) →
  ∀ bone,
    foldl (λ cw iv,
             foldl (λ cw g,
                      match vgs !! group g with
                      | Some vg =>
                          if bool_decide (vg_name vg ∈ names)
                          then <[vg_name vg :=
                                   default [] (cw !! vg_name vg) ++ [(iv.1, weight g)]]> cw
                          else cw
                      | None => cw
                      end) cw (groups iv.2)) cw chunk !! bone
    = entry_of names bone (L bone ++ assignments_of vgs bone chunk).
Proof.
  revert cw L. induction chunk as [|iv chunk IH]; intros cw L Hcw bone; cbn [foldl].
  - unfold assignments_of. cbn. by rewrite app_nil_r.
  - unfold assignments_of. cbn [flat_map]. rewrite app_assoc.
    apply (IH _ (λ b, L b ++ flat_map (assignment_pairs vgs b iv.1) (groups iv.2))).
    intros b. by apply chunk_inner_lookup.
Qed.

Lemma chunk_weights_lookup vgs names chunk bone :
  chunk_weights vgs names chunk !! bone = entry_of names bone (assignments_of vgs bone chunk).
Proof.
  unfold chunk_weights.
  rewrite (chunk_outer_lookup vgs names chunk ∅ (λ _, [])); [done|].
  intros b. rewrite lookup_empty. unfold entry_of. by destruct (bool_decide _).
Qed.

Lemma merge_step_lookup (final chunk_result : weights) (bone : string) :
  map_fold (λ bone_name ws final,
              <[bone_name := default [] (final !! bone_name) ++ ws]> final)
           final chunk_result !! bone
  = match chunk_result !! bone with
    | Some ws => Some (default [] (final !! bone) ++ ws)
    | None => final !! bone
    end.
Proof.
  revert bone.
  apply (map_fold_weak_ind
           (λ (r m : weights), ∀ bone,
              r !! bone = match m !! bone with
                          | Some ws => Some (default [] (final !! bone) ++ ws)
                          | None => final !! bone
                          end)).
  - intros bone. by rewrite lookup_empty.
  - intros i x m r Hi IH bone.
    destruct (decide (i = bone)) as [->|Hne].
    + rewrite !lookup_insert_eq. rewrite IH, Hi. done.
    + rewrite !lookup_insert_ne by done. apply IH.
Qed.

Lemma merge_results_lookup vgs names (chunks : list (list (nat * MeshVertex))) bone :
  merge_results (map (chunk_weights vgs names) chunks) !! bone
  = entry_of names bone (assignments_of vgs bone (concat chunks)).
Proof.
  unfold merge_results.
  assert (H : ∀ (final : weights) (pre : list (nat * MeshVertex)),
             (∀ b, final !! b = entry_of names b (assignments_of vgs b pre)) →
             ∀ b, foldl (λ final chunk_result,
                           map_fold (λ bone_name ws final,
                                       <[bone_name := default [] (final !! bone_name) ++ ws]> final)
                                    final chunk_result)
                        final (map (chunk_weights vgs names) chunks) !! b
                  = entry_of names b (assignments_of vgs b (pre ++ concat chunks))).
  { induction chunks as [|c chunks IH]; intros final pre Hfinal b; cbn [map foldl concat].
    - by rewrite app_nil_r.
    - rewrite app_assoc. apply IH. intros b'.
      rewrite merge_step_lookup, chunk_weights_lookup, Hfinal, assignments_of_app.
      unfold entry_of. destruct (bool_decide (b' ∈ names)); [|done].
      destruct (assignments_of vgs b' c) as [|x l]; [by rewrite app_nil_r|].
      destruct (assignments_of vgs b' pre); reflexivity. }
  apply (H ∅ []). intros b. rewrite lookup_empty. unfold entry_of, assignments_of. cbn.
  by destruct (bool_decide _).
Qed.

(** Cutting a list in chunks of [c] items and putting the chunks back. *)
Lemma chunks_concat {A} (xs : list A) (c n : nat) :
  concat (map (λ i, take (Nat.min (i * c + c) (length xs) - i * c) (drop (i * c) xs))
              (seq 0 n))
  = take (n * c) xs.
Proof.
  induction n as [|n IH]; [done|].
  rewrite seq_S, map_app, concat_app, IH. cbn [map concat plus]. rewrite app_nil_r.
  destruct (decide (n * c ≤ length xs)%nat) as [Hle|Hgt].
  - rewrite take_take_drop.
    destruct (decide (n * c + c ≤ length xs)%nat).
    + f_equal. lia.
    + rewrite !take_ge by lia. done.
  - rewrite (take_ge xs (S n * c)), (take_ge xs (n * c)) by lia.
    replace (Nat.min _ _ - _)%nat with 0%nat by lia. by rewrite take_0, app_nil_r.
Qed.

Lemma range_chunks {A} (xs : list A) (chunk_size : Z) :
  1 ≤ chunk_size →
  ∃ starts,
    range 0 (len xs) chunk_size = Returned starts
    ∧ concat (map (λ start_idx, slice xs start_idx (Z.min (start_idx + chunk_size) (len xs)))
                  starts) = xs.
Proof.
  intros Hc. unfold range. rewrite (proj2 (Z.eqb_neq _ _)) by lia.
  eexists. split; [reflexivity|].
  rewrite map_map. set (n := Z.to_nat _).
  rewrite (map_ext _ (λ i, take (Nat.min (i * Z.to_nat chunk_size + Z.to_nat chunk_size)
                                          (length xs) - i * Z.to_nat chunk_size)
                                (drop (i * Z.to_nat chunk_size) xs))).
  - rewrite chunks_concat. apply take_ge.
    subst n. unfold range_len, len. rewrite (proj2 (Z.ltb_lt _ _)) by lia.
    assert (H : Z.of_nat (length xs) ≤ ((Z.of_nat (length xs) - 0 + chunk_size - 1) / chunk_size) * chunk_size).
    { pose proof (Z.mod_pos_bound (Z.of_nat (length xs) - 0 + chunk_size - 1) chunk_size ltac:(lia)).
      pose proof (Z.div_mod (Z.of_nat (length xs) - 0 + chunk_size - 1) chunk_size ltac:(lia)).
      lia. }
    nia.
  - intros i. unfold slice, len. f_equal; [|f_equal; lia]. lia.
Qed.

Lemma assignment_pairs_index vgs bone (i : nat) gs :
  Forall (λ p, p.1 = i) (flat_map (assignment_pairs vgs bone i) gs).
Proof.
  induction gs as [|g gs IH]; cbn [flat_map]; [constructor|].
  apply Forall_app. split; [|done]. unfold assignment_pairs.
  destruct (vgs !! group g); [|constructor].
  destruct (bool_decide _); repeat constructor.
Qed.

Lemma StronglySorted_app_le (l1 l2 : list nat) :
  StronglySorted le l1 → StronglySorted le l2 →
  (∀ x y, x ∈ l1 → y ∈ l2 → (x ≤ y)%nat) →
  StronglySorted le (l1 ++ l2).
Proof.
  intros H1 H2 H. induction H1 as [|x l1 _ IH Hx]; [done|].
  cbn. constructor.
  - apply IH. intros a b Ha Hb. apply H; [by right|done].
  - apply Forall_app. split; [done|]. apply Forall_forall. intros y Hy.
    apply H; [left|done].
Qed.

Lemma constant_sorted (n : nat) (l : list nat) :
  Forall (λ i, i = n) l → StronglySorted le l.
Proof.
  induction 1 as [|x l -> Hl IH]; constructor; [done|].
  eapply Forall_impl; [exact Hl|]. intros ? ->. done.
Qed.

Lemma assignments_sorted vgs bone (vs : list MeshVertex) (n : nat) :
  StronglySorted le (map fst (assignments_of vgs bone (zip (seq n (length vs)) vs)))
  ∧ Forall (λ i, (n ≤ i)%nat) (map fst (assignments_of vgs bone (zip (seq n (length vs)) vs))).
Proof.
  revert n. induction vs as [|v vs IH]; intros n.
  - split; constructor.
  - unfold assignments_of. cbn [length seq zip zip_with flat_map fst snd].
    fold (assignments_of vgs bone (zip (seq (S n) (length vs)) vs)).
    destruct (IH (S n)) as [IH1 IH2].
    pose proof (assignment_pairs_index vgs bone n (groups v)) as Hn.
    rewrite map_app.
    assert (Hfst : Forall (λ i, i = n) (map fst (flat_map (assignment_pairs vgs bone n) (groups v)))).
    { apply Forall_map. exact Hn. }
    split.
    + apply StronglySorted_app_le; [|done|].
      * by eapply constant_sorted.
      * intros x y Hx Hy. rewrite Forall_forall in Hfst, IH2.
        rewrite (Hfst x Hx). specialize (IH2 y Hy). lia.
    + apply Forall_app. split.
      * eapply Forall_impl; [done|]. intros ? ->. done.
      * eapply Forall_impl; [done|]. cbn. lia.
Qed.

(** The loop's pairing of the vertices with their position gives the
    indices that counting from the first vertex gives. *)
Lemma assignments_of_indexed vgs bone (vs : list MeshVertex) (n : nat) :
  assignments_of vgs bone (zip (seq n (length vs)) vs) = assignments_from vgs bone n vs.
Proof.
  unfold assignments_of. revert n. induction vs as [|v vs IH]; intros n; [done|].
  cbn [length seq zip zip_with flat_map fst snd assignments_from]. f_equal. apply IH.
Qed.

Lemma assignment_pairs_elem vgs bone (i : nat) gs (j : nat) (x : float) :
  (j, x) ∈ flat_map (assignment_pairs vgs bone i) gs
  ↔ j = i ∧ ∃ g vg, g ∈ gs ∧ vgs !! group g = Some vg ∧ vg_name vg = bone ∧ weight g = x.
Proof.
  induction gs as [|g gs IH]; cbn [flat_map].
  - split; [by intros ?%elem_of_nil|]. intros (_ & g & vg & Hg & _). by apply elem_of_nil in Hg.
  - rewrite elem_of_app, IH. unfold assignment_pairs. split.
    + intros [H|(-> & g' & vg & Hg & Hrest)].
      * destruct (vgs !! group g) as [vg|] eqn:Evg; [|by apply elem_of_nil in H].
        case_bool_decide as Hnm; [|by apply elem_of_nil in H].
        apply list_elem_of_singleton in H as [= -> ->].
        split; [done|]. exists g, vg. split; [left|done].
      * split; [done|]. exists g', vg. split; [by right|done].
    + intros (-> & g' & vg & Hg & Hvg & Hnm & Hx).
      apply elem_of_cons in Hg as [->|Hg].
      * left. rewrite Hvg, bool_decide_eq_true_2 by done. rewrite Hx. left.
      * right. split; [done|]. eauto 8.
Qed.

Lemma assignments_from_elem vgs bone (n : nat) (vs : list MeshVertex) (j : nat) (x : float) :
  (j, x) ∈ assignments_from vgs bone n vs
  ↔ (n ≤ j)%nat
    ∧ ∃ v g vg, vs !! (j - n)%nat = Some v ∧ g ∈ groups v
                ∧ vgs !! group g = Some vg ∧ vg_name vg = bone ∧ weight g = x.
Proof.
  revert n. induction vs as [|v vs IH]; intros n; cbn [assignments_from].
  - split; [by intros ?%elem_of_nil|]. by intros (_ & v & g & vg & Hv & _).
  - rewrite elem_of_app, assignment_pairs_elem, IH. split.
    + intros [(-> & g & vg & Hg)|(Hle & v' & g & vg & Hv & Hg)].
      * split; [done|]. exists v, g, vg. by rewrite Nat.sub_diag.
      * split; [lia|]. exists v', g, vg. split; [|done].
        replace (j - n)%nat with (S (j - S n)) by lia. done.
    + intros (Hle & v' & g & vg & Hv & Hg).
      destruct (decide (j = n)) as [->|Hne].
      * left. split; [done|]. rewrite Nat.sub_diag in Hv. injection Hv as <-. eauto.
      * right. split; [lia|]. exists v', g, vg. split; [|done].
        replace (j - n)%nat with (S (j - S n)) in Hv by lia. done.
Qed.

(** C9. For a mesh object and every chunk size of at least one, the
    chunked calculation returns one and the same table, and so does the
    decorated function, whatever the clock says; when the mesh has a
    vertex it is the table of the single chunk, of the size of the vertex
    count. Under a name that is asked for and has an assignment the table
    holds the [(vertex index, weight)] pairs of the assignments to groups
    of that name, vertex after vertex from the first one; other names
    have no entry. The pairs of an entry are by ascending vertex index,
    and [(i, x)] is among them exactly when the vertex of index [i] is
    assigned with weight [x], through a valid group index, to a group of
    the name. *)
Theorem weight_calculation_chunk_independent (obj : Object) (mesh : Mesh)
    (bone_names : gset string) (chunk_size : Z) :
  data obj = MeshData mesh →
  1 ≤ chunk_size →
  ∃ table,
    weight_calculation obj bone_names chunk_size = Returned table
    ∧ (∀ w, (optimize_weight_calculation obj bone_names chunk_size w).1 = Returned table)
    ∧ (∀ size, 1 ≤ size → weight_calculation obj bone_names size = Returned table)
    ∧ (1 ≤ len (vertices mesh) →
         weight_calculation obj bone_names (len (vertices mesh)) = Returned table)
    ∧ (∀ bone, table !! bone
               = weights_entry (vertex_groups obj) bone_names (vertices mesh) bone)
    ∧ (∀ bone l, table !! bone = Some l →
         bone ∈ bone_names
         ∧ Sorted le (map fst l)
         ∧ ∀ i x, (i, x) ∈ l ↔ assigned (vertex_groups obj) mesh bone i x)
    ∧ (∀ bone i x, bone ∈ bone_names → assigned (vertex_groups obj) mesh bone i x →
         is_Some (table !! bone)).
Proof.
  intros Hmesh Hsize.
  set (table := chunk_weights (vertex_groups obj) bone_names (indexed (vertices mesh))).
  assert (Hcalc : ∀ size, 1 ≤ size → weight_calculation obj bone_names size = Returned table).
  { intros size Hs. unfold weight_calculation. rewrite Hmesh.
    destruct (range_chunks (indexed (vertices mesh)) size Hs) as (starts & -> & Hcat).
    cbn [mbind outcome_bind mret outcome_ret]. f_equal.
    apply map_eq. intros bone.
    rewrite <- (map_map (λ s, slice (indexed (vertices mesh)) s
                                 (Z.min (s + size) (len (indexed (vertices mesh)))))
                        (chunk_weights (vertex_groups obj) bone_names)).
    rewrite merge_results_lookup, Hcat. unfold table. by rewrite chunk_weights_lookup. }
  assert (Hentry : ∀ bone, table !! bone
                           = weights_entry (vertex_groups obj) bone_names (vertices mesh) bone).
  { intros bone. unfold table, weights_entry, indexed.
    by rewrite chunk_weights_lookup, assignments_of_indexed. }
  assert (Helem : ∀ bone i x,
            (i, x) ∈ assignments_from (vertex_groups obj) bone 0 (vertices mesh)
            ↔ assigned (vertex_groups obj) mesh bone i x).
  { intros bone i x. rewrite assignments_from_elem, Nat.sub_0_r. unfold assigned.
    split; [intros [_ H]; exact H|intros H; split; [lia|exact H]]. }
  exists table. split; [by apply Hcalc|]. split; [|split; [|split; [|split; [|split]]]].
  - intros w. unfold optimize_weight_calculation. rewrite timed_operation_run.
    unfold lift. by rewrite Hcalc.
  - apply Hcalc.
  - apply Hcalc.
  - apply Hentry.
  - intros bone l. rewrite Hentry. unfold weights_entry, entry_of.
    case_bool_decide as Hin; [|done].
    destruct (assignments_from _ _ _ _) as [|p l'] eqn:E; [done|]. intros [= <-].
    split; [done|]. rewrite <- E. split.
    + rewrite <- assignments_of_indexed. apply StronglySorted_Sorted, assignments_sorted.
    + intros i x. apply Helem.
  - intros bone i x Hin Hassigned. rewrite Hentry. unfold weights_entry, entry_of.
    rewrite bool_decide_eq_true_2 by done. apply Helem in Hassigned.
    destruct (assignments_from _ _ _ _); [by apply elem_of_nil in Hassigned|by eexists].
Qed.

(* ===================================================================== *)
(** ** The profiler *)
(* ===================================================================== *)

Lemma type_of_mesh (o : Object) (mesh : Mesh) : data o = MeshData mesh → type o = "MESH".
Proof. intros H. unfold type. by rewrite H. Qed.

Lemma for_each_log_run (lg : string) (lv : LogLevel) (f : string → text)
    (xs : list string) (w : World) :
  for_each xs (λ x, log_msg lg lv (f x)) w
  = (Returned tt,
     foldl (λ w r, add_log r w) w
           (map (λ x, {| logger := lg; level := lv; msg := f x |}) xs)).
Proof.
  revert w. induction xs as [|x xs IH]; intros w; cbn [for_each map foldl]; [done|].
  rewrite run_bind. unfold log_msg at 1. cbv beta iota. apply IH.
Qed.

(** The log records the profiler writes for the warnings [ws]. *)
Definition warning_records (ws : list string) : list LogRecord :=
  match ws with
  | [] => []
  | _ :: _ =>
      {| logger := performance_log; level := LOG_WARNING;
         msg := plain "Performance Warnings:" |}
      :: map (λ x, {| logger := performance_log; level := LOG_WARNING;
                      msg := plain ("  " +:+ x) |}) ws
  end.

Lemma warning_records_level (ws : list string) :
  Forall (λ r, level r = LOG_WARNING) (warning_records ws).
Proof.
  destruct ws as [|x ws]; [constructor|]. cbn [warning_records].
  constructor; [done|]. apply Forall_map. by apply Forall_forall.
Qed.

Lemma profile_warnings_exceeded (vcount : Z) (o : Object) (arm : option Armature) :
  profile_warnings vcount o arm ≠ [] ↔ threshold_exceeded vcount o arm.
Proof.
  unfold profile_warnings, threshold_exceeded.
  destruct (50000 <? vcount) eqn:H1; [split; [intros _; left; lia|done]|].
  destruct (5 <? len (modifiers o)) eqn:H2; [split; [intros _; right; left; lia|done]|].
  destruct (100 <? len (vertex_groups o)) eqn:H3;
    [split; [intros _; right; right; left; lia|done]|].
  cbn [app]. rewrite ?Z.ltb_ge in *.
  destruct arm as [a|].
  - destruct (110 <? deform_bone_count a) eqn:H4.
    + split; [intros _|done]. right; right; right. exists a. split; [done|lia].
    + split; [done|]. intros [?|[?|[?|(a' & [= <-] & ?)]]]; lia.
  - split; [done|]. intros [?|[?|[?|(a' & [=] & ?)]]]; lia.
Qed.

(** What the profiler does once it holds the cache entry [e] for an active
    mesh object. *)
Lemma performance_profile_run (w : World) (k : string) (o : Object) (mesh : Mesh)
    (arm : option Armature) (e : CacheEntry) (w1 : World) :
  active_object (blend w) = Some (k, o) →
  data o = MeshData mesh →
  profiled_armature (blend w) o arm →
  get_cached_mesh_data o w = (Returned e, w1) →
  blend w1 = blend w →
  AVASTAR_OT_performance_profile.execute w
  = (Returned FINISHED,
     foldl (λ w r, add_log r w)
           (add_report (INFO, plain (join newline
                                       (profile_lines (vertex_count e) (polygon_count e) o arm)))
                       w1)
           (warning_records (profile_warnings (vertex_count e) o arm))).
Proof.
  intros Hact Hmesh Harm Hget Hblend.
  unfold AVASTAR_OT_performance_profile.execute.
  rewrite run_bind, context_active_object_run, Hact. cbv beta iota.
  rewrite (type_of_mesh o mesh Hmesh). cbn [String.eqb Ascii.eqb Bool.eqb].
  rewrite run_bind, (run_bind (get_cached_mesh_data o)), Hget.
  cbn [mret M_ret]. cbv beta iota zeta.
  unfold profiled_armature in Harm. unfold profile_warnings, profile_lines.
  destruct (find_armature (modifiers o)) as [a|].
  - destruct Harm as (rig & armature & Hrig & Hdata & ->).
    rewrite run_bind, run_bind, (armature_data_run w1 a rig armature) by (by rewrite ?Hblend).
    cbn [mret M_ret]. cbv beta iota zeta. rewrite (run_bind (report _ _)).
    unfold report at 1. cbv beta iota. rewrite run_bind.
    rewrite <- !app_assoc.
    destruct (_ ++ _ ++ _ ++ _) as [|x ws] eqn:E; [done|].
    rewrite run_bind. unfold log_msg at 1. cbv beta iota.
    by rewrite for_each_log_run.
  - subst arm. rewrite run_bind. cbn [mret M_ret]. cbv beta iota zeta. rewrite !app_nil_r.
    rewrite (run_bind (report _ _)). unfold report at 1. cbv beta iota. rewrite run_bind.
    destruct (_ ++ _ ++ _) as [|x ws] eqn:E; [done|].
    rewrite run_bind. unfold log_msg at 1. cbv beta iota.
    by rewrite for_each_log_run.
Qed.

Lemma add_logs_world (rs : list LogRecord) (w : World) :
  blend (foldl (λ w r, add_log r w) w rs) = blend w
  ∧ reports (foldl (λ w r, add_log r w) w rs) = reports w
  ∧ log (foldl (λ w r, add_log r w) w rs) = log w ++ rs
  ∧ _mesh_cache (foldl (λ w r, add_log r w) w rs) = _mesh_cache w.
Proof.
  revert w. induction rs as [|r rs IH]; intros w; cbn [foldl].
  - by rewrite app_nil_r.
  - destruct (IH (add_log r w)) as (-> & -> & -> & ->). world_simpl.
    by rewrite <- app_assoc.
Qed.

(** C5 on a world whose mesh cache has no entry for the active mesh: the
    report lists the object's own counts, and warnings are logged exactly
    when one of the four thresholds is exceeded. *)
Theorem performance_profile_fresh (w : World) (k : string) (o : Object) (mesh : Mesh)
    (arm : option Armature) :
  active_object (blend w) = Some (k, o) →
  data o = MeshData mesh →
  profiled_armature (blend w) o arm →
  _mesh_cache w !! name o = None →
  ∃ w' timing warnings,
    AVASTAR_OT_performance_profile.execute w = (Returned FINISHED, w')
    ∧ blend w' = blend w
    ∧ reports w'
      = reports w ++ [(INFO, plain (join newline
                                      (profile_lines (len (vertices mesh))
                                                     (len (polygons mesh)) o arm)))]
    ∧ log w' = log w ++ timing ++ warnings
    ∧ Forall (λ r, level r = LOG_INFO) timing
    ∧ Forall (λ r, level r = LOG_WARNING) warnings
    ∧ (warnings ≠ [] ↔ threshold_exceeded (len (vertices mesh)) o arm).
Proof.
  intros Hact Hmesh Harm Hmiss.
  pose proof (get_cached_mesh_data_miss w o mesh Hmiss Hmesh) as Hget. cbv zeta in Hget.
  set (e := {| vertex_count := _ |}) in Hget. set (w1 := finish_timing _ _ _) in Hget.
  destruct (finish_timing_world "get_cached_mesh_data" (clock w (ticks w))
              (with_caches (<[name o := e]> (_mesh_cache w)) (_bone_cache w) (tick (tick w))))
    as (Hb & _ & _ & Hr & timing & Hl & Ht). fold w1 in Hb, Hr, Hl.
  world_simpl_in Hb. world_simpl_in Hr. world_simpl_in Hl.
  rewrite (performance_profile_run w k o mesh arm e w1 Hact Hmesh Harm Hget Hb).
  eexists _, timing, _. split; [reflexivity|].
  destruct (add_logs_world (warning_records (profile_warnings (vertex_count e) o arm))
              (add_report (INFO, plain (join newline
                 (profile_lines (vertex_count e) (polygon_count e) o arm))) w1))
    as (-> & -> & -> & _).
  world_simpl. rewrite Hb, Hr, Hl, <- app_assoc.
  repeat split; try done.
  - apply warning_records_level.
  - intros H. apply profile_warnings_exceeded. by destruct (profile_warnings _ _ _).
  - intros H%profile_warnings_exceeded. by destruct (profile_warnings _ _ _).
Qed.

(** C5 fails on a stale cache. "Body" is profiled while it has 60000
    vertices and is then edited down to three vertices, one polygon, one
    modifier, three vertex groups and three deform bones, so no threshold
    is exceeded; profiled again, it is reported with the 60000 vertices of
    the cached entry, and the vertex-count warning is logged again. *)
Lemma performance_profile_reports_stale_count :
  (AVASTAR_OT_performance_profile.execute profiled_then_edited).1 = Returned FINISHED
  ∧ active_object (blend profiled_then_edited) = Some ("Body", demo_body)
  ∧ len (vertices demo_mesh) = 3
  ∧ len (modifiers demo_body) = 1
  ∧ len (vertex_groups demo_body) = 3
  ∧ deform_bone_count demo_armature = 3
  ∧ last (reports (AVASTAR_OT_performance_profile.execute profiled_then_edited).2)
    = Some (INFO, plain (join newline ["Vertices: 60,000"; "Polygons: 1"; "Modifiers: 1";
                                       "Weight Groups: 3"; "Total Bones: 4";
                                       "Deform Bones: 3"]))
  ∧ map level (log profiled_then_edited) = [LOG_WARNING; LOG_WARNING]
  ∧ map level (log (AVASTAR_OT_performance_profile.execute profiled_then_edited).2)
    = [LOG_WARNING; LOG_WARNING; LOG_WARNING; LOG_WARNING].
Proof. vm_compute. repeat split; reflexivity. Qed.

(* ===================================================================== *)
(** ** Bakes-on-Mesh material setup *)
(* ===================================================================== *)

Lemma socket_index_alter (nm : string) (v : SocketValue) (socks : list NodeSocket) (k : nat) :
  socket_index nm socks = Some k →
  alter (λ s, socket (sock_name s) v) k socks = with_default nm v socks.
Proof.
  revert k. induction socks as [|s socks IH]; intros k; cbn [socket_index with_default]; [done|].
  destruct (String.eqb (sock_name s) nm) eqn:E.
  - intros [= <-]. cbn. apply String.eqb_eq in E. by rewrite E.
  - destruct (socket_index nm socks) as [j|]; [|done]. cbn. intros [= <-].
    cbn. f_equal. by apply IH.
Qed.

Lemma socket_index_names (nm : string) (socks : list NodeSocket) :
  is_Some (socket_index nm socks) ↔ nm ∈ map sock_name socks.
Proof.
  induction socks as [|s socks IH]; cbn [socket_index map].
  - split; [by intros [? ?]|by intros ?%elem_of_nil].
  - destruct (String.eqb (sock_name s) nm) eqn:E.
    + apply String.eqb_eq in E. split; [intros _; rewrite E; left|by eexists].
    + apply String.eqb_neq in E. rewrite elem_of_cons.
      destruct (socket_index nm socks) as [j|]; cbn [fmap option_fmap option_map].
      * split; [intros _; right; apply IH; by eexists|by eexists].
      * split; [by intros [? ?]|]. intros [?|H]; [congruence|].
        apply IH in H. by destruct H.
Qed.

Lemma with_default_names (nm : string) (v : SocketValue) (socks : list NodeSocket) :
  map sock_name (with_default nm v socks) = map sock_name socks.
Proof.
  induction socks as [|s socks IH]; cbn [with_default map]; [done|].
  destruct (String.eqb (sock_name s) nm) eqn:E; cbn [map sock_name socket].
  - apply String.eqb_eq in E. by rewrite E.
  - by rewrite IH.
Qed.

Lemma with_default_absent (nm : string) (v : SocketValue) (socks : list NodeSocket) :
  nm ∉ map sock_name socks → with_default nm v socks = socks.
Proof.
  induction socks as [|s socks IH]; cbn [with_default map]; [done|].
  intros H. apply not_elem_of_cons in H as [Hs H].
  destruct (String.eqb_spec (sock_name s) nm) as [E|E]; [congruence|]. by rewrite IH.
Qed.


Lemma set_input_default_run (ins : list NodeSocket) (n : Node) (rest : list Node)
    (ls : list NodeLink) (nm : string) (v : SocketValue) :
  set_input_default 0 nm v {| nodes := n :: rest; links := ls |}
  = if bool_decide (nm ∈ map sock_name (inputs n))
    then Returned {| nodes := set_inputs (with_default nm v (inputs n)) n :: rest; links := ls |}
    else Raised KeyError.
Proof.
  unfold set_input_default. cbn [nodes lookup list_lookup].
  destruct (socket_index nm (inputs n)) as [k|] eqn:E.
  - rewrite bool_decide_eq_true_2 by (apply socket_index_names; by eexists).
    unfold alter_node, with_nodes. cbn [nodes links alter list_alter].
    by rewrite (socket_index_alter nm v _ k E).
  - rewrite bool_decide_eq_false_2; [done|].
    intros H. apply socket_index_names in H as [? H]. congruence.
Qed.

Lemma build_nodes_run (h : Host) (t : NodeTree) :
  AVASTAR_OT_bom_setup_material.build_nodes h t
  = (bom_node_tree h, if bom_ready h then None else Some KeyError).
Proof.
  unfold AVASTAR_OT_bom_setup_material.build_nodes, nodes_new, nodes_clear.
  cbn [nodes with_nodes app length map].
  destruct h as [ins].
  match goal with
  | |- AVASTAR_OT_bom_setup_material.then_step _
         (AVASTAR_OT_bom_setup_material.then_step _ ?inner) = _ =>
      change inner with
        ({| nodes := [ {| node_name := "Principled BSDF";
                          bl_idname := "ShaderNodeBsdfPrincipled";
                          label := ""; location := (0, 0); image := None;
                          inputs := ins; outputs := [socket "BSDF" VNone] |};
                       {| node_name := "Material Output";
                          bl_idname := "ShaderNodeOutputMaterial";
                          label := ""; location := (300, 0); image := None;
                          inputs := [socket "Surface" VNone; socket "Volume" VNone;
                                     socket "Displacement" VNone];
                          outputs := [] |} ];
            links := [ {| from_node := 0; from_socket := "BSDF";
                          to_node := 1; to_socket := "Surface" |} ] |}, None : option exn)
  end.
  unfold AVASTAR_OT_bom_setup_material.then_step at 2.
  rewrite (set_input_default_run ins). cbn [inputs].
  unfold bom_node_tree, bom_inputs, bom_ready, has_input. cbn [principled_inputs].
  destruct (bool_decide ("Specular" ∈ map sock_name ins)) eqn:Hs; [|done].
  unfold AVASTAR_OT_bom_setup_material.then_step.
  rewrite (set_input_default_run ins). cbn [inputs set_inputs].
  rewrite with_default_names. cbn [andb].
  destruct (bool_decide ("Roughness" ∈ map sock_name ins)) eqn:Hr; [done|].
  apply bool_decide_eq_false in Hr.
  rewrite (with_default_absent "Roughness"); [done|]. by rewrite with_default_names.
Qed.

Lemma store_material_run (w : World) (ref : string) (m : Material) :
  store_material ref m w
  = (Returned tt,
     with_blend (with_data_materials (<[ref := m]> (data_materials (blend w))) (blend w)) w).
Proof. reflexivity. Qed.

Lemma store_image_run (w : World) (ref : string) (i : Image) :
  store_image ref i w
  = (Returned tt,
     with_blend (with_data_images (<[ref := i]> (data_images (blend w))) (blend w)) w).
Proof. reflexivity. Qed.

Lemma get_blend_run (w : World) : get_blend w = (Returned (blend w), w).
Proof. reflexivity. Qed.

Lemma get_host_run (w : World) : get_host w = (Returned (host w), w).
Proof. reflexivity. Qed.

Lemma report_run (w : World) (kind : ReportType) (message : text) :
  report kind message w = (Returned tt, add_report (kind, message) w).
Proof. reflexivity. Qed.

(** The run of the material setup. *)
Lemma bom_setup_material_run (w : World) (k : string) (o : Object) (mesh : Mesh) :
  active_object (blend w) = Some (k, o) →
  data o = MeshData mesh →
  uv_layers mesh ≠ [] →
  (∀ mat, data_materials (blend w) !! (name o +:+ "_BoM") = Some mat → node_tree mat ≠ None) →
  AVASTAR_OT_bom_setup_material.execute w
  = if bom_ready (host w)
    then (Returned FINISHED, bom_material_set_up w k o mesh)
    else (Raised KeyError, bom_material_stopped w o).
Proof.
  intros Hact Hmesh Huv Htree.
  unfold AVASTAR_OT_bom_setup_material.execute, bom_material_set_up, bom_material_stopped.
  rewrite run_bind, context_active_object_run, Hact.
  destruct o as [onm d mods vgs ami]. cbn in Hmesh. subst d. cbv beta iota zeta.
  destruct (uv_layers mesh) as [|uv uvs] eqn:Euv; [done|].
  cbn [name] in *.
  rewrite run_bind, get_blend_run. cbv beta iota.
  rewrite run_bind, get_host_run. cbv beta iota.
  destruct (data_materials (blend w) !! (onm +:+ "_BoM")) as [mat|] eqn:Efound.
  - rewrite run_bind. cbn [mret M_ret]. cbv beta iota.
    destruct (node_tree mat) as [tree|] eqn:Etree; [|by destruct (Htree mat)].
    rewrite build_nodes_run. cbv beta iota.
    rewrite run_bind, store_material_run. cbv beta iota.
    destruct (bom_ready (host w)).
    + rewrite run_bind. cbn [mret M_ret]. cbv beta iota.
      rewrite run_bind, store_object_run. cbv beta iota.
      rewrite run_bind, report_run. cbv beta iota. cbn [mret M_ret].
      f_equal. f_equal. rewrite with_blend_twice. f_equal.
      unfold with_objects, with_data_materials. world_simpl.
      unfold bom_object, bom_material. cbn [from_option]. unfold with_node_tree, slots_with.
      f_equal. f_equal. f_equal. f_equal. f_equal.
      destruct (materials mesh); reflexivity.
    + rewrite run_bind. unfold raise. reflexivity.
  - rewrite run_bind, run_bind, store_material_run. cbv beta iota.
    cbn [mret M_ret]. cbv beta iota. cbn [enable_nodes materials_new node_tree default].
    rewrite build_nodes_run. cbv beta iota.
    rewrite run_bind, store_material_run. cbv beta iota.
    rewrite with_blend_twice. world_simpl. rewrite insert_insert_eq.
    destruct (bom_ready (host w)).
    + rewrite run_bind. cbn [mret M_ret]. cbv beta iota.
      rewrite run_bind, store_object_run. cbv beta iota.
      rewrite run_bind, report_run. cbv beta iota. cbn [mret M_ret].
      f_equal. f_equal. rewrite !with_blend_twice. f_equal.
      unfold with_objects, with_data_materials. world_simpl.
      unfold bom_object, bom_material. cbn [from_option]. unfold with_node_tree, slots_with.
      cbn [mat_name use_nodes].
      f_equal. f_equal. f_equal. f_equal. f_equal.
      destruct (materials mesh); reflexivity.
    + rewrite run_bind. unfold raise. reflexivity.
Qed.


(** C3 fails on a material that exists with its nodes switched off. On a
    host whose Principled BSDF has a 'Specular' input the setup is run,
    the user switches the nodes of "Body_BoM" off, and the setup is run
    again: it finishes, rebuilds the node graph, the material is in slot
    0, and [use_nodes] is still off. (On a host without that input the
    operator does not get that far: it raises [KeyError].) *)
Lemma bom_setup_material_leaves_nodes_off :
  has_input (host nodes_off_world) "Specular" = true
  ∧ (AVASTAR_OT_bom_setup_material.execute demo_world).1 = Returned FINISHED
  ∧ (AVASTAR_OT_bom_setup_material.execute nodes_off_world).1 = Returned FINISHED
  ∧ use_nodes <$> data_materials (blend bom_world) !! "Body_BoM" = Some true
  ∧ use_nodes <$> data_materials (blend nodes_off_world) !! "Body_BoM" = Some false
  ∧ data_materials (blend (AVASTAR_OT_bom_setup_material.execute nodes_off_world).2)
      !! "Body_BoM"
    = Some {| mat_name := "Body_BoM"; use_nodes := false;
              node_tree := Some (bom_node_tree specular_host) |}
  ∧ (o ← data_objects (blend (AVASTAR_OT_bom_setup_material.execute nodes_off_world).2)
           !! "Body";
     match data o with MeshData m => Some (materials m) | _ => None end)
    = Some [Some "Body_BoM"]
  ∧ has_input (host later_world) "Specular" = false
  ∧ (AVASTAR_OT_bom_setup_material.execute later_world).1 = Raised KeyError.
Proof. vm_compute. repeat split; reflexivity. Qed.

(* ===================================================================== *)
(** ** Bakes-on-Mesh layer slots *)
(* ===================================================================== *)

Lemma alter_node_last (f : Node → Node) (t : NodeTree) (x : Node) :
  alter_node f (length (nodes t)) (with_nodes (nodes t ++ [x]) t)
  = with_nodes (nodes t ++ [f x]) t.
Proof.
  unfold alter_node, with_nodes. cbn [nodes links]. f_equal.
  rewrite <- (Nat.add_0_r (length (nodes t))). by rewrite alter_app_r.
Qed.

Lemma with_nodes_twice (ns1 ns2 : list Node) (t : NodeTree) :
  with_nodes ns2 (with_nodes ns1 t) = with_nodes ns2 t.
Proof. reflexivity. Qed.

Lemma nodes_get_lookup (nm : string) (ns : list Node) (i : nat) :
  nodes_get nm ns = Some i → is_Some (ns !! i).
Proof.
  revert i. induction ns as [|n ns IH]; intros i; cbn [nodes_get]; [done|].
  destruct (String.eqb _ _); [intros [= <-]; by eexists|].
  destruct (nodes_get nm ns) as [j|]; [|done]. cbn. intros [= <-]. by apply IH.
Qed.

Lemma layer_links_new (o : Object) (layer : BomLayerType) (tree : NodeTree)
    (bsdf : nat) (n : Node) :
  nodes tree !! bsdf = Some n →
  is_Some (socket_index "Base Color" (inputs n)) →
  links_new (length (nodes tree)) "Color" bsdf "Base Color"
            (with_nodes (nodes tree ++ [bom_texture_node o layer tree]) tree)
  = Returned (bom_layer_tree o layer tree bsdf).
Proof.
  intros Hn [j Hj]. unfold links_new. cbn [nodes with_nodes links].
  rewrite lookup_app_r by lia. rewrite Nat.sub_diag. cbn [lookup list_lookup].
  rewrite lookup_app_l by (by eapply lookup_lt_Some). rewrite Hn.
  cbn [outputs bom_texture_node]. rewrite Hj. reflexivity.
Qed.

Lemma delete_last {A} (l : list A) (x : A) : delete (length l) (l ++ [x]) = l.
Proof. induction l as [|y l IH]; [done|]. simpl. f_equal. exact IH. Qed.

Lemma effective_material_stored (h : Host) (mat : Material) (tree : NodeTree) :
  with_node_tree tree (effective_material h mat)
  = {| mat_name := mat_name mat; use_nodes := true; node_tree := Some tree |}.
Proof.
  unfold effective_material, with_node_tree.
  destruct (use_nodes mat) eqn:E; [by rewrite E|reflexivity].
Qed.

Lemma add_layer_finish (w : World) (k : string) (o : Object) (mesh : Mesh)
    (ref : string) (mat : Material) (tree : NodeTree) (bsdf : nat) (n : Node)
    (layer : BomLayerType) :
  active_object (blend w) = Some (k, o) →
  data o = MeshData mesh →
  active_material (blend w) o = Some (ref, mat) →
  node_tree (effective_material (host w) mat) = Some tree →
  nodes_get "Principled BSDF" (nodes tree) = Some bsdf →
  nodes tree !! bsdf = Some n →
  is_Some (socket_index "Base Color" (inputs n)) →
  AVASTAR_OT_bom_add_layer_slot.execute layer w
  = (Returned FINISHED, bom_layer_added w o layer ref mat tree bsdf).
Proof.
  intros Hact Hmesh Hmat Htree Hget Hn Hsock.
  unfold AVASTAR_OT_bom_add_layer_slot.execute.
  rewrite run_bind, context_active_object_run, Hact.
  destruct o as [onm d mods vgs ami]. cbn in Hmesh. subst d. cbv beta iota.
  rewrite run_bind, get_blend_run. cbv beta iota.
  rewrite run_bind, get_host_run. cbv beta iota. rewrite Hmat.
  set (o := {| name := onm |}) in *.
  rewrite run_bind.
  assert (Hnodes : ∃ w1,
    (if use_nodes mat then mret mat
     else store_material ref (enable_nodes (host w) mat) ;; mret (enable_nodes (host w) mat)) w
    = (Returned (effective_material (host w) mat), w1)
    ∧ (∀ b, with_blend b w1 = with_blend b w)
    ∧ data_objects (blend w1) = data_objects (blend w)
    ∧ data_images (blend w1) = data_images (blend w)
    ∧ active (blend w1) = active (blend w)
    ∧ (∀ m, <[ref := m]> (data_materials (blend w1))
            = <[ref := m]> (data_materials (blend w)))).
  { unfold effective_material. destruct (use_nodes mat).
    - exists w. done.
    - eexists. rewrite run_bind, store_material_run. cbv beta iota. cbn [mret M_ret].
      split; [reflexivity|]. world_simpl. repeat split; try done.
      intros m. by rewrite insert_insert_eq. }
  destruct Hnodes as (w1 & -> & Hw1 & Ho & Himg & Ha & Hm). cbv beta iota.
  rewrite Htree, Hget.
  unfold nodes_new, set_name. cbv beta iota zeta. cbn [nodes with_nodes].
  rewrite delete_last, !alter_node_last.
  set (tex0 := set_location _ _).
  rewrite run_bind, store_material_run. cbv beta iota.
  rewrite run_bind. fold (bom_image_name o layer).
  change (set_image (bom_image_name o layer) tex0) with (bom_texture_node o layer tree).
  rewrite (layer_links_new o layer tree bsdf n Hn Hsock).
  destruct (data_images (blend w) !! bom_image_name o layer) as [img|] eqn:Eimg.
  - cbn [mret M_ret]. cbv beta iota.
    rewrite run_bind, store_material_run. cbv beta iota.
    rewrite run_bind. unfold lift. cbv beta iota.
    rewrite run_bind, store_material_run. cbv beta iota.
    rewrite run_bind, report_run. cbv beta iota. cbn [mret M_ret].
    f_equal. unfold bom_layer_added. rewrite Eimg. f_equal.
    rewrite !with_blend_twice. world_simpl. unfold with_data_materials. world_simpl.
    rewrite !insert_insert_eq. rewrite Hw1, Ho, Himg, Ha, Hm.
    rewrite ?effective_material_stored. reflexivity.
  - rewrite store_image_run. cbv beta iota.
    rewrite run_bind, store_material_run. cbv beta iota.
    rewrite run_bind. unfold lift. cbv beta iota.
    rewrite run_bind, store_material_run. cbv beta iota.
    rewrite run_bind, report_run. cbv beta iota. cbn [mret M_ret].
    f_equal. unfold bom_layer_added. rewrite Eimg. f_equal.
    rewrite !with_blend_twice. world_simpl.
    unfold with_data_materials, with_data_images. world_simpl.
    rewrite !insert_insert_eq. rewrite Hw1, Ho, Himg, Ha, Hm.
    rewrite ?effective_material_stored. reflexivity.
Qed.

Lemma add_layer_classified (layer : BomLayerType) (w : World) :
  bom_well_formed (host w) (blend w) = true →
  (bom_layer_blocked (host w) (blend w)
   ∧ (AVASTAR_OT_bom_add_layer_slot.execute layer w).1 = Returned CANCELLED
   ∧ bom_layer_cancelled w (AVASTAR_OT_bom_add_layer_slot.execute layer w).2)
  ∨ (¬ bom_layer_blocked (host w) (blend w)
     ∧ ∃ k o ref mat tree bsdf,
         active_object (blend w) = Some (k, o)
         ∧ active_material (blend w) o = Some (ref, mat)
         ∧ node_tree (effective_material (host w) mat) = Some tree
         ∧ nodes_get "Principled BSDF" (nodes tree) = Some bsdf
         ∧ AVASTAR_OT_bom_add_layer_slot.execute layer w
           = (Returned FINISHED, bom_layer_added w o layer ref mat tree bsdf)).
Proof.
  intros Hwf. unfold bom_well_formed in Hwf.
  destruct (active_object (blend w)) as [[k o]|] eqn:Hact.
  - destruct (data o) as [mesh|arm|kind] eqn:Hdata.
    + pose proof (type_of_mesh o mesh Hdata) as Hty.
      destruct (active_material (blend w) o) as [[ref mat]|] eqn:Hmat.
      * destruct (node_tree (effective_material (host w) mat)) as [tree|] eqn:Htree; [|done].
        destruct (nodes_get "Principled BSDF" (nodes tree)) as [bsdf|] eqn:Hget.
        -- right. destruct (nodes tree !! bsdf) as [n|] eqn:Hn; [|done].
           apply bool_decide_eq_true in Hwf.
           split.
           ++ intros [H|[(k' & o' & H & Hne)|[(k' & o' & H & _ & Hnone)
                        |(k' & o' & ref' & mat' & tree' & H & _ & Hm & Ht & Hg)]]].
              ** congruence.
              ** rewrite Hact in H. injection H as <- <-. done.
              ** rewrite Hact in H. injection H as <- <-. congruence.
              ** rewrite Hact in H. injection H as <- <-. rewrite Hmat in Hm.
                 injection Hm as <- <-. congruence.
           ++ exists k, o, ref, mat, tree, bsdf. repeat split; try done.
              by eapply add_layer_finish.
        -- left. split; [right; right; right; eauto 10|].
           unfold AVASTAR_OT_bom_add_layer_slot.execute.
           rewrite run_bind, context_active_object_run, Hact.
           destruct o as [onm d mods vgs ami]. cbn in Hdata. subst d. cbv beta iota.
           rewrite run_bind, get_blend_run. cbv beta iota.
           rewrite run_bind, get_host_run. cbv beta iota. rewrite Hmat.
           rewrite run_bind. unfold effective_material in Htree.
           destruct (use_nodes mat) eqn:Hun.
           ++ cbn [mret M_ret]. cbv beta iota. rewrite Htree, Hget.
              rewrite run_bind, report_run. cbn [mret M_ret fst snd].
              split; [done|]. eexists. by left.
           ++ rewrite run_bind, store_material_run. cbv beta iota.
              cbn [mret M_ret]. cbv beta iota. rewrite Htree, Hget.
              rewrite run_bind, report_run. cbn [mret M_ret fst snd].
              split; [done|]. eexists. right. eauto 10.
      * left. split; [right; right; left; eauto|].
        unfold AVASTAR_OT_bom_add_layer_slot.execute.
        rewrite run_bind, context_active_object_run, Hact.
        destruct o as [onm d mods vgs ami]. cbn in Hdata. subst d. cbv beta iota.
        rewrite run_bind, get_blend_run. cbv beta iota.
           rewrite run_bind, get_host_run. cbv beta iota. rewrite Hmat.
        rewrite run_bind, report_run. cbn [mret M_ret fst snd].
        split; [done|]. eexists. by left.
    + left. split.
      * right; left. exists k, o. split; [done|]. unfold type. by rewrite Hdata.
      * unfold AVASTAR_OT_bom_add_layer_slot.execute.
        rewrite run_bind, context_active_object_run, Hact.
        destruct o as [onm d mods vgs ami]. cbn in Hdata. subst d. cbv beta iota.
        rewrite run_bind, report_run. cbn [mret M_ret fst snd].
        split; [done|]. eexists. by left.
    + left. split.
      * right; left. exists k, o. split; [done|]. unfold type. rewrite Hdata.
        by destruct kind.
      * unfold AVASTAR_OT_bom_add_layer_slot.execute.
        rewrite run_bind, context_active_object_run, Hact.
        destruct o as [onm d mods vgs ami]. cbn in Hdata. subst d. cbv beta iota.
        rewrite run_bind, report_run. cbn [mret M_ret fst snd].
        split; [done|]. eexists. by left.
  - left. split; [by left|].
    unfold AVASTAR_OT_bom_add_layer_slot.execute.
    rewrite run_bind, context_active_object_run, Hact. cbv beta iota.
    rewrite run_bind, report_run. cbn [mret M_ret fst snd].
    split; [done|]. eexists. by left.
Qed.

(** What the layer operator does where the node it finds under the name
    'Principled BSDF' has a 'Base Color' input. It cancels exactly when it
    has nothing to add a layer to; it then leaves an error report and
    nothing else, except that the nodes of the active material may have
    been switched on. Otherwise, for each of the five layer types, it
    finishes with a texture node added to the material's tree, its Color
    output linked to the Base Color input of the BSDF, and its image named
    after the object and the layer; that image is created, 1024 by 1024
    and generated, only when no image of the name exists. The node is
    named after the layer, with a numeric suffix when the tree has a node
    of that name already. *)
Theorem bom_add_layer_slot_outcome (layer : BomLayerType) (w : World) :
  bom_well_formed (host w) (blend w) = true →
  ((AVASTAR_OT_bom_add_layer_slot.execute layer w).1 = Returned CANCELLED
   ↔ bom_layer_blocked (host w) (blend w))
  ∧ (bom_layer_blocked (host w) (blend w) →
     bom_layer_cancelled w (AVASTAR_OT_bom_add_layer_slot.execute layer w).2)
  ∧ (¬ bom_layer_blocked (host w) (blend w) →
     ∃ k o ref mat tree bsdf,
       active_object (blend w) = Some (k, o)
       ∧ active_material (blend w) o = Some (ref, mat)
       ∧ node_tree (effective_material (host w) mat) = Some tree
       ∧ nodes_get "Principled BSDF" (nodes tree) = Some bsdf
       ∧ AVASTAR_OT_bom_add_layer_slot.execute layer w
         = (Returned FINISHED, bom_layer_added w o layer ref mat tree bsdf)).
Proof.
  intros Hwf.
  destruct (add_layer_classified layer w Hwf)
    as [(Hb & Hres & Hst)|(Hnb & k & o & ref & mat & tree & bsdf & H1 & H2 & H3 & H4 & Hrun)].
  - split; [tauto|]. split; [done|]. tauto.
  - split; [|split; [tauto|eauto 12]].
    rewrite Hrun. cbn [fst]. split; [discriminate|tauto].
Qed.

(** C8 fails where the node found under the name 'Principled BSDF' has no
    'Base Color' input. The only node of the material of "Body" is an
    image texture of that name: the operator has something to add a layer
    to, so it does not cancel, and it does not finish either. It raises
    [KeyError] where it looks up the input, after it has added the
    texture node to the tree and created the image: the node is left
    unconnected and no report is made. *)
Lemma bom_add_layer_slot_raises_on_renamed_node :
  let run := AVASTAR_OT_bom_add_layer_slot.execute SKIN misnamed_world in
  node_names misnamed_world "Body_BoM" = Some ["Principled BSDF"]
  ∧ socket_index "Base Color" (inputs renamed_texture) = None
  ∧ run.1 = Raised KeyError
  ∧ node_names run.2 "Body_BoM" = Some ["Principled BSDF"; "BoM_SKIN"]
  ∧ node_links run.2 "Body_BoM" = Some []
  ∧ data_images (blend misnamed_world) !! "Body_SKIN_BoM" = None
  ∧ data_images (blend run.2) !! "Body_SKIN_BoM"
    = Some {| img_name := "Body_SKIN_BoM"; width := 1024; height := 1024;
              alpha := true; source := "GENERATED" |}
  ∧ reports run.2 = [].
Proof. vm_compute. repeat split; reflexivity. Qed.

(** Asked for the same layer twice on the demo scene after the setup,
    the operator adds two texture nodes; the host names the second one
    'BoM_SKIN.001'. *)
Example bom_add_layer_slot_twice_names :
  let w1 := (AVASTAR_OT_bom_add_layer_slot.execute SKIN bom_world).2 in
  let w2 := (AVASTAR_OT_bom_add_layer_slot.execute SKIN w1).2 in
  (AVASTAR_OT_bom_add_layer_slot.execute SKIN w1).1 = Returned FINISHED
  ∧ node_names w1 "Body_BoM" = Some ["Principled BSDF"; "Material Output"; "BoM_SKIN"]
  ∧ node_names w2 "Body_BoM"
    = Some ["Principled BSDF"; "Material Output"; "BoM_SKIN"; "BoM_SKIN.001"].
Proof. vm_compute. repeat split; reflexivity. Qed.

(* ===================================================================== *)
(** ** Scene optimisation *)
(* ===================================================================== *)

Import AVASTAR_OT_performance_optimize_scene.

Lemma with_vertices_twice (vs1 vs2 : list MeshVertex) (m : Mesh) :
  with_vertices vs2 (with_vertices vs1 m) = with_vertices vs2 m.
Proof. reflexivity. Qed.

Lemma alter_middle {A} (f : A → A) (done : list A) (x : A) (rest : list A) :
  alter f (length done) (done ++ x :: rest) = done ++ f x :: rest.
Proof. rewrite <- (Nat.add_0_r (length done)). by rewrite alter_app_r. Qed.

(** The loop over the assignments of the vertex at position [length done]. *)
Lemma clean_inner (vgs : list VertexGroup) (mesh : Mesh) (done rest : list MeshVertex)
    (post pre : list VertexGroupElement) (c : Z) :
  Forall (λ g, (group g < length vgs)%nat) post →
  NoDup (map group (pre ++ post)) →
  fold_in_place
    (λ st g,
       if below_threshold g then
         match vgs !! group g with
         | None => (st, Some IndexError)
         | Some _ => ((vertex_group_remove (group g) (length done) st.1, st.2 + 1), None)
         end
       else (st, None))
    post
    (with_vertices
       (done ++ {| groups := filter (λ g, below_threshold g = false) pre ++ post |} :: rest)
       mesh, c)
  = (with_vertices
       (done ++ {| groups := filter (λ g, below_threshold g = false) (pre ++ post) |} :: rest)
       mesh,
     c + len (filter (λ g, below_threshold g = true) post), None).
Proof.
  revert pre c. induction post as [|g post IH]; intros pre c Hvalid Hnd.
  - cbn [fold_in_place]. rewrite !app_nil_r. do 2 f_equal. unfold len. cbn. lia.
  - apply Forall_cons in Hvalid as [Hg Hvalid]. cbn [fold_in_place].
    specialize (IH (pre ++ [g])).
    rewrite <- (app_assoc pre [g] post) in IH. cbn [app] in IH.
    rewrite (filter_app _ pre [g]), filter_cons, filter_nil in IH.
    rewrite (filter_cons (λ g, below_threshold g = true)).
    destruct (below_threshold g) eqn:Hlow.
    + destruct (lookup_lt_is_Some_2 vgs (group g) Hg) as [vg ->].
      cbn [fst snd]. unfold vertex_group_remove. cbn [vertices with_vertices].
      rewrite with_vertices_twice, alter_middle. cbn [groups].
      rewrite remove_first_mid.
      * rewrite decide_False, app_nil_r in IH by done. rewrite IH by done.
        rewrite decide_True by done. do 2 f_equal. unfold len. cbn [length]. lia.
      * apply Forall_forall. intros y Hy. apply list_elem_of_filter in Hy as [_ Hy].
        apply Nat.eqb_neq. intros Heq.
        rewrite map_app in Hnd. apply NoDup_app in Hnd as (_ & Hnd & _).
        apply (Hnd (group y)); [apply list_elem_of_fmap; eauto|].
        rewrite Heq. cbn. left.
      * apply Nat.eqb_refl.
    + rewrite decide_True in IH by done. rewrite <- app_assoc in IH. cbn [app] in IH.
      rewrite IH by done. rewrite decide_False by done. done.
Qed.

Lemma sum_app (xs ys : list Z) : sum (xs ++ ys) = sum xs + sum ys.
Proof. unfold sum. induction xs as [|x xs IH]; cbn [app foldr]; lia. Qed.

(** The weight-cleaning loop: every vertex loses its assignments below the
    threshold, and [cleaned] counts them. *)
Lemma clean_weights_loop_run (vgs : list VertexGroup) (mesh : Mesh) :
  valid_assignments vgs mesh →
  distinct_assignments mesh →
  clean_weights_loop vgs mesh
  = (with_vertices (map clean_vertex (vertices mesh)) mesh,
     sum (map (λ v, len (filter (λ g, below_threshold g = true) (groups v)))
              (vertices mesh)), None).
Proof.
  intros Hvalid Hdistinct. unfold clean_weights_loop.
  assert (H : ∀ rest done c,
    Forall (λ v, Forall (λ g, (group g < length vgs)%nat) (groups v)) rest →
    Forall (λ v, NoDup (map group (groups v))) rest →
    fold_in_place
      (λ st i,
         match vertices st.1 !! i with
         | None => (st, None)
         | Some v =>
             fold_in_place
               (λ st g,
                  if below_threshold g then
                    match vgs !! group g with
                    | None => (st, Some IndexError)
                    | Some _ => ((vertex_group_remove (group g) i st.1, st.2 + 1), None)
                    end
                  else (st, None))
               (groups v) st
         end)
      (seq (length done) (length rest)) (with_vertices (done ++ rest) mesh, c)
    = (with_vertices (done ++ map clean_vertex rest) mesh,
       c + sum (map (λ v, len (filter (λ g, below_threshold g = true) (groups v)))
                    rest), None)).
  { induction rest as [|v rest IH]; intros done c Hv Hd.
    - cbn. do 2 f_equal. lia.
    - apply Forall_cons in Hv as [Hv Hvs]. apply Forall_cons in Hd as [Hd Hds].
      cbn [length seq fold_in_place fst vertices with_vertices].
      rewrite lookup_app_r by lia. rewrite Nat.sub_diag. cbn [lookup list_lookup].
      destruct v as [gs]. cbn [groups] in *.
      pose proof (clean_inner vgs mesh done rest gs [] c Hv Hd) as Hin.
      cbn [filter app] in Hin. rewrite filter_nil in Hin. cbn [app] in Hin.
      rewrite Hin.
      replace (done ++ {| groups := filter (λ g, below_threshold g = false) gs |} :: rest)
        with ((done ++ [clean_vertex {| groups := gs |}]) ++ rest)
        by by rewrite <- app_assoc.
      replace (S (length done)) with (length (done ++ [clean_vertex {| groups := gs |}]))
        by (rewrite length_app; cbn; lia).
      rewrite IH by done. rewrite <- app_assoc. cbn [app map sum foldr groups].
      do 2 f_equal. unfold sum. lia. }
  specialize (H (vertices mesh) [] 0 Hvalid Hdistinct). cbn [app length] in H.
  replace (with_vertices (vertices mesh) mesh) with mesh in H by by destruct mesh.
  rewrite H. do 2 f_equal.
Qed.

Lemma used_groups_spec (mesh : Mesh) (p : nat) :
  p ∈ used_groups mesh ↔ group_referenced mesh p.
Proof.
  unfold used_groups, group_referenced.
  assert (Hin : ∀ (gs : list VertexGroupElement) (used : gset nat),
            p ∈ foldl (λ used g, used ∪ {[group g]}) used gs
            ↔ p ∈ used ∨ ∃ g, g ∈ gs ∧ group g = p).
  { induction gs as [|g gs IH]; intros used; cbn [foldl].
    - split; [auto|]. intros [H|(g & H & _)]; [done|]. by apply elem_of_nil in H.
    - rewrite IH, elem_of_union, elem_of_singleton. split.
      + intros [[H|H]|(g' & Hg & Hp)]; [auto| |].
        * right. exists g. split; [left|done].
        * right. exists g'. split; [by right|done].
      + intros [H|(g' & Hg & Hp)]; [auto|].
        apply elem_of_cons in Hg as [->|Hg]; [auto|right; eauto]. }
  assert (H : ∀ (vs : list MeshVertex) (used : gset nat),
            p ∈ foldl (λ used v, foldl (λ used g, used ∪ {[group g]}) used (groups v)) used vs
            ↔ p ∈ used ∨ ∃ v g, v ∈ vs ∧ g ∈ groups v ∧ group g = p).
  { induction vs as [|v vs IH]; intros used; cbn [foldl].
    - split; [auto|]. intros [H|(v & g & H & _)]; [done|]. by apply elem_of_nil in H.
    - rewrite IH, Hin. split.
      + intros [[H|(g & Hg & Hp)]|(v' & g & Hv & Hg & Hp)]; [auto| |].
        * right. exists v, g. split; [left|done].
        * right. exists v', g. split; [by right|done].
      + intros [H|(v' & g & Hv & Hg & Hp)]; [auto|].
        apply elem_of_cons in Hv as [->|Hv]; [left; right; eauto|right; eauto]. }
  rewrite H. split; [|auto]. intros [Hn|Hn]; [|done]. by apply not_elem_of_empty in Hn.
Qed.

Lemma range_down (n : nat) :
  range (Z.of_nat n - 1) (-1) (-1) = Returned (map Z.of_nat (rev (seq 0 n))).
Proof.
  unfold range. cbn [Z.eqb]. f_equal.
  replace (Z.to_nat (range_len (Z.of_nat n - 1) (-1) (-1))) with n.
  2:{ unfold range_len. cbn [Z.ltb Z.compare Z.opp].
      replace (Z.of_nat n - 1 - -1 - -1 - 1) with (Z.of_nat n) by lia.
      rewrite Z.div_1_r. lia. }
  induction n as [|n IH]; [done|].
  replace (rev (seq 0 (S n))) with (n :: rev (seq 0 n))
    by (by rewrite seq_S, rev_app_distr).
  cbn [seq map]. rewrite <- IH. f_equal; [lia|].
  rewrite <- seq_shift, map_map. apply map_ext. intros i. lia.
Qed.

(** Removing a group no vertex refers to: the assignments stay, those to
    later groups under an index one lower. *)
Lemma drop_unreferenced (mesh : Mesh) (i : nat) (v : MeshVertex) :
  ¬ group_referenced mesh i → v ∈ vertices mesh →
  groups (drop_group i v) = map (renumber i) (groups v).
Proof.
  intros Hno Hv. unfold drop_group. cbn [groups]. f_equal.
  assert (H : Forall (λ g, group g ≠ i) (groups v)).
  { apply Forall_forall. intros g Hg Heq. apply Hno. exists v, g. done. }
  induction H as [|g gs Hg _ IH]; [done|].
  rewrite filter_cons, decide_True by done. by rewrite IH.
Qed.

Lemma referenced_after_drop (mesh : Mesh) (i p : nat) :
  ¬ group_referenced mesh i →
  group_referenced (with_vertices (map (drop_group i) (vertices mesh)) mesh) p
  ↔ (p < i)%nat ∧ group_referenced mesh p ∨ (i ≤ p)%nat ∧ group_referenced mesh (S p).
Proof.
  intros Hno. unfold group_referenced at 1. cbn [vertices with_vertices]. split.
  - intros (v' & g' & Hv' & Hg' & Hp).
    apply list_elem_of_In, in_map_iff in Hv' as (v & <- & Hv%list_elem_of_In).
    rewrite (drop_unreferenced mesh i v Hno Hv) in Hg'.
    apply list_elem_of_In, in_map_iff in Hg' as (g & <- & Hg%list_elem_of_In).
    assert (group g ≠ i) by (intros Heq; apply Hno; exists v, g; done).
    unfold renumber in Hp. cbn [group] in Hp. case_bool_decide.
    + right. split; [lia|]. exists v, g. split; [done|]. split; [done|]. lia.
    + left. split; [lia|]. exists v, g. done.
  - intros [[Hlt (v & g & Hv & Hg & Hp)]|[Hge (v & g & Hv & Hg & Hp)]].
    + exists (drop_group i v), (renumber i g). split; [|split].
      * apply list_elem_of_In, in_map, list_elem_of_In, Hv.
      * rewrite (drop_unreferenced mesh i v Hno Hv).
        apply list_elem_of_In, in_map, list_elem_of_In, Hg.
      * unfold renumber. cbn [group]. rewrite bool_decide_eq_false_2 by lia. done.
    + exists (drop_group i v), (renumber i g). split; [|split].
      * apply list_elem_of_In, in_map, list_elem_of_In, Hv.
      * rewrite (drop_unreferenced mesh i v Hno Hv).
        apply list_elem_of_In, in_map, list_elem_of_In, Hg.
      * unfold renumber. cbn [group]. rewrite bool_decide_eq_true_2 by lia. lia.
Qed.

Lemma no_low_weights_drop (mesh : Mesh) (i : nat) :
  no_low_weights mesh →
  no_low_weights (with_vertices (map (drop_group i) (vertices mesh)) mesh).
Proof.
  unfold no_low_weights. cbn [vertices with_vertices]. intros H.
  apply Forall_map. eapply Forall_impl; [exact H|]. intros v Hv.
  unfold drop_group. cbn [groups]. apply Forall_map.
  apply Forall_forall. intros g Hg%list_elem_of_filter.
  rewrite Forall_forall in Hv. apply (Hv g), Hg.
Qed.

Lemma assignment_count_drop (mesh : Mesh) (i : nat) :
  ¬ group_referenced mesh i →
  assignment_count (with_vertices (map (drop_group i) (vertices mesh)) mesh)
  = assignment_count mesh.
Proof.
  intros Hno. unfold assignment_count. cbn [vertices with_vertices]. rewrite map_map.
  f_equal. apply map_ext_in. intros v Hv%list_elem_of_In.
  rewrite (drop_unreferenced mesh i v Hno Hv). unfold len. by rewrite length_map.
Qed.





Lemma no_low_weights_clean (mesh : Mesh) :
  no_low_weights (with_vertices (map clean_vertex (vertices mesh)) mesh).
Proof.
  unfold no_low_weights. cbn [vertices with_vertices]. apply Forall_map.
  apply Forall_forall. intros v _. cbn [clean_vertex groups].
  apply Forall_forall. by intros g [Hg _]%list_elem_of_filter.
Qed.


(** C6 fails on an assignment that refers to no group of the object: the
    first vertex of "Body" carries weight 0 for group index 7 while the
    object has three groups, and the operator raises [IndexError] where it
    looks the group up. *)
Lemma optimize_scene_raises_on_dangling_group :
  AVASTAR_OT_performance_optimize_scene.execute true true false dangling_world
  = (Raised IndexError, dangling_world).
Proof. vm_compute. reflexivity. Qed.

(** The removals made before the exception stay: where the dangling
    assignment is on the second vertex, the first vertex has lost its
    weight of 0.0005 by the time [IndexError] is raised; no group is
    removed, the caches are not cleared and nothing is reported. *)
Example optimize_scene_raise_keeps_removals :
  let run := AVASTAR_OT_performance_optimize_scene.execute true true false
               (with_caches (_mesh_cache stale_world) ∅ late_dangling_world) in
  run.1 = Raised IndexError
  ∧ (o ← data_objects (blend run.2) !! "Body";
     match data o with MeshData m => Some (vertices m) | _ => None end)
    = Some [ {| groups := [ {| group := 0; weight := 0.5 |} ] |};
             {| groups := [ {| group := 7; weight := 0 |} ] |};
             {| groups := [ {| group := 1; weight := 0.25 |} ] |} ]
  ∧ (vertex_groups <$> data_objects (blend run.2) !! "Body")
    = Some (vertex_groups demo_body)
  ∧ vertex_count <$> _mesh_cache run.2 !! "Body" = Some 60000
  ∧ reports run.2 = [].
Proof. vm_compute. repeat split; reflexivity. Qed.

(* ===================================================================== *)
(** ** The theorems at work on the demo scenes *)
(* ===================================================================== *)

(** The validator on a "Body" without modifiers. *)
Lemma mesh_operators_cancel_witness :
  ∃ message,
    run_operator Animesh_validate bare_world
    = (Returned CANCELLED, add_report (ERROR, message) bare_world).
Proof.
  apply (mesh_operators_cancel Animesh_validate bare_world).
  right; right. split; [reflexivity|].
  exists "Body", (with_modifiers [] demo_body). repeat split; reflexivity.
Defined.


(** The bone optimiser on the demo scene: of the three deform bones
    "Hip", "Knee" and "Ankle" only "Hip" names a vertex group in use, so
    two bones go and "Hip" is left beside "Root", which does not deform. *)
Lemma optimize_bones_removes_unused_witness :
  AVASTAR_OT_animesh_optimize_bones.execute true demo_world
  = (Returned FINISHED,
     add_report (INFO, plain "Removed 2 unused bones (1 remaining)")
       (with_blend
          (with_objects
             (<["Rig" := with_data
                           (ArmatureData
                              {| bones := [ {| bone_name := "Hip"; use_deform := true |};
                                            {| bone_name := "Root"; use_deform := false |} ];
                                 edit_bones := None |}) demo_rig]>
                (data_objects demo_blend)) demo_blend) demo_world)).
Proof.
  destruct (optimize_bones_removes_unused demo_world "Body" demo_body demo_mesh "Rig"
              demo_rig demo_armature eq_refl eq_refl eq_refl eq_refl eq_refl eq_refl)
    as (Hrun & _).
  - apply (bool_decide_unpack _). vm_compute. exact I.
  - rewrite Hrun. vm_compute. reflexivity.
Defined.

(** The entry for "Body" outlives a profile, an edit of the scene and a
    lookup, and answers a "Body" that has another mesh by now. *)
Lemma mesh_cache_never_invalidated_witness :
  let w1 := run_calls [Call_performance_profile; Host_edit (λ b, with_active None b);
                       Call_get_cached_mesh_data edited_body] stale_world in
  (get_cached_mesh_data edited_body w1).1
  = Returned {| vertex_count := 60000; polygon_count := 1; timestamp := 0 |}
  ∧ caches_kept stale_world w1.
Proof.
  destruct (mesh_cache_never_invalidated stale_world
              [Call_performance_profile; Host_edit (λ b, with_active None b);
               Call_get_cached_mesh_data edited_body]
              edited_body {| vertex_count := 60000; polygon_count := 1; timestamp := 0 |})
    as (Hanswer & _ & _ & Hkept & _).
  - reflexivity.
  - repeat constructor.
  - split; [exact Hanswer|exact Hkept].
Defined.

(** A tattoo layer on the demo scene after the material setup. *)
Lemma bom_add_layer_slot_outcome_witness :
  ((AVASTAR_OT_bom_add_layer_slot.execute TATTOO bom_world).1 = Returned CANCELLED
   ↔ bom_layer_blocked (host bom_world) (blend bom_world))
  ∧ (AVASTAR_OT_bom_add_layer_slot.execute TATTOO bom_world).1 = Returned FINISHED.
Proof.
  destruct (bom_add_layer_slot_outcome TATTOO bom_world) as (Hiff & _ & _).
  - vm_compute. reflexivity.
  - split; [exact Hiff|]. vm_compute. reflexivity.
Defined.

(** Chunks of two, of one and of three vertices on the demo mesh, which
    has three vertices. *)
Lemma weight_calculation_chunk_independent_witness :
  ∃ table,
    weight_calculation demo_body {["Hip"; "Toe"; "Knee"]} 2 = Returned table
    ∧ weight_calculation demo_body {["Hip"; "Toe"; "Knee"]} 1 = Returned table
    ∧ weight_calculation demo_body {["Hip"; "Toe"; "Knee"]} 3 = Returned table
    ∧ table !! "Hip" = Some [(0%nat, 0.5%float); (1%nat, 1%float)]
    ∧ table !! "Toe" = Some [(0%nat, 0.0005%float); (2%nat, 0.25%float)]
    ∧ table !! "Knee" = None
    ∧ table !! "Spare" = None.
Proof.
  destruct (weight_calculation_chunk_independent demo_body demo_mesh
              {["Hip"; "Toe"; "Knee"]} 2)
    as (table & Hrun & _ & Hany & Hsingle & Hentry & _).
  - reflexivity.
  - lia.
  - exists table. split; [exact Hrun|]. split; [apply Hany; lia|].
    split; [apply Hsingle; vm_compute; discriminate|].
    rewrite !Hentry. vm_compute. repeat split; reflexivity.
Defined.

(** The profiler on the demo scene, whose caches are empty. *)
Lemma performance_profile_fresh_witness :
  ∃ w' timing warnings,
    AVASTAR_OT_performance_profile.execute demo_world = (Returned FINISHED, w')
    ∧ blend w' = blend demo_world
    ∧ reports w'
      = reports demo_world
        ++ [(INFO, plain (join newline
                            (profile_lines (len (vertices demo_mesh))
                                           (len (polygons demo_mesh))
                                           demo_body (Some demo_armature))))]
    ∧ log w' = log demo_world ++ timing ++ warnings
    ∧ Forall (λ r, level r = LOG_INFO) timing
    ∧ Forall (λ r, level r = LOG_WARNING) warnings
    ∧ (warnings ≠ []
       ↔ threshold_exceeded (len (vertices demo_mesh)) demo_body (Some demo_armature)).
Proof.
  apply (performance_profile_fresh demo_world "Body" demo_body demo_mesh (Some demo_armature));
    try reflexivity.
  exists demo_rig, demo_armature. repeat split; reflexivity.
Defined.



(** C9 as stated fails on a mesh without vertices: the single chunk of
    the size of the vertex count has size zero, which [range] refuses
    with [ValueError], while every chunk size from one on gives the empty
    table. On an object that is not a mesh every chunk size gives
    [AttributeError]. *)
Lemma weight_calculation_empty_mesh :
  data empty_body = MeshData (with_vertices [] demo_mesh)
  ∧ len (vertices (with_vertices [] demo_mesh)) = 0
  ∧ weight_calculation empty_body {["Hip"]} 0 = Raised ValueError
  ∧ weight_calculation empty_body {["Hip"]} 1 = Returned ∅
  ∧ weight_calculation empty_body {["Hip"]} 1000 = Returned ∅
  ∧ (optimize_weight_calculation empty_body {["Hip"]} 0 demo_world).1 = Raised ValueError
  ∧ (optimize_weight_calculation empty_body {["Hip"]} 1000 demo_world).1 = Returned ∅
  ∧ weight_calculation demo_rig {["Hip"]} 1 = Raised AttributeError.
Proof. repeat split; reflexivity. Qed.

(* ===================================================================== *)
(** ** Reordering the modifier stack *)
(* ===================================================================== *)

Lemma modifiers_find_middle (nm : string) (pre : list Modifier) (m : Modifier)
    (post : list Modifier) :
  Forall (λ x, mod_name x ≠ nm) pre → mod_name m = nm →
  modifiers_find nm (pre ++ m :: post) = len pre.
Proof.
  intros Hpre Hm. induction Hpre as [|x pre Hx _ IH]; cbn [app modifiers_find].
  - apply String.eqb_eq in Hm. by rewrite Hm.
  - apply String.eqb_neq in Hx. rewrite Hx, IH. unfold len. cbn [length].
    destruct (Z.ltb_spec (Z.of_nat (length pre)) 0); lia.
Qed.

Lemma modifier_move_down_cons (nm : string) (x y : Modifier) (l : list Modifier) :
  modifier_move_down nm (x :: y :: l)
  = if String.eqb (mod_name x) nm then y :: x :: l
    else x :: modifier_move_down nm (y :: l).
Proof. reflexivity. Qed.

Lemma modifier_move_down_middle (nm : string) (pre : list Modifier) (m n : Modifier)
    (post : list Modifier) :
  Forall (λ x, mod_name x ≠ nm) pre → mod_name m = nm →
  modifier_move_down nm (pre ++ m :: n :: post) = pre ++ n :: m :: post.
Proof.
  intros Hpre Hm. induction Hpre as [|x pre Hx _ IH].
  - cbn [app]. rewrite modifier_move_down_cons. apply String.eqb_eq in Hm. by rewrite Hm.
  - apply String.eqb_neq in Hx.
    assert (H : ∃ y l, pre ++ m :: n :: post = y :: l).
    { destruct pre; cbn; eauto. }
    destruct H as (y & l & E). cbn [app]. rewrite E, modifier_move_down_cons, Hx, <- E.
    by rewrite IH.
Qed.

(** The [while] loop: a modifier found by its name goes to the end of the
    stack, one place at a time; as many rounds as there are modifiers
    after it are enough. *)
Lemma move_to_end_run (nm : string) (post pre : list Modifier) (m : Modifier) (fuel : nat) :
  Forall (λ x, mod_name x ≠ nm) pre → mod_name m = nm →
  Forall (λ x, mod_name x ≠ nm) post →
  (length post ≤ fuel)%nat →
  move_to_end fuel nm (pre ++ m :: post) = Returned (pre ++ post ++ [m]).
Proof.
  revert pre fuel. induction post as [|n post IH]; intros pre fuel Hpre Hm Hpost Hfuel.
  - assert (H : (modifiers_find nm (pre ++ [m]) <? len (pre ++ [m]) - 1) = false).
    { rewrite modifiers_find_middle by done. unfold len. rewrite length_app. cbn [length].
      apply Z.ltb_ge. lia. }
    destruct fuel; cbn [move_to_end]; by rewrite H.
  - apply Forall_cons in Hpost as [Hn Hpost].
    destruct fuel as [|fuel]; [cbn in Hfuel; lia|]. cbn [move_to_end].
    rewrite modifiers_find_middle by done.
    replace (len pre <? len (pre ++ m :: n :: post) - 1) with true.
    2:{ symmetry. apply Z.ltb_lt. unfold len. rewrite length_app. cbn [length]. lia. }
    replace (len pre <? 0) with false by (symmetry; apply Z.ltb_ge; unfold len; lia).
    rewrite modifier_move_down_middle by done.
    replace (pre ++ n :: m :: post) with ((pre ++ [n]) ++ m :: post)
      by (by rewrite <- app_assoc).
    rewrite IH; [by rewrite <- app_assoc| |done|done|cbn in Hfuel; lia].
    apply Forall_app. split; [done|]. by constructor.
Qed.

Lemma NoDup_names_middle (pre : list Modifier) (x : Modifier) (post : list Modifier) :
  NoDup (map mod_name (pre ++ x :: post)) →
  Forall (λ y, mod_name y ≠ mod_name x) pre ∧ Forall (λ y, mod_name y ≠ mod_name x) post.
Proof.
  rewrite map_app. cbn [map]. intros Hnd.
  apply NoDup_app in Hnd as (_ & Hpre & Hpost). apply NoDup_cons in Hpost as [Hpost _].
  split; apply Forall_forall; intros y Hy Heq.
  - apply (Hpre (mod_name y)); [apply list_elem_of_fmap; eauto|]. rewrite Heq. left.
  - apply Hpost. rewrite <- Heq. apply list_elem_of_fmap. eauto.
Qed.

(** The loop over the armature modifiers: each one goes to the end in
    turn, so the others keep their order and the armature modifiers follow
    in theirs. *)
Lemma move_armatures_run (l pre done : list Modifier) :
  NoDup (map mod_name (pre ++ l ++ done)) →
  fold_outcome (λ ms m, move_to_end (length ms) (mod_name m) ms)
               (armature_modifiers l) (pre ++ l ++ done)
  = Returned (pre ++ other_modifiers l ++ done ++ armature_modifiers l).
Proof.
  unfold armature_modifiers, other_modifiers.
  revert pre done. induction l as [|x l IH]; intros pre done Hnd.
  - cbn. by rewrite app_nil_r.
  - rewrite !filter_cons. destruct (decide (mod_type x = "ARMATURE")) as [Hx|Hx].
    + rewrite decide_False by tauto. cbn [fold_outcome app].
      destruct (NoDup_names_middle pre x (l ++ done) Hnd) as [Hpre Hpost].
      rewrite move_to_end_run; [|done..|rewrite !length_app; cbn [length]; rewrite ?length_app; lia].
      rewrite <- (app_assoc l done [x]).
      rewrite IH.
      * by rewrite <- !app_assoc.
      * assert (P : pre ++ l ++ done ++ [x] ≡ₚ pre ++ (x :: l) ++ done).
        { apply Permutation_app_head. rewrite (app_assoc l done [x]). symmetry.
          apply (Permutation_cons_append (l ++ done) x). }
        by rewrite P.
    + rewrite decide_True by done.
      replace (pre ++ (x :: l) ++ done) with ((pre ++ [x]) ++ l ++ done) in *
        by (by rewrite <- app_assoc).
      rewrite IH by done. by rewrite <- !app_assoc.
Qed.

Lemma optimize_modifiers_loop_run (mods : list Modifier) :
  NoDup (map mod_name mods) →
  optimize_modifiers_loop mods
  = Returned (other_modifiers mods ++ armature_modifiers mods, armature_modifiers mods).
Proof.
  intros Hnd. unfold optimize_modifiers_loop.
  pose proof (move_armatures_run mods [] []) as H. rewrite app_nil_r in H.
  cbn [app] in H. unfold armature_modifiers in *. rewrite H by done.
  reflexivity.
Qed.

Lemma with_same_parts (o : Object) (mesh : Mesh) :
  data o = MeshData mesh →
  with_vertex_groups (vertex_groups o) (with_data (MeshData mesh) o) = o.
Proof. intros H. destruct o. cbn in *. by subst. Qed.

(** With [optimize_modifiers] alone, and the unique modifier names the
    host keeps: the armature modifiers end up after all the others, both
    groups in the order they had; mesh and vertex groups are untouched, the
    caches are cleared, and the report names the number of armature
    modifiers when there is one. *)
Theorem optimize_scene_moves_armatures_last (w : World) (k : string) (o : Object)
    (mesh : Mesh) :
  active_object (blend w) = Some (k, o) →
  data o = MeshData mesh →
  NoDup (map mod_name (modifiers o)) →
  AVASTAR_OT_performance_optimize_scene.execute false false true w
  = (Returned FINISHED,
     add_report
       (INFO, plain (join " | " (modifier_changes (armature_modifiers (modifiers o))
                                 ++ ["Cleared performance caches"])))
       (caches_cleared
          (with_blend
             (with_objects
                (<[k := with_modifiers (other_modifiers (modifiers o)
                                        ++ armature_modifiers (modifiers o)) o]>
                   (data_objects (blend w))) (blend w)) w))).
Proof.
  intros Hact Hmesh Hnd.
  pose proof (optimize_modifiers_loop_run (modifiers o) Hnd) as Hloop.
  pose proof (with_same_parts o mesh Hmesh) as Hsame.
  unfold AVASTAR_OT_performance_optimize_scene.execute.
  rewrite run_bind, context_active_object_run, Hact.
  destruct o as [onm d mods vgs ami]. cbn in Hmesh. subst d. cbv beta iota.
  cbn [modifiers vertex_groups] in *.
  set (o := {| name := onm |}) in *.
  rewrite run_bind. cbn [mret M_ret]. cbv beta iota.
  rewrite run_bind. cbn [mret M_ret]. cbv beta iota.
  rewrite run_bind, run_bind. unfold lift at 1. rewrite Hloop. cbv beta iota.
  rewrite run_bind, store_object_run. cbv beta iota. cbn [mret M_ret]. cbv beta iota.
  rewrite Hsame.
  rewrite run_bind, clear_performance_caches_run. cbv beta iota zeta.
  cbn [app]. unfold modifier_changes.
  destruct (armature_modifiers mods) as [|a arms] eqn:E.
  - cbn [app]. rewrite run_bind, report_run. reflexivity.
  - cbn [app]. rewrite run_bind, report_run. reflexivity.
Qed.

(** On a stack of an armature, a subdivision, a second armature and a
    decimation. *)
Lemma optimize_scene_moves_armatures_last_witness :
  (modifiers <$> data_objects
     (blend (AVASTAR_OT_performance_optimize_scene.execute false false true stacked_world).2)
     !! "Body")
  = Some [demo_subsurf_modifier; animesh_decimate 0.5;
          demo_armature_modifier; demo_second_armature_modifier].
Proof.
  rewrite (optimize_scene_moves_armatures_last stacked_world "Body" stacked_body demo_mesh
             eq_refl eq_refl).
  - reflexivity.
  - apply (bool_decide_unpack _). vm_compute. exact I.
Defined.

(* ===================================================================== *)
(** ** Parts of the world an action leaves alone *)
(* ===================================================================== *)

Lemma preserves_ret {B A} (part : World → B) (a : A) : preserves part (mret a).
Proof. by intros w. Qed.

Lemma preserves_bind {B A C} (part : World → B) (m : M A) (f : A → M C) :
  preserves part m → (∀ a, preserves part (f a)) → preserves part (m ≫= f).
Proof.
  intros Hm Hf w. rewrite run_bind. specialize (Hm w).
  destruct (m w) as [[a|e] w1]; cbn [snd] in *; [|done].
  by rewrite Hf.
Qed.

Lemma preserves_raise {B A} (part : World → B) (e : exn) : preserves part (raise (A := A) e).
Proof. by intros w. Qed.

Lemma preserves_lift {B A} (part : World → B) (r : outcome A) : preserves part (lift r).
Proof. by intros w. Qed.

Lemma preserves_for_each {B A} (part : World → B) (xs : list A) (body : A → M unit) :
  (∀ x, preserves part (body x)) → preserves part (for_each xs body).
Proof.
  intros Hb. induction xs as [|x xs IH]; cbn [for_each].
  - apply preserves_ret.
  - apply preserves_bind; [apply Hb|intros _; apply IH].
Qed.

(** Goes through an action: the structure by the lemmas above, a
    primitive by running it. *)
Ltac preserves_step :=
  first
    [ apply preserves_ret
    | apply preserves_raise
    | apply preserves_lift
    | apply preserves_for_each; intros ?
    | apply preserves_bind; [|intros ?]
    | match goal with
      | |- preserves _ (match ?x with _ => _ end) => destruct x
      | |- preserves _ (let '(_, _) := ?x in _) => destruct x
      end
    | (intros ?; reflexivity) ].

Ltac preserves_tac :=
  unfold context_active_object, set_active, deref_object, armature_data, mode_set,
         mesh_of, AVASTAR_OT_animesh_optimize_bones.set_edit_bones;
  repeat preserves_step.

Lemma length_append (s t : string) :
  String.length (s +:+ t) = (String.length s + String.length t)%nat.
Proof. induction s as [|c s IH]; simpl; [done|]. by rewrite IH. Qed.

Lemma join_last_length (sep : string) (parts : list string) (x : string) :
  (String.length x ≤ String.length (join sep (parts ++ [x])))%nat.
Proof.
  unfold join. induction parts as [|p parts IH]; [done|].
  cbn [app String.concat]. destruct (parts ++ [x]) as [|y l] eqn:E.
  - by destruct parts.
  - rewrite !length_append. lia.
Qed.

(** The shape of every run of the optimiser on a mesh that returns: the
    caches are cleared after the three steps, which add no report, and
    one report is made. *)
Lemma optimize_scene_returned (clean_weights remove_unused_groups
    optimize_modifiers : bool) (w : World) (k : string) (o : Object) (mesh : Mesh)
    (result : OperatorResult) (w' : World) :
  active_object (blend w) = Some (k, o) →
  data o = MeshData mesh →
  AVASTAR_OT_performance_optimize_scene.execute
    clean_weights remove_unused_groups optimize_modifiers w = (Returned result, w') →
  ∃ changes w3,
    result = FINISHED
    ∧ reports w3 = reports w
    ∧ w' = add_report (INFO, plain (join " | " (changes ++ ["Cleared performance caches"])))
             (caches_cleared w3).
Proof.
  intros Hact Hmesh.
  unfold AVASTAR_OT_performance_optimize_scene.execute.
  rewrite run_bind, context_active_object_run, Hact.
  destruct o as [onm d mods vgs ami]. cbn in Hmesh. subst d. cbv beta iota.
  set (o := {| name := onm |}) in *.
  rewrite run_bind.
  match goal with |- context [match ?m w with _ => _ end] =>
    assert (H1 : preserves reports m) by (destruct clean_weights; preserves_tac);
    specialize (H1 w); destruct (m w) as [[[mesh1 changes1]|e] w1]; [|discriminate]
  end.
  cbn [snd] in H1. cbv beta iota. rewrite run_bind.
  match goal with |- context [match ?m w1 with _ => _ end] =>
    assert (H2 : preserves reports m) by (destruct remove_unused_groups; preserves_tac);
    specialize (H2 w1); destruct (m w1) as [[[[vgs2 mesh2] changes2]|e] w2]; [|discriminate]
  end.
  cbn [snd] in H2. cbv beta iota. rewrite run_bind.
  match goal with |- context [match ?m w2 with _ => _ end] =>
    assert (H3 : preserves reports m) by (destruct optimize_modifiers; preserves_tac);
    specialize (H3 w2); destruct (m w2) as [[changes3|e] w3]; [|discriminate]
  end.
  cbn [snd] in H3. cbv beta iota.
  rewrite run_bind, clear_performance_caches_run. cbv beta iota zeta.
  destruct (changes3 ++ ["Cleared performance caches"]) as [|line lines] eqn:E;
    [by destruct changes3|].
  rewrite <- E. rewrite run_bind, report_run. cbn [mret M_ret].
  intros [= <- <-]. exists changes3, w3. split; [done|]. split; [congruence|done].
Qed.

(** Whatever the options, a run of the optimiser on a mesh that returns
    has cleared both caches and left one report, whose last part is
    'Cleared performance caches': the report 'No optimizations needed' of
    the source is never made. *)
Theorem optimize_scene_always_clears_caches (clean_weights remove_unused_groups
    optimize_modifiers : bool) (w : World) (k : string) (o : Object) (mesh : Mesh)
    (result : OperatorResult) (w' : World) :
  active_object (blend w) = Some (k, o) →
  data o = MeshData mesh →
  AVASTAR_OT_performance_optimize_scene.execute
    clean_weights remove_unused_groups optimize_modifiers w = (Returned result, w') →
  result = FINISHED
  ∧ _mesh_cache w' = ∅
  ∧ _bone_cache w' = ∅
  ∧ ∃ changes,
      reports w' = reports w ++ [(INFO, plain (join " | " (changes ++
                                                           ["Cleared performance caches"])))]
      ∧ join " | " (changes ++ ["Cleared performance caches"]) ≠ "No optimizations needed".
Proof.
  intros Hact Hmesh Hrun.
  destruct (optimize_scene_returned _ _ _ w k o mesh result w' Hact Hmesh Hrun)
    as (changes & w3 & -> & Hreports & ->).
  unfold caches_cleared. world_simpl. do 3 (split; [done|]).
  exists changes. split; [by rewrite Hreports|].
  intros Heq.
  pose proof (join_last_length " | " changes "Cleared performance caches") as Hlen.
  rewrite Heq in Hlen. cbn in Hlen. lia.
Qed.

(** On the demo scene with a stale cache entry, all options on. *)
Lemma optimize_scene_always_clears_caches_witness :
  _mesh_cache (AVASTAR_OT_performance_optimize_scene.execute true true true stale_world).2 = ∅
  ∧ _bone_cache (AVASTAR_OT_performance_optimize_scene.execute true true true stale_world).2
    = ∅.
Proof.
  destruct (optimize_scene_always_clears_caches true true true stale_world "Body" demo_body
              demo_mesh FINISHED
              (AVASTAR_OT_performance_optimize_scene.execute true true true stale_world).2)
    as (_ & Hm & Hb & _).
  - reflexivity.
  - reflexivity.
  - vm_compute. reflexivity.
  - split; [exact Hm|exact Hb].
Defined.

Lemma clean_weights_loop_clean (vgs : list VertexGroup) (mesh : Mesh) :
  no_low_weights mesh → clean_weights_loop vgs mesh = (mesh, 0, None).
Proof.
  intros Hlow. unfold clean_weights_loop.
  assert (Hin : ∀ (gs : list VertexGroupElement) (i : nat) (st : Mesh * Z),
    Forall (λ g, below_threshold g = false) gs →
    fold_in_place
      (λ st g,
         if below_threshold g then
           match vgs !! group g with
           | None => (st, Some IndexError)
           | Some _ => ((vertex_group_remove (group g) i st.1, st.2 + 1), None)
           end
         else (st, None)) gs st = (st, None)).
  { intros gs i st Hgs. induction Hgs as [|g gs Hg _ IH]; cbn [fold_in_place]; [done|].
    by rewrite Hg. }
  generalize (seq 0 (length (vertices mesh))). intros idxs.
  induction idxs as [|i idxs IH]; cbn [fold_in_place fst]; [done|].
  destruct (vertices mesh !! i) as [v|] eqn:Hv; [|done].
  rewrite Hin; [done|]. unfold no_low_weights in Hlow.
  by apply (Forall_lookup_1 _ _ _ _ Hlow Hv).
Qed.

Lemma remove_unused_loop_clean (vgs : list VertexGroup) (mesh : Mesh) :
  (∀ p, (p < length vgs)%nat → group_referenced mesh p) →
  remove_unused_loop vgs mesh = Returned (vgs, mesh, 0).
Proof.
  intros Href. unfold remove_unused_loop, len. rewrite range_down.
  cbn [mbind outcome_bind].
  assert (H : Forall (λ i, Z.to_nat i ∈ used_groups mesh)
                     (map Z.of_nat (rev (seq 0 (length vgs))))).
  { apply Forall_map, Forall_forall. intros p Hp. rewrite Nat2Z.id.
    apply used_groups_spec, Href. apply list_elem_of_In, in_rev, in_seq in Hp. lia. }
  induction H as [|i idxs Hi _ IH]; cbn [fold_outcome]; [done|].
  by rewrite bool_decide_eq_true_2.
Qed.

Lemma with_same_data (o : Object) (mesh : Mesh) :
  data o = MeshData mesh → with_data (MeshData mesh) o = o.
Proof. intros H. destruct o. cbn in *. by subst. Qed.

Lemma with_same_vertex_groups (o : Object) : with_vertex_groups (vertex_groups o) o = o.
Proof. by destruct o. Qed.

Lemma store_same_object (w : World) (k : string) (o : Object) :
  data_objects (blend w) !! k = Some o →
  with_blend (with_objects (<[k := o]> (data_objects (blend w))) (blend w)) w = w.
Proof.
  intros H. rewrite insert_id by done. destruct w as [[] ? ? ? ? ? ?]. reflexivity.
Qed.

(** A scene the optimiser has nothing to do on: no weight below the
    threshold and every vertex group referenced. The scene is left as it
    is, whether or not the group indices are valid; the caches are
    cleared, and that is all the report says. *)
Theorem optimize_scene_leaves_clean_scene (w : World) (k : string) (o : Object)
    (mesh : Mesh) :
  active_object (blend w) = Some (k, o) →
  data o = MeshData mesh →
  no_low_weights mesh →
  (∀ p, (p < length (vertex_groups o))%nat → group_referenced mesh p) →
  AVASTAR_OT_performance_optimize_scene.execute true true false w
  = (Returned FINISHED,
     add_report (INFO, plain "Cleared performance caches") (caches_cleared w)).
Proof.
  intros Hact Hmesh Hlow Href.
  apply active_object_inv in Hact as Hk. destruct Hk as [_ Hko].
  pose proof (with_same_data o mesh Hmesh) as Hsame.
  pose proof (with_same_vertex_groups o) as Hvgs.
  pose proof (clean_weights_loop_clean (vertex_groups o) mesh Hlow) as Hclean.
  pose proof (remove_unused_loop_clean (vertex_groups o) mesh Href) as Hremove.
  unfold AVASTAR_OT_performance_optimize_scene.execute.
  rewrite run_bind, context_active_object_run, Hact.
  destruct o as [onm d mods vgs ami]. cbn in Hmesh. subst d. cbv beta iota.
  cbn [vertex_groups] in *.
  set (o := {| name := onm |}) in *.
  rewrite run_bind, Hclean. cbv beta iota.
  rewrite Hsame.
  rewrite run_bind, store_object_run, store_same_object by done.
  cbv beta iota. cbn [mret M_ret]. cbv beta iota.
  rewrite run_bind, run_bind. unfold lift at 1. rewrite Hremove. cbv beta iota.
  rewrite Hsame, Hvgs.
  rewrite run_bind, store_object_run, store_same_object by done.
  cbv beta iota. cbn [mret M_ret]. cbv beta iota.
  rewrite run_bind. cbn [mret M_ret]. cbv beta iota.
  rewrite run_bind, clear_performance_caches_run. cbv beta iota zeta.
  cbn [Z.ltb Z.compare app]. rewrite run_bind, report_run. reflexivity.
Qed.

(** A second run on the demo scene finds nothing to do. *)
Lemma optimize_scene_leaves_clean_scene_witness :
  AVASTAR_OT_performance_optimize_scene.execute true true false optimized_world
  = (Returned FINISHED,
     add_report (INFO, plain "Cleared performance caches") (caches_cleared optimized_world)).
Proof.
  apply (optimize_scene_leaves_clean_scene optimized_world "Body" clean_body clean_mesh).
  - vm_compute. reflexivity.
  - reflexivity.
  - repeat constructor.
  - intros [|[|p]] Hp; [| |cbn in Hp; lia].
    + exists {| groups := [ {| group := 0; weight := 0.5 |} ] |}, {| group := 0; weight := 0.5 |}.
      repeat split; [left|left].
    + exists {| groups := [ {| group := 1; weight := 0.25 |} ] |},
             {| group := 1; weight := 0.25 |}.
      repeat split; [right; right; left|left].
Defined.

(* ===================================================================== *)
(** ** The profiler and the caches, further *)
(* ===================================================================== *)

(** Without an active object the profiler cancels; with an active object
    that is not a mesh it finishes with an empty report, reads no cache
    and logs nothing. *)
Theorem performance_profile_without_mesh (w : World) :
  (∀ k o, active_object (blend w) = Some (k, o) → type o ≠ "MESH") →
  AVASTAR_OT_performance_profile.execute w
  = match active_object (blend w) with
    | None => (Returned CANCELLED, add_report (ERROR, plain "No active object") w)
    | Some _ => (Returned FINISHED, add_report (INFO, plain "") w)
    end.
Proof.
  intros Hty. unfold AVASTAR_OT_performance_profile.execute.
  rewrite run_bind, context_active_object_run.
  destruct (active_object (blend w)) as [[k o]|] eqn:Hact; [|reflexivity].
  cbv beta iota. specialize (Hty k o eq_refl). apply String.eqb_neq in Hty. rewrite Hty.
  reflexivity.
Qed.

(** With the armature object of the demo scene active. *)
Lemma performance_profile_without_mesh_witness :
  AVASTAR_OT_performance_profile.execute rig_active_world
  = (Returned FINISHED, add_report (INFO, plain "") rig_active_world).
Proof.
  rewrite (performance_profile_without_mesh rig_active_world).
  - reflexivity.
  - intros k o Hact. vm_compute in Hact. injection Hact as <- <-. discriminate.
Defined.

(** The validator, the preview and the profiler read the scene and never
    write it, whether they finish, cancel or raise; the first two leave
    the caches alone as well. *)
Theorem read_only_operators_keep_scene :
  preserves blend AVASTAR_OT_animesh_validate.execute
  ∧ preserves blend AVASTAR_OT_bom_export_preview.execute
  ∧ preserves blend AVASTAR_OT_performance_profile.execute
  ∧ same_caches AVASTAR_OT_animesh_validate.execute
  ∧ same_caches AVASTAR_OT_bom_export_preview.execute.
Proof.
  split; [|split; [|split; [|split]]].
  - unfold AVASTAR_OT_animesh_validate.execute. preserves_tac.
  - unfold AVASTAR_OT_bom_export_preview.execute. preserves_tac.
  - unfold AVASTAR_OT_performance_profile.execute, get_cached_mesh_data, timed_operation.
    preserves_tac.
  - apply (same_caches_operator Animesh_validate eq_refl).
  - apply (same_caches_operator Bom_export_preview eq_refl).
Qed.

(** The decorator is transparent: the decorated call returns or raises
    what the call does and changes nothing but the clock and the log; the
    log gets one more record exactly when the call returned and the two
    readings of the clock are more than 0.1 s apart. An exception passes
    through before the second reading. *)
Theorem timed_operation_transparent {A : Type} (func_name : string) (func : M A)
    (w : World) :
  let call := func (tick w) in
  let timed := timed_operation func_name func w in
  let elapsed := (clock call.2 (ticks call.2) - clock w (ticks w))%float in
  timed.1 = call.1
  ∧ blend timed.2 = blend call.2
  ∧ _mesh_cache timed.2 = _mesh_cache call.2
  ∧ _bone_cache timed.2 = _bone_cache call.2
  ∧ reports timed.2 = reports call.2
  ∧ ticks timed.2 = (if returned call.1 then S (ticks call.2) else ticks call.2)
  ∧ log timed.2
    = log call.2 ++ (if returned call.1 && (0.1 <? elapsed)%float
                     then [timing_record func_name elapsed] else []).
Proof.
  cbv zeta. rewrite timed_operation_run.
  destruct (func (tick w)) as [[a|e] w1]; cbn [fst snd returned andb].
  - unfold finish_timing. cbv zeta. destruct (_ <? _)%float; world_simpl;
      rewrite ?app_nil_r; done.
  - by rewrite app_nil_r.
Qed.

(** The first call for a mesh object computes the entry and stores it
    under the object's name; a later call for any object of that name
    returns that entry, time stamp included, and stores nothing. *)
Theorem get_cached_mesh_data_round_trip (w : World) (obj obj' : Object) (mesh : Mesh) :
  _mesh_cache w !! name obj = None →
  data obj = MeshData mesh →
  name obj' = name obj →
  let e := {| vertex_count := len (vertices mesh);
              polygon_count := len (polygons mesh);
              timestamp := clock w (S (ticks w)) |} in
  let first := get_cached_mesh_data obj w in
  let second := get_cached_mesh_data obj' first.2 in
  first.1 = Returned e
  ∧ _mesh_cache first.2 = <[name obj := e]> (_mesh_cache w)
  ∧ second.1 = Returned e
  ∧ _mesh_cache second.2 = _mesh_cache first.2.
Proof.
  intros Hmiss Hmesh Hname e first second.
  subst first second. rewrite (get_cached_mesh_data_miss w obj mesh Hmiss Hmesh).
  cbn [fst snd]. fold e.
  set (w1 := finish_timing _ _ _).
  assert (Hc : _mesh_cache w1 = <[name obj := e]> (_mesh_cache w)).
  { subst w1. by destruct (finish_timing_world "get_cached_mesh_data" (clock w (ticks w))
      (with_caches (<[name obj := e]> (_mesh_cache w)) (_bone_cache w) (tick (tick w))))
      as (_ & -> & _). }
  assert (Hhit : _mesh_cache w1 !! name obj' = Some e).
  { rewrite Hc, Hname. apply lookup_insert_eq. }
  rewrite (get_cached_mesh_data_hit w1 obj' e Hhit). cbn [fst snd].
  destruct (finish_timing_world "get_cached_mesh_data" (clock w1 (ticks w1)) (tick w1))
    as (_ & -> & _).
  done.
Qed.

(** For the demo object, then for an object of the same name with another
    mesh. *)
Lemma get_cached_mesh_data_round_trip_witness :
  (get_cached_mesh_data edited_body (get_cached_mesh_data demo_body demo_world).2).1
  = Returned {| vertex_count := 3; polygon_count := 1; timestamp := 0 |}.
Proof.
  destruct (get_cached_mesh_data_round_trip demo_world demo_body edited_body demo_mesh
              eq_refl eq_refl eq_refl) as (_ & _ & Hsecond & _).
  exact Hsecond.
Defined.

(** An object without mesh data, under a name the cache does not hold:
    the call raises [AttributeError] after the first reading of the clock;
    nothing is stored and nothing is logged. *)
Theorem get_cached_mesh_data_needs_mesh (w : World) (obj : Object) :
  _mesh_cache w !! name obj = None →
  type obj ≠ "MESH" →
  get_cached_mesh_data obj w = (Raised AttributeError, tick w).
Proof.
  intros Hmiss Hty. apply get_cached_mesh_data_no_mesh; [done|].
  intros mesh Hmesh. apply Hty. by apply (type_of_mesh obj mesh).
Qed.

(** For the armature object of the demo scene. *)
Lemma get_cached_mesh_data_needs_mesh_witness :
  get_cached_mesh_data demo_rig demo_world = (Raised AttributeError, tick demo_world).
Proof.
  apply (get_cached_mesh_data_needs_mesh demo_world demo_rig); [reflexivity|discriminate].
Defined.

(** After a run of the optimiser on the active mesh that returned,
    whatever its options and whatever the mesh cache held before, the
    profiler reports the vertex and polygon counts the object has. *)
Theorem profile_after_optimize_scene_is_fresh (clean_weights remove_unused_groups
    optimize_modifiers : bool) (w : World) (k : string) (o : Object) (mesh : Mesh)
    (result : OperatorResult) (w1 : World) (k1 : string) (o1 : Object) (mesh1 : Mesh)
    (arm : option Armature) :
  active_object (blend w) = Some (k, o) →
  data o = MeshData mesh →
  AVASTAR_OT_performance_optimize_scene.execute
    clean_weights remove_unused_groups optimize_modifiers w = (Returned result, w1) →
  active_object (blend w1) = Some (k1, o1) →
  data o1 = MeshData mesh1 →
  profiled_armature (blend w1) o1 arm →
  (AVASTAR_OT_performance_profile.execute w1).1 = Returned FINISHED
  ∧ last (reports (AVASTAR_OT_performance_profile.execute w1).2)
    = Some (INFO, plain (join newline
                           (profile_lines (len (vertices mesh1)) (len (polygons mesh1))
                                          o1 arm))).
Proof.
  intros Hact Hmesh Hrun Hact1 Hmesh1 Harm.
  destruct (optimize_scene_returned _ _ _ w k o mesh result w1 Hact Hmesh Hrun)
    as (changes & w0 & _ & _ & Hw1).
  assert (Hmiss : _mesh_cache w1 !! name o1 = None) by (by rewrite Hw1).
  pose proof (get_cached_mesh_data_miss w1 o1 mesh1 Hmiss Hmesh1) as Hget. cbv zeta in Hget.
  set (e := {| vertex_count := _ |}) in Hget. set (w2 := finish_timing _ _ _) in Hget.
  destruct (finish_timing_world "get_cached_mesh_data" (clock w1 (ticks w1))
              (with_caches (<[name o1 := e]> (_mesh_cache w1)) (_bone_cache w1)
                           (tick (tick w1))))
    as (Hb & _). fold w2 in Hb. world_simpl_in Hb.
  rewrite (performance_profile_run w1 k1 o1 mesh1 arm e w2 Hact1 Hmesh1 Harm Hget Hb).
  cbn [fst snd]. split; [done|].
  destruct (add_logs_world (warning_records (profile_warnings (vertex_count e) o1 arm))
              (add_report (INFO, plain (join newline
                 (profile_lines (vertex_count e) (polygon_count e) o1 arm))) w2))
    as (_ & -> & _).
  world_simpl. apply last_snoc.
Qed.

(** "Body" is profiled with 60000 vertices, edited down to three, then
    optimised: the next profile reports three vertices. *)
Lemma profile_after_optimize_scene_is_fresh_witness :
  let w1 := (AVASTAR_OT_performance_optimize_scene.execute true true false
               profiled_then_edited).2 in
  last (reports (AVASTAR_OT_performance_profile.execute w1).2)
  = Some (INFO, plain (join newline ["Vertices: 3"; "Polygons: 1"; "Modifiers: 1";
                                     "Weight Groups: 2"; "Total Bones: 4";
                                     "Deform Bones: 3"])).
Proof.
  intros w1.
  destruct (profile_after_optimize_scene_is_fresh true true false profiled_then_edited
              "Body" demo_body demo_mesh FINISHED w1 "Body" clean_body clean_mesh
              (Some demo_armature)) as [_ Hlast].
  - reflexivity.
  - reflexivity.
  - vm_compute. reflexivity.
  - vm_compute. reflexivity.
  - reflexivity.
  - exists demo_rig, demo_armature. repeat split; vm_compute; reflexivity.
  - exact Hlast.
Defined.

(* ===================================================================== *)
(** ** Repeated runs of the animesh operators *)
(* ===================================================================== *)

(** The run of the bone optimiser with [remove_unused] on. *)
Lemma optimize_bones_run (w : World) (k : string) (o : Object) (mesh : Mesh)
    (a : string) (rig : Object) (arm : Armature) :
  active_object (blend w) = Some (k, o) →
  data o = MeshData mesh →
  find_armature (modifiers o) = Some a →
  data_objects (blend w) !! a = Some rig →
  data rig = ArmatureData arm →
  edit_bones arm = None →
  NoDup (map bone_name (bones arm)) →
  AVASTAR_OT_animesh_optimize_bones.execute true w
  = (Returned FINISHED,
     add_report (INFO, plain ("Removed "
                               +:+ str (deform_bone_count arm
                                        - deform_bone_count (kept_bones o mesh arm))
                               +:+ " unused bones ("
                               +:+ str (deform_bone_count (kept_bones o mesh arm))
                               +:+ " remaining)"))
       (with_blend
          (with_objects (<[a := with_data (ArmatureData (kept_bones o mesh arm)) rig]>
                           (data_objects (blend w)))
                        (blend w)) w)).
Proof.
  intros Hact Hmesh Hfind Hrig Harm Hedit Hnd.
  apply active_object_inv in Hact as Hk. destruct Hk as [Hk Hko].
  unfold AVASTAR_OT_animesh_optimize_bones.execute, kept_bones, unused_bone.
  rewrite run_bind, context_active_object_run, Hact.
  destruct o as [nm d mods vgs ami]. cbn in Hmesh, Hfind. subst d.
  cbv beta iota. rewrite Hfind. cbn [vertex_groups] in *.
  rewrite run_bind, (armature_data_run w a rig arm) by done.
  rewrite run_bind. rewrite (run_bind (set_active a)), set_active_run.
  set (w1 := with_blend _ w).
  rewrite run_bind, (mode_set_armature w1 "EDIT" a rig arm); [|done..|by left].
  cbn [String.eqb Ascii.eqb Bool.eqb]. subst w1. rewrite with_blend_twice.
  set (w2 := with_blend _ w).
  assert (H2 : data_objects (blend w2) !! a
               = Some (with_data (ArmatureData (to_editmode arm)) rig)).
  { subst w2. world_simpl. apply lookup_insert_eq. }
  rewrite run_bind, (armature_data_run w2 a _ (to_editmode arm) H2) by done.
  rewrite run_bind, (set_edit_bones_run w2 a _ (to_editmode arm) _ H2) by done.
  subst w2. rewrite with_blend_twice. world_simpl.
  rewrite insert_insert_eq, with_objects_twice.
  unfold to_editmode. rewrite Hedit.
  cbn [default bones edit_bones fmap option_fmap option_map].
  rewrite remove_unused_bones_filter by done. cbn [fst].
  set (kept := filter _ (bones arm)).
  set (w3 := with_blend _ w).
  rewrite (run_bind (mode_set "OBJECT")).
  rewrite (mode_set_armature w3 "OBJECT" a
             (with_data (ArmatureData {| bones := bones arm; edit_bones := Some kept |})
                        (with_data (ArmatureData {| bones := bones arm;
                                                    edit_bones := Some (bones arm) |}) rig))
             {| bones := bones arm; edit_bones := Some kept |});
    [|done|subst w3; world_simpl; apply lookup_insert_eq|done|by right].
  cbn [String.eqb Ascii.eqb Bool.eqb]. subst w3. rewrite with_blend_twice.
  world_simpl. rewrite insert_insert_eq, with_objects_twice.
  rewrite set_active_run, with_blend_twice.
  unfold from_editmode. cbn [edit_bones]. world_simpl.
  set (w4 := with_blend _ w).
  assert (H4 : data_objects (blend w4) !! a
               = Some (with_data (ArmatureData {| bones := kept; edit_bones := None |}) rig)).
  { subst w4. world_simpl. apply lookup_insert_eq. }
  rewrite run_bind, (armature_data_run w4 a _ _ H4) by done.
  rewrite run_bind. unfold report. cbv beta iota.
  subst w4. unfold with_objects, with_active. world_simpl. rewrite Hk. reflexivity.
Qed.

(** With [remove_unused] off the operator removes nothing: it reports
    zero removed bones and the number of deform bones, and the scene is
    what it was. *)
Theorem optimize_bones_disabled_changes_nothing (w : World) (k : string) (o : Object)
    (mesh : Mesh) (a : string) (rig : Object) (arm : Armature) :
  active_object (blend w) = Some (k, o) →
  data o = MeshData mesh →
  find_armature (modifiers o) = Some a →
  data_objects (blend w) !! a = Some rig →
  data rig = ArmatureData arm →
  AVASTAR_OT_animesh_optimize_bones.execute false w
  = (Returned FINISHED,
     add_report (INFO, plain ("Removed 0 unused bones (" +:+ str (deform_bone_count arm)
                               +:+ " remaining)")) w).
Proof.
  intros Hact Hmesh Hfind Hrig Harm.
  unfold AVASTAR_OT_animesh_optimize_bones.execute.
  rewrite run_bind, context_active_object_run, Hact.
  destruct o as [nm d mods vgs ami]. cbn in Hmesh, Hfind. subst d.
  cbv beta iota. rewrite Hfind.
  rewrite run_bind, (armature_data_run w a rig arm) by done.
  rewrite run_bind. cbn [mret M_ret]. cbv beta iota.
  rewrite run_bind, (armature_data_run w a rig arm) by done.
  rewrite run_bind, report_run. cbn [mret M_ret]. by rewrite Z.sub_diag.
Qed.

(** On the demo scene, whose armature has three deform bones. *)
Lemma optimize_bones_disabled_changes_nothing_witness :
  AVASTAR_OT_animesh_optimize_bones.execute false demo_world
  = (Returned FINISHED,
     add_report (INFO, plain "Removed 0 unused bones (3 remaining)") demo_world).
Proof.
  apply (optimize_bones_disabled_changes_nothing demo_world "Body" demo_body demo_mesh
           "Rig" demo_rig demo_armature); reflexivity.
Defined.

Lemma filter_twice {A} (P : A → Prop) `{∀ x, Decision (P x)} (l : list A) :
  filter P (filter P l) = filter P l.
Proof.
  induction l as [|x l IH]; [done|]. rewrite filter_cons.
  destruct (decide (P x)); [|done]. rewrite filter_cons, decide_True by done. by rewrite IH.
Qed.

(** A second run of the bone optimiser removes nothing: it reports zero
    removed bones and leaves the scene as the first run left it. *)
Theorem optimize_bones_idempotent (w : World) (k : string) (o : Object) (mesh : Mesh)
    (a : string) (rig : Object) (arm : Armature) :
  active_object (blend w) = Some (k, o) →
  data o = MeshData mesh →
  find_armature (modifiers o) = Some a →
  data_objects (blend w) !! a = Some rig →
  data rig = ArmatureData arm →
  edit_bones arm = None →
  NoDup (map bone_name (bones arm)) →
  let w1 := (AVASTAR_OT_animesh_optimize_bones.execute true w).2 in
  AVASTAR_OT_animesh_optimize_bones.execute true w1
  = (Returned FINISHED,
     add_report (INFO, plain ("Removed 0 unused bones ("
                               +:+ str (deform_bone_count (kept_bones o mesh arm))
                               +:+ " remaining)")) w1).
Proof.
  intros Hact Hmesh Hfind Hrig Harm Hedit Hnd w1.
  apply active_object_inv in Hact as Hk. destruct Hk as [Hk Hko].
  assert (Hka : k ≠ a).
  { intros ->. rewrite Hko in Hrig. injection Hrig as ->. congruence. }
  subst w1. rewrite (optimize_bones_run w k o mesh a rig arm) by done. cbn [snd].
  set (rig1 := with_data (ArmatureData (kept_bones o mesh arm)) rig).
  set (w1 := add_report _ _).
  assert (Hrig1 : data_objects (blend w1) !! a = Some rig1).
  { subst w1. world_simpl. apply lookup_insert_eq. }
  assert (Hact1 : active_object (blend w1) = Some (k, o)).
  { subst w1. unfold active_object. world_simpl. rewrite Hk. cbn.
    rewrite lookup_insert_ne by done. by rewrite Hko. }
  rewrite (optimize_bones_run w1 k o mesh a rig1 (kept_bones o mesh arm)); try done.
  - assert (Hsame : kept_bones o mesh (kept_bones o mesh arm) = kept_bones o mesh arm).
    { unfold kept_bones. cbn [bones]. by rewrite filter_twice. }
    rewrite Hsame, Z.sub_diag.
    replace (with_data (ArmatureData (kept_bones o mesh arm)) rig1) with rig1
      by (by destruct rig).
    by rewrite store_same_object.
  - unfold kept_bones. cbn [bones]. eapply sublist_NoDup; [exact Hnd|].
    apply fmap_sublist, sublist_filter.
Qed.

(** Two runs on the demo scene: the first leaves one deform bone. *)
Lemma optimize_bones_idempotent_witness :
  let w1 := (AVASTAR_OT_animesh_optimize_bones.execute true demo_world).2 in
  AVASTAR_OT_animesh_optimize_bones.execute true w1
  = (Returned FINISHED,
     add_report (INFO, plain "Removed 0 unused bones (1 remaining)") w1).
Proof.
  apply (optimize_bones_idempotent demo_world "Body" demo_body demo_mesh "Rig" demo_rig
           demo_armature); try reflexivity.
  apply (bool_decide_unpack _). vm_compute. exact I.
Defined.

(** The operator never looks for a decimate modifier that is there: run
    once for each of a list of ratios, it leaves one more collapse
    Decimate modifier per run at the end of the stack, with the ratio of
    that run, above the modifiers that were there; the mesh data is what
    it was. *)
Theorem reduce_triangles_stacks_modifiers (ratios : list float) (w : World) (k : string)
    (o : Object) (mesh : Mesh) :
  active_object (blend w) = Some (k, o) →
  data o = MeshData mesh →
  ∃ o', active_object (blend (reduce_repeatedly ratios w)) = Some (k, o')
        ∧ data o' = MeshData mesh
        ∧ map modifier_settings (modifiers o')
          = map modifier_settings (modifiers o)
            ++ map (λ r, ("DECIMATE", "COLLAPSE", r, true)) ratios.
Proof.
  unfold reduce_repeatedly. revert w o.
  induction ratios as [|r ratios IH]; intros w o Hact Hmesh; cbn [foldl map].
  - exists o. by rewrite app_nil_r.
  - rewrite (reduce_triangles_run w k o mesh r Hact Hmesh). cbn [snd].
    apply active_object_inv in Hact as [Hk Hko].
    destruct (IH (add_report (INFO, [Str "Added decimate modifier with ";
                                     Flt 0 (r * 100)%float; Str "% ratio"])
                    (with_blend
                       (with_objects
                          (<[k := decimated o r]>
                             (data_objects (blend w))) (blend w)) w))
                 (decimated o r))
      as (o' & Hact' & Hdata' & Hmods').
    + unfold active_object. world_simpl. rewrite Hk. cbn. by rewrite lookup_insert_eq.
    + done.
    + exists o'. split; [done|]. split; [done|].
      rewrite Hmods'. unfold decimated. cbn [modifiers with_modifiers].
      rewrite map_app, <- app_assoc. reflexivity.
Qed.

(** Two runs on the demo scene, with ratios 0.5 and 0.25. *)
Lemma reduce_triangles_stacks_modifiers_witness :
  ∃ o', active_object (blend (reduce_repeatedly [0.5; 0.25]%float demo_world))
        = Some ("Body", o')
        ∧ map ratio (modifiers o') = [1; 0.5; 0.25]%float.
Proof.
  destruct (reduce_triangles_stacks_modifiers [0.5; 0.25]%float demo_world "Body" demo_body
              demo_mesh eq_refl eq_refl) as (o' & Hact & _ & Hmods).
  exists o'. split; [exact Hact|].
  apply (f_equal (map (λ s : string * string * float * bool, s.1.2))) in Hmods.
  rewrite map_map in Hmods. exact Hmods.
Defined.

(* ===================================================================== *)
(** ** The panels and the guard of the operators *)
(* ===================================================================== *)

Lemma adds_reports_ret {A} P (a : A) : adds_reports P (mret a).
Proof. intros w. exists []. by rewrite app_nil_r. Qed.

Lemma adds_reports_quiet {A} P (m : M A) : preserves reports m → adds_reports P m.
Proof. intros H w. exists []. by rewrite app_nil_r, H. Qed.

Lemma adds_reports_report P kind message :
  P (kind, message) → adds_reports P (report kind message).
Proof. intros H w. exists [(kind, message)]. split; [done|]. by constructor. Qed.

Lemma adds_reports_bind {A B} P (m : M A) (f : A → M B) :
  adds_reports P m → (∀ a, adds_reports P (f a)) → adds_reports P (m ≫= f).
Proof.
  intros Hm Hf w. rewrite run_bind. destruct (Hm w) as (new1 & H1 & HP1).
  destruct (m w) as [[a|e] w1]; cbn [snd] in *; [|by exists new1].
  destruct (Hf a w1) as (new2 & H2 & HP2). exists (new1 ++ new2).
  rewrite H2, H1, app_assoc. split; [done|]. by apply Forall_app.
Qed.

Lemma adds_reports_for_each {A} P (xs : list A) (body : A → M unit) :
  (∀ x, adds_reports P (body x)) → adds_reports P (for_each xs body).
Proof.
  intros Hb. induction xs as [|x xs IH]; cbn [for_each].
  - apply adds_reports_ret.
  - apply adds_reports_bind; [apply Hb|intros _; apply IH].
Qed.

Ltac adds_reports_step :=
  first
    [ apply adds_reports_ret
    | apply adds_reports_report; discriminate
    | apply adds_reports_for_each; intros ?
    | apply adds_reports_bind; [|intros ?]
    | match goal with
      | |- adds_reports _ (match ?x with _ => _ end) => destruct x
      | |- adds_reports _ (let '(_, _) := ?x in _) => destruct x
      end
    | (apply adds_reports_quiet; intros ?; reflexivity) ].

Ltac adds_reports_tac :=
  unfold context_active_object, set_active, deref_object, armature_data, mode_set,
         mesh_of, AVASTAR_OT_animesh_optimize_bones.set_edit_bones,
         clear_performance_caches;
  repeat adds_reports_step.

(** What the operators do on an active mesh never includes the report
    'Please select a mesh object'. *)
Lemma mesh_guard_passed (op : mesh_operator) (w : World) (k : string) (o : Object)
    (mesh : Mesh) :
  active_object (blend w) = Some (k, o) →
  data o = MeshData mesh →
  run_operator op w
  ≠ (Returned CANCELLED, add_report (ERROR, plain "Please select a mesh object") w).
Proof.
  intros Hact Hmesh Heq.
  assert (H : ∃ m : M OperatorResult,
            run_operator op w = m w
            ∧ adds_reports (λ r, r ≠ (ERROR, plain "Please select a mesh object")) m).
  { destruct o as [nm d mods vgs ami]. cbn in Hmesh. subst d.
    destruct op; unfold_execute; rewrite run_bind, context_active_object_run, Hact;
      cbv beta iota;
      (eexists; split; [reflexivity|]); adds_reports_tac. }
  destruct H as (m & Hrun & Hadds). destruct (Hadds w) as (new & Hnew & HP).
  rewrite <- Hrun, Heq in Hnew. cbn [snd] in Hnew. world_simpl_in Hnew.
  apply app_inv_head in Hnew. subst new. apply Forall_cons in HP as [HP _]. done.
Qed.

(** The two panels are shown for an active mesh object and for nothing
    else, and that is the guard of the operators behind their buttons:
    while a panel is hidden each of these operators cancels with 'Please
    select a mesh object', and while it is shown none of them makes that
    report. *)
Theorem panels_poll_guards_operators (op : mesh_operator) (w : World) :
  AVASTAR_PT_animesh_tools.poll (blend w) = AVASTAR_PT_bom_tools.poll (blend w)
  ∧ (truthy (AVASTAR_PT_animesh_tools.poll (blend w)) = true
     ↔ ∃ k o mesh, active_object (blend w) = Some (k, o) ∧ data o = MeshData mesh)
  ∧ (truthy (AVASTAR_PT_animesh_tools.poll (blend w)) = false
     ↔ run_operator op w
       = (Returned CANCELLED, add_report (ERROR, plain "Please select a mesh object") w)).
Proof.
  split; [reflexivity|].
  unfold AVASTAR_PT_animesh_tools.poll.
  destruct (active_object (blend w)) as [[k o]|] eqn:Hact; cbn [truthy default].
  - destruct (data o) as [mesh|arm|kind] eqn:Hdata.
    + rewrite (type_of_mesh o mesh Hdata). cbn [String.eqb Ascii.eqb Bool.eqb].
      split; [split; [eauto|done]|]. split; [done|]. intros Heq. exfalso.
      by apply (mesh_guard_passed op w k o mesh).
    + assert (Hty : String.eqb (type o) "MESH" = false) by (unfold type; by rewrite Hdata).
      rewrite Hty. split.
      * split; [done|]. intros (k' & o' & mesh & [= <- <-] & Hm). congruence.
      * split; [intros _|done].
        destruct o as [nm d mods vgs ami]. cbn in Hdata. subst d.
        destruct op; unfold_execute; rewrite run_bind, context_active_object_run, Hact;
          reflexivity.
    + assert (Hty : String.eqb (type o) "MESH" = false)
        by (unfold type; rewrite Hdata; by destruct kind).
      rewrite Hty. split.
      * split; [done|]. intros (k' & o' & mesh & [= <- <-] & Hm). congruence.
      * split; [intros _|done].
        destruct o as [nm d mods vgs ami]. cbn in Hdata. subst d.
        destruct op; unfold_execute; rewrite run_bind, context_active_object_run, Hact;
          reflexivity.
  - split; [split; [done|by intros (k & o & mesh & [=] & _)]|].
    split; [intros _|done].
    destruct op; unfold_execute; rewrite run_bind, context_active_object_run, Hact;
      reflexivity.
Qed.

(* ===================================================================== *)
(** ** The Bakes-on-Mesh operators, one after the other *)
(* ===================================================================== *)

(** A material of the expected name that never had its nodes switched on
    has no node tree: the setup raises [AttributeError] where it reads
    [mat.node_tree.nodes], and nothing is changed. *)
Theorem bom_setup_material_needs_node_tree (w : World) (k : string) (o : Object)
    (mesh : Mesh) (mat : Material) :
  active_object (blend w) = Some (k, o) →
  data o = MeshData mesh →
  uv_layers mesh ≠ [] →
  data_materials (blend w) !! (name o +:+ "_BoM") = Some mat →
  node_tree mat = None →
  AVASTAR_OT_bom_setup_material.execute w = (Raised AttributeError, w).
Proof.
  intros Hact Hmesh Huv Hmat Htree.
  unfold AVASTAR_OT_bom_setup_material.execute.
  rewrite run_bind, context_active_object_run, Hact.
  destruct o as [onm d mods vgs ami]. cbn in Hmesh. subst d. cbv beta iota zeta.
  destruct (uv_layers mesh) as [|uv uvs] eqn:Euv; [done|].
  cbn [name] in *.
  rewrite run_bind, get_blend_run. cbv beta iota.
  rewrite run_bind, get_host_run. cbv beta iota. rewrite Hmat.
  rewrite run_bind. cbn [mret M_ret]. cbv beta iota. by rewrite Htree.
Qed.

(** On the demo scene with a "Body_BoM" fresh from
    [bpy.data.materials.new]. *)
Lemma bom_setup_material_needs_node_tree_witness :
  AVASTAR_OT_bom_setup_material.execute plain_material_world
  = (Raised AttributeError, plain_material_world).
Proof.
  apply (bom_setup_material_needs_node_tree plain_material_world "Body" demo_body demo_mesh
           (materials_new "Body_BoM")); try reflexivity.
  discriminate.
Defined.

Lemma slots_with_twice (nm : string) (slots : list (option string)) :
  slots_with nm (slots_with nm slots) = slots_with nm slots.
Proof. by destruct slots. Qed.

Lemma active_object_stored (b : Blend) (k : string) (o o' : Object)
    (objs : gmap string Object) (mats : gmap string Material) (imgs : gmap string Image) :
  active_object b = Some (k, o) →
  active_object {| data_objects := <[k := o']> objs; data_materials := mats;
                   data_images := imgs; active := active b |} = Some (k, o').
Proof.
  intros [Hk _]%active_object_inv. unfold active_object. cbn [active data_objects].
  rewrite Hk. cbn. by rewrite lookup_insert_eq.
Qed.

(** A second run of the setup has the outcome of the first and changes
    nothing in the scene: the material has the same graph again and the
    slots are as the first run left them. The first run finishes exactly
    on a host whose Principled BSDF has the inputs 'Specular' and
    'Roughness'; otherwise both runs raise. *)
Theorem bom_setup_material_idempotent (w : World) (k : string) (o : Object) (mesh : Mesh) :
  active_object (blend w) = Some (k, o) →
  data o = MeshData mesh →
  uv_layers mesh ≠ [] →
  (∀ mat, data_materials (blend w) !! (name o +:+ "_BoM") = Some mat → node_tree mat ≠ None) →
  let w1 := (AVASTAR_OT_bom_setup_material.execute w).2 in
  (AVASTAR_OT_bom_setup_material.execute w1).1 = (AVASTAR_OT_bom_setup_material.execute w).1
  ∧ blend (AVASTAR_OT_bom_setup_material.execute w1).2 = blend w1
  ∧ ((AVASTAR_OT_bom_setup_material.execute w).1 = Returned FINISHED
     ↔ bom_ready (host w) = true).
Proof.
  intros Hact Hmesh Huv Htree w1. subst w1.
  rewrite (bom_setup_material_run w k o mesh) by done.
  set (nm := name o +:+ "_BoM").
  destruct (bom_ready (host w)) eqn:Hready; cbn [fst snd].
  - set (w1 := bom_material_set_up w k o mesh).
    assert (Hact1 : active_object (blend w1) = Some (k, bom_object nm o mesh)).
    { subst w1. unfold bom_material_set_up. world_simpl. by eapply active_object_stored. }
    assert (Hmat1 : data_materials (blend w1) !! nm
                    = Some (bom_material (host w) nm (data_materials (blend w) !! nm))).
    { subst w1. unfold bom_material_set_up. world_simpl. apply lookup_insert_eq. }
    rewrite (bom_setup_material_run w1 k (bom_object nm o mesh)
               (with_materials (slots_with nm (materials mesh)) mesh)); try done.
    + change (host w1) with (host w). rewrite Hready. cbn [fst snd].
      split; [done|]. split; [|done]. unfold bom_material_set_up.
      change (name (bom_object nm o mesh)) with (name o). fold nm. rewrite Hmat1.
      subst w1. unfold bom_material_set_up. fold nm. world_simpl.
      rewrite !insert_insert_eq. f_equal. f_equal.
      unfold bom_object. cbn [materials with_materials]. rewrite slots_with_twice.
      by destruct o.
    + change (name (bom_object nm o mesh)) with (name o). fold nm. rewrite Hmat1.
      by intros mat [= <-].
  - set (w1 := bom_material_stopped w o).
    apply active_object_inv in Hact as Hk. destruct Hk as [Hk Hko].
    assert (Hact1 : active_object (blend w1) = Some (k, o)).
    { subst w1. unfold bom_material_stopped, active_object. world_simpl.
      rewrite Hk. cbn. by rewrite Hko. }
    assert (Hmat1 : data_materials (blend w1) !! nm
                    = Some (bom_material (host w) nm (data_materials (blend w) !! nm))).
    { subst w1. unfold bom_material_stopped. world_simpl. apply lookup_insert_eq. }
    rewrite (bom_setup_material_run w1 k o mesh); try done.
    + change (host w1) with (host w). rewrite Hready. cbn [fst snd].
      split; [done|]. split; [|done]. unfold bom_material_stopped at 1. fold nm.
      rewrite Hmat1. subst w1. unfold bom_material_stopped. fold nm. world_simpl.
      unfold with_data_materials. world_simpl. by rewrite insert_insert_eq.
    + fold nm. rewrite Hmat1. by intros mat [= <-].
Qed.

(** A second setup of the demo scene, on both hosts. *)
Lemma bom_setup_material_idempotent_witness :
  blend (AVASTAR_OT_bom_setup_material.execute bom_world).2 = blend bom_world
  ∧ (AVASTAR_OT_bom_setup_material.execute bom_world).1 = Returned FINISHED
  ∧ (let w1 := (AVASTAR_OT_bom_setup_material.execute later_world).2 in
     (AVASTAR_OT_bom_setup_material.execute w1).1 = Raised KeyError
     ∧ blend (AVASTAR_OT_bom_setup_material.execute w1).2 = blend w1).
Proof.
  destruct (bom_setup_material_idempotent demo_world "Body" demo_body demo_mesh
              eq_refl eq_refl) as (Hres & Hblend & _).
  { discriminate. }
  { intros mat Hmat. vm_compute in Hmat. discriminate. }
  destruct (bom_setup_material_idempotent later_world "Body" demo_body demo_mesh
              eq_refl eq_refl) as (Hres' & Hblend' & _).
  { discriminate. }
  { intros mat Hmat. vm_compute in Hmat. discriminate. }
  unfold bom_world. cbv zeta in *. split; [exact Hblend|].
  split; [rewrite Hres; vm_compute; reflexivity|].
  split; [rewrite Hres'; vm_compute; reflexivity|exact Hblend'].
Defined.

Lemma bom_material_set_up_object (w : World) (k : string) (o : Object) (mesh : Mesh) :
  active_object (blend w) = Some (k, o) →
  active_object (blend (bom_material_set_up w k o mesh))
  = Some (k, bom_object (name o +:+ "_BoM") o mesh).
Proof.
  intros Hact. unfold bom_material_set_up. cbv zeta. world_simpl.
  by eapply active_object_stored.
Qed.

Lemma effective_material_tree (h : Host) (mat : Material) (tree : NodeTree) :
  node_tree mat = Some tree → node_tree (effective_material h mat) = Some tree.
Proof.
  intros H. unfold effective_material. destruct (use_nodes mat); [done|].
  cbn [enable_nodes node_tree]. by rewrite H.
Qed.

Lemma bom_inputs_names (h : Host) :
  map sock_name (bom_inputs h) = map sock_name (principled_inputs h).
Proof.
  unfold bom_inputs. destruct (has_input h "Specular"); [|done].
  by rewrite !with_default_names.
Qed.

Lemma layer_name_free (h : Host) (layer : BomLayerType) :
  unique_name (map node_name (nodes (bom_node_tree h))) ("BoM_" +:+ layer_id layer)
  = "BoM_" +:+ layer_id layer.
Proof. by destruct layer. Qed.

Lemma layer_image_present (imgs : gmap string Image) (nm : string) :
  is_Some (match imgs !! nm with
           | None => <[nm := bom_layer_image nm]> imgs
           | Some _ => imgs
           end !! nm).
Proof.
  destruct (imgs !! nm) as [i|] eqn:E; [by rewrite E|]. rewrite lookup_insert_eq. by eexists.
Qed.

(** After the setup has finished, with slot 0 the active slot of the
    object and a 'Base Color' input on the host's BSDF, a layer can always
    be added: the operator finishes, the tree of the material is the
    graph of the setup with the texture node of the layer as its third
    node, named after the layer, and with one more link, from that node
    to the Base Color input of the BSDF; the nodes of the material are
    on, also when the setup had left them off, and the image of the layer
    exists. *)
Theorem bom_setup_then_layer (layer : BomLayerType) (w : World) (k : string)
    (o : Object) (mesh : Mesh) :
  active_object (blend w) = Some (k, o) →
  data o = MeshData mesh →
  uv_layers mesh ≠ [] →
  (∀ mat, data_materials (blend w) !! (name o +:+ "_BoM") = Some mat → node_tree mat ≠ None) →
  active_material_index o = 0%nat →
  bom_ready (host w) = true →
  has_input (host w) "Base Color" = true →
  let nm := name o +:+ "_BoM" in
  let w1 := (AVASTAR_OT_bom_setup_material.execute w).2 in
  let w2 := (AVASTAR_OT_bom_add_layer_slot.execute layer w1).2 in
  let texture :=
    {| node_name := "BoM_" +:+ layer_id layer; bl_idname := "ShaderNodeTexImage";
       label := "BoM " +:+ layer_id layer; location := (-400, 0);
       image := Some (name o +:+ "_" +:+ layer_id layer +:+ "_BoM");
       inputs := [socket "Vector" VNone];
       outputs := [socket "Color" (VColor 0 0 0 1); socket "Alpha" (VFloat 1)] |} in
  (AVASTAR_OT_bom_add_layer_slot.execute layer w1).1 = Returned FINISHED
  ∧ data_materials (blend w2) !! nm
    = Some {| mat_name := from_option mat_name nm (data_materials (blend w) !! nm);
              use_nodes := true;
              node_tree :=
                Some {| nodes := nodes (bom_node_tree (host w)) ++ [texture];
                        links := links (bom_node_tree (host w))
                                 ++ [base_color_link 2 0] |} |}
  ∧ is_Some (data_images (blend w2) !! (name o +:+ "_" +:+ layer_id layer +:+ "_BoM")).
Proof.
  intros Hact Hmesh Huv Htree Hidx Hready Hbase nm w1 w2 texture. subst w2 w1.
  rewrite (bom_setup_material_run w k o mesh) by done. rewrite Hready. cbn [snd].
  set (o1 := bom_object nm o mesh).
  set (mat1 := bom_material (host w) nm (data_materials (blend w) !! nm)).
  set (w1 := bom_material_set_up w k o mesh).
  assert (Hrun : AVASTAR_OT_bom_add_layer_slot.execute layer w1
                 = (Returned FINISHED,
                    bom_layer_added w1 o1 layer nm mat1 (bom_node_tree (host w)) 0)).
  { eapply (add_layer_finish w1 k o1 _ nm mat1 (bom_node_tree (host w)) 0).
    - by apply bom_material_set_up_object.
    - reflexivity.
    - unfold active_material. cbn [data o1 bom_object with_data materials with_materials].
      change (active_material_index o1) with (active_material_index o).
      rewrite Hidx.
      assert (Hslot : slots_with nm (materials mesh) !! 0%nat = Some (Some nm))
        by (by destruct (materials mesh)).
      rewrite Hslot. cbn. subst w1. unfold bom_material_set_up. cbv zeta. world_simpl.
      fold nm. by rewrite lookup_insert_eq.
    - by apply effective_material_tree.
    - reflexivity.
    - reflexivity.
    - cbn [inputs]. apply socket_index_names. rewrite bom_inputs_names.
      by apply bool_decide_eq_true in Hbase. }
  rewrite Hrun. split; [done|]. cbn [snd]. unfold bom_layer_added. world_simpl.
  split.
  - rewrite lookup_insert_eq.
    unfold bom_layer_tree, bom_texture_node. rewrite layer_name_free. reflexivity.
  - apply layer_image_present.
Qed.

(** A tattoo layer after the second setup of the demo scene, which had
    left the nodes of "Body_BoM" off. *)
Lemma bom_setup_then_layer_witness :
  let w1 := (AVASTAR_OT_bom_setup_material.execute nodes_off_world).2 in
  let w2 := (AVASTAR_OT_bom_add_layer_slot.execute TATTOO w1).2 in
  (AVASTAR_OT_bom_add_layer_slot.execute TATTOO w1).1 = Returned FINISHED
  ∧ use_nodes <$> data_materials (blend w1) !! "Body_BoM" = Some false
  ∧ use_nodes <$> data_materials (blend w2) !! "Body_BoM" = Some true
  ∧ (t ← node_tree <$> data_materials (blend w2) !! "Body_BoM"; map node_name <$> (nodes <$> t))
    = Some ["Principled BSDF"; "Material Output"; "BoM_TATTOO"]
  ∧ (t ← node_tree <$> data_materials (blend w2) !! "Body_BoM"; links <$> t)
    = Some [ {| from_node := 0; from_socket := "BSDF"; to_node := 1; to_socket := "Surface" |};
             base_color_link 2 0 ].
Proof.
  intros w1 w2.
  destruct (bom_setup_then_layer TATTOO nodes_off_world "Body" bom_body
              (with_materials [Some "Body_BoM"] demo_mesh)) as (Hrun & Hmat & _).
  - vm_compute. reflexivity.
  - reflexivity.
  - discriminate.
  - intros mat Hmat. vm_compute in Hmat. injection Hmat as <-. discriminate.
  - reflexivity.
  - reflexivity.
  - reflexivity.
  - fold w1 in Hrun, Hmat. fold w2 in Hmat.
    change (name bom_body +:+ "_BoM") with "Body_BoM" in Hmat.
    split; [exact Hrun|]. split; [vm_compute; reflexivity|].
    rewrite Hmat. repeat split; reflexivity.
Defined.

(** The setup fills slot 0, the layer operator reads the active slot:
    after a setup that has finished, with another slot active and that
    slot empty, the material is in slot 0 and the layer operator cancels
    all the same, asking for the setup to be run. *)
Theorem bom_layer_needs_active_slot (layer : BomLayerType) (w : World) (k : string)
    (o : Object) (mesh : Mesh) :
  active_object (blend w) = Some (k, o) →
  data o = MeshData mesh →
  uv_layers mesh ≠ [] →
  (∀ mat, data_materials (blend w) !! (name o +:+ "_BoM") = Some mat → node_tree mat ≠ None) →
  bom_ready (host w) = true →
  active_material_index o ≠ 0%nat →
  (∀ ref, materials mesh !! active_material_index o ≠ Some (Some ref)) →
  let w1 := (AVASTAR_OT_bom_setup_material.execute w).2 in
  (AVASTAR_OT_bom_setup_material.execute w).1 = Returned FINISHED
  ∧ (∃ o1 mesh1, data_objects (blend w1) !! k = Some o1 ∧ data o1 = MeshData mesh1
                 ∧ materials mesh1 !! 0%nat = Some (Some (name o +:+ "_BoM"))
                 ∧ is_Some (data_materials (blend w1) !! (name o +:+ "_BoM")))
  ∧ AVASTAR_OT_bom_add_layer_slot.execute layer w1
    = (Returned CANCELLED,
       add_report (ERROR, plain "No active material. Run 'Setup BoM Material' first") w1).
Proof.
  intros Hact Hmesh Huv Htree Hready Hidx Hslot w1. subst w1.
  rewrite (bom_setup_material_run w k o mesh) by done. rewrite Hready.
  cbn [fst snd]. split; [done|].
  set (nm := name o +:+ "_BoM").
  set (w1 := bom_material_set_up w k o mesh).
  pose proof (bom_material_set_up_object w k o mesh Hact) as Hact1. fold nm w1 in Hact1.
  split.
  { exists (bom_object nm o mesh), (with_materials (slots_with nm (materials mesh)) mesh).
    apply active_object_inv in Hact1 as [_ Hko1]. split; [done|]. split; [done|].
    split; [by destruct (materials mesh)|].
    subst w1. unfold bom_material_set_up. world_simpl. fold nm.
    rewrite lookup_insert_eq. by eexists. }
  assert (Hnone : active_material (blend w1) (bom_object nm o mesh) = None).
  { unfold active_material.
    change (active_material_index (bom_object nm o mesh)) with (active_material_index o).
    cbn [data bom_object with_data materials with_materials].
    destruct (active_material_index o) as [|i] eqn:Ei; [done|].
    assert (Hi : slots_with nm (materials mesh) !! S i = None
                 ∨ slots_with nm (materials mesh) !! S i = Some None).
    { destruct (materials mesh) as [|slot slots] eqn:Em; [by left|]. cbn.
      specialize (Hslot) as Hs. cbn in Hs.
      destruct (slots !! i) as [[ref|]|]; [by destruct (Hs ref)|by right|by left]. }
    destruct Hi as [-> | ->]; reflexivity. }
  unfold AVASTAR_OT_bom_add_layer_slot.execute.
  rewrite run_bind, context_active_object_run, Hact1.
  unfold bom_object at 1. destruct o as [onm d mods vgs ami]. cbn [with_data].
  cbv beta iota. rewrite run_bind, get_blend_run. cbv beta iota.
  rewrite run_bind, get_host_run. cbv beta iota.
  change {| name := onm; data := MeshData _; modifiers := mods; vertex_groups := vgs;
            active_material_index := ami |}
    with (bom_object nm {| name := onm; data := d; modifiers := mods; vertex_groups := vgs;
                           active_material_index := ami |} mesh).
  rewrite Hnone. reflexivity.
Qed.

(** On a "Body" with two empty slots, the second one active. *)
Lemma bom_layer_needs_active_slot_witness :
  let w1 := (AVASTAR_OT_bom_setup_material.execute two_slot_world).2 in
  (AVASTAR_OT_bom_setup_material.execute two_slot_world).1 = Returned FINISHED
  ∧ AVASTAR_OT_bom_add_layer_slot.execute SKIN w1
    = (Returned CANCELLED,
       add_report (ERROR, plain "No active material. Run 'Setup BoM Material' first") w1)
  ∧ (o ← data_objects (blend w1) !! "Body";
     match data o with MeshData m => Some (materials m) | _ => None end)
    = Some [Some "Body_BoM"; None].
Proof.
  intros w1.
  destruct (bom_layer_needs_active_slot SKIN two_slot_world "Body" two_slot_body
              (with_materials [None; None] demo_mesh)) as (Hsetup & _ & Hlayer);
    try reflexivity; try discriminate.
  split; [exact Hsetup|]. split; [exact Hlayer|]. vm_compute. reflexivity.
Defined.

Lemma nodes_get_app (nm : string) (ns more : list Node) (i : nat) :
  nodes_get nm ns = Some i → nodes_get nm (ns ++ more) = Some i.
Proof.
  revert i. induction ns as [|n ns IH]; intros i; cbn [nodes_get app]; [done|].
  destruct (String.eqb _ _); [done|].
  destruct (nodes_get nm ns) as [j|]; [|done]. cbn. intros [= <-]. by rewrite (IH j).
Qed.

Lemma active_material_inv (b : Blend) (o : Object) (ref : string) (mat : Material) :
  active_material b o = Some (ref, mat) →
  ∃ mesh, data o = MeshData mesh
          ∧ materials mesh !! active_material_index o = Some (Some ref)
          ∧ data_materials b !! ref = Some mat.
Proof.
  unfold active_material. destruct (data o) as [mesh| |]; [|done..].
  destruct (materials mesh !! active_material_index o) as [[ref'|]|] eqn:Es; cbn; [|done..].
  destruct (data_materials b !! ref') as [m|] eqn:E; cbn; [|done].
  intros [= <- <-]. eauto.
Qed.

Lemma layer_image_kept (imgs : gmap string Image) (nm nm' : string) :
  is_Some (imgs !! nm') →
  is_Some (match imgs !! nm with
           | None => <[nm := bom_layer_image nm]> imgs
           | Some _ => imgs
           end !! nm').
Proof.
  intros H. destruct (imgs !! nm) as [i|] eqn:E; [done|].
  destruct (decide (nm = nm')) as [->|Hne]; [by rewrite lookup_insert_eq|].
  by rewrite lookup_insert_ne.
Qed.

(** Two layers added one after the other. Both texture nodes are in the
    tree and both images exist, but the Base Color input of the BSDF holds
    one link: the second layer takes it from the first, whose texture node
    is left unconnected. Asked for the same layer twice, the operator adds
    a second texture node and creates no second image. *)
Theorem bom_second_layer_takes_base_color (layer1 layer2 : BomLayerType) (w : World)
    (k : string) (o : Object) (mesh : Mesh) (ref : string) (mat : Material)
    (tree : NodeTree) (bsdf : nat) (n : Node) :
  active_object (blend w) = Some (k, o) →
  data o = MeshData mesh →
  active_material (blend w) o = Some (ref, mat) →
  node_tree (effective_material (host w) mat) = Some tree →
  nodes_get "Principled BSDF" (nodes tree) = Some bsdf →
  nodes tree !! bsdf = Some n →
  is_Some (socket_index "Base Color" (inputs n)) →
  let w1 := (AVASTAR_OT_bom_add_layer_slot.execute layer1 w).2 in
  let w2 := (AVASTAR_OT_bom_add_layer_slot.execute layer2 w1).2 in
  (AVASTAR_OT_bom_add_layer_slot.execute layer1 w).1 = Returned FINISHED
  ∧ (AVASTAR_OT_bom_add_layer_slot.execute layer2 w1).1 = Returned FINISHED
  ∧ (∃ tree2,
       node_tree <$> data_materials (blend w2) !! ref = Some (Some tree2)
       ∧ length (nodes tree2) = S (S (length (nodes tree)))
       ∧ links tree2
         = filter (λ l, ¬ (to_node l = bsdf ∧ to_socket l = "Base Color")) (links tree)
           ++ [base_color_link (S (length (nodes tree))) bsdf])
  ∧ is_Some (data_images (blend w2) !! bom_image_name o layer1)
  ∧ is_Some (data_images (blend w2) !! bom_image_name o layer2)
  ∧ (layer1 = layer2 → data_images (blend w2) = data_images (blend w1)).
Proof.
  intros Hact Hmesh Hmat Htree Hget Hn Hsock w1 w2. subst w2 w1.
  rewrite (add_layer_finish w k o mesh ref mat tree bsdf n layer1) by done.
  cbn [fst snd].
  set (tree1 := bom_layer_tree o layer1 tree bsdf).
  set (mat1 := {| mat_name := mat_name mat; use_nodes := true; node_tree := Some tree1 |}).
  set (w1 := bom_layer_added w o layer1 ref mat tree bsdf).
  apply active_object_inv in Hact as Hk. destruct Hk as [Hk Hko].
  destruct (active_material_inv _ _ _ _ Hmat) as (mesh' & Hmesh' & Hslot & Hm).
  assert (Hact1 : active_object (blend w1) = Some (k, o)).
  { subst w1. unfold bom_layer_added, active_object. world_simpl. rewrite Hk. cbn.
    by rewrite Hko. }
  assert (Hmat1 : active_material (blend w1) o = Some (ref, mat1)).
  { unfold active_material. rewrite Hmesh', Hslot. cbn.
    subst w1. unfold bom_layer_added. world_simpl. by rewrite lookup_insert_eq. }
  assert (Hrun2 : AVASTAR_OT_bom_add_layer_slot.execute layer2 w1
                  = (Returned FINISHED, bom_layer_added w1 o layer2 ref mat1 tree1 bsdf)).
  { apply (add_layer_finish w1 k o mesh ref mat1 tree1 bsdf n); try done.
    - subst tree1. cbn [nodes bom_layer_tree]. by apply nodes_get_app.
    - subst tree1. cbn [nodes bom_layer_tree]. by apply lookup_app_l_Some. }
  rewrite Hrun2. cbn [fst snd]. split; [done|]. split; [done|].
  unfold bom_layer_added at 1 2 3 4. world_simpl.
  split; [|split; [|split]].
  - exists (bom_layer_tree o layer2 tree1 bsdf). rewrite lookup_insert_eq.
    split; [done|]. cbn [nodes links bom_layer_tree tree1].
    split; [rewrite !length_app; cbn [length]; lia|].
    rewrite filter_app, filter_twice.
    rewrite (filter_cons _ {| from_node := length (nodes tree) |}), decide_False, filter_nil,
      app_nil_r by (cbn; tauto).
    unfold base_color_link. rewrite length_app. cbn [length].
    by rewrite Nat.add_1_r.
  - apply layer_image_kept. subst w1. unfold bom_layer_added. world_simpl.
    apply layer_image_present.
  - apply layer_image_present.
  - intros <-.
    assert (Hin : is_Some (data_images (blend w1) !! bom_image_name o layer1)).
    { subst w1. unfold bom_layer_added. world_simpl. apply layer_image_present. }
    destruct Hin as [img Himg]. by rewrite Himg.
Qed.

(** A skin layer, then a tattoo layer, on the demo scene after the
    setup: the one link left into Base Color comes from the fourth node. *)
Lemma bom_second_layer_takes_base_color_witness :
  let w1 := (AVASTAR_OT_bom_add_layer_slot.execute SKIN bom_world).2 in
  let w2 := (AVASTAR_OT_bom_add_layer_slot.execute TATTOO w1).2 in
  ∃ tree2,
    node_tree <$> data_materials (blend w2) !! "Body_BoM" = Some (Some tree2)
    ∧ length (nodes tree2) = 4%nat
    ∧ links tree2 = [ {| from_node := 0; from_socket := "BSDF";
                         to_node := 1; to_socket := "Surface" |};
                      base_color_link 3 0 ].
Proof.
  intros w1 w2.
  destruct (bom_second_layer_takes_base_color SKIN TATTOO bom_world "Body" bom_body
              (with_materials [Some "Body_BoM"] demo_mesh) "Body_BoM"
              {| mat_name := "Body_BoM"; use_nodes := true;
                 node_tree := Some (bom_node_tree specular_host) |}
              (bom_node_tree specular_host) 0
              {| node_name := "Principled BSDF"; bl_idname := "ShaderNodeBsdfPrincipled";
                 label := ""; location := (0, 0); image := None;
                 inputs := [socket "Base Color" (VColor 0.8 0.8 0.8 1);
                            socket "Metallic" (VFloat 0);
                            socket "Specular" (VFloat 0);
                            socket "Roughness" (VFloat 1)];
                 outputs := [socket "BSDF" VNone] |})
    as (_ & _ & (tree2 & Htree & Hlen & Hlinks) & _).
  - vm_compute. reflexivity.
  - reflexivity.
  - vm_compute. reflexivity.
  - reflexivity.
  - reflexivity.
  - reflexivity.
  - by eexists.
  - exists tree2. split; [exact Htree|]. split; [exact Hlen|]. rewrite Hlinks. reflexivity.
Defined.

(* ===================================================================== *)
(** ** The weight calculation outside its intended arguments *)
(* ===================================================================== *)

Lemma range_backwards (stop step : Z) : 0 ≤ stop → step < 0 → range 0 stop step = Returned [].
Proof.
  intros Hstop Hstep. unfold range, range_len.
  replace (step =? 0) with false by (symmetry; apply Z.eqb_neq; lia).
  replace (0 <? step) with false by (symmetry; apply Z.ltb_ge; lia).
  assert (H : (0 - stop - step - 1) / - step ≤ 0).
  { apply Z.lt_succ_r. apply Z.div_lt_upper_bound; lia. }
  replace (Z.max 0 ((0 - stop - step - 1) / - step)) with 0 by lia.
  reflexivity.
Qed.

(** A chunk size that is not positive. Zero is refused by [range] with
    [ValueError]; a negative one gives an empty [range], so the function
    returns an empty table without looking at any vertex. An object
    without mesh data raises [AttributeError] whatever the chunk size. No
    exception is logged by the decorator. *)
Theorem optimize_weight_calculation_bad_arguments (obj : Object)
    (bone_names : gset string) (chunk_size : Z) (w : World) :
  chunk_size ≤ 0 ∨ type obj ≠ "MESH" →
  (optimize_weight_calculation obj bone_names chunk_size w).1
  = (if bool_decide (type obj = "MESH")
     then if chunk_size =? 0 then Raised ValueError else Returned ∅
     else Raised AttributeError)
  ∧ (chunk_size = 0 ∨ type obj ≠ "MESH" →
     (optimize_weight_calculation obj bone_names chunk_size w).2 = tick w).
Proof.
  intros Hbad. unfold optimize_weight_calculation. rewrite timed_operation_run.
  unfold lift, weight_calculation.
  destruct (data obj) as [mesh|arm|kind] eqn:Hdata.
  - rewrite bool_decide_eq_true_2 by (by apply (type_of_mesh obj mesh)).
    destruct Hbad as [Hsize|Hty]; [|destruct Hty; by apply (type_of_mesh obj mesh)].
    destruct (Z.eqb_spec chunk_size 0) as [->|Hne].
    + split; [reflexivity|]. intros _. reflexivity.
    + rewrite range_backwards by (unfold len; lia). cbn [mbind outcome_bind mret outcome_ret].
      cbn [fst snd map]. split; [reflexivity|].
      intros [?|Hty]; [done|]. destruct Hty. by apply (type_of_mesh obj mesh).
  - assert (Hty : type obj ≠ "MESH") by (unfold type; rewrite Hdata; discriminate).
    rewrite bool_decide_eq_false_2 by done. done.
  - assert (Hty : type obj ≠ "MESH") by (unfold type; rewrite Hdata; destruct kind; discriminate).
    rewrite bool_decide_eq_false_2 by done. done.
Qed.

(** A chunk size of -1 on the demo object. *)
Lemma optimize_weight_calculation_bad_arguments_witness :
  (optimize_weight_calculation demo_body {["Hip"]} (-1) demo_world).1 = Returned ∅.
Proof.
  destruct (optimize_weight_calculation_bad_arguments demo_body {["Hip"]} (-1) demo_world)
    as [Hrun _].
  - left. lia.
  - exact Hrun.
Defined.

(* ===================================================================== *)
(** ** The animesh operators and the validator *)
(* ===================================================================== *)

(** After the bone optimiser the armature has at most as many deform
    bones as the mesh object has vertex groups: every deform bone left
    carries the name of a vertex group in use. An object with at most 110
    vertex groups is thereby brought within the bone limit. *)
Theorem optimize_bones_bounds_deform_bones (w : World) (k : string) (o : Object)
    (mesh : Mesh) (a : string) (rig : Object) (arm : Armature) :
  active_object (blend w) = Some (k, o) →
  data o = MeshData mesh →
  find_armature (modifiers o) = Some a →
  data_objects (blend w) !! a = Some rig →
  data rig = ArmatureData arm →
  edit_bones arm = None →
  NoDup (map bone_name (bones arm)) →
  let w1 := (AVASTAR_OT_animesh_optimize_bones.execute true w).2 in
  data_objects (blend w1) !! a = Some (with_data (ArmatureData (kept_bones o mesh arm)) rig)
  ∧ deform_bone_count (kept_bones o mesh arm) ≤ len (vertex_groups o)
  ∧ (len (vertex_groups o) ≤ ANIMESH_MAX_BONES →
     deform_bone_count (kept_bones o mesh arm) ≤ ANIMESH_MAX_BONES).
Proof.
  intros Hact Hmesh Hfind Hrig Harm Hedit Hnd w1. subst w1.
  rewrite (optimize_bones_run w k o mesh a rig arm) by done. cbn [snd]. world_simpl.
  split; [apply lookup_insert_eq|].
  assert (Hbound : deform_bone_count (kept_bones o mesh arm) ≤ len (vertex_groups o)).
  { unfold deform_bone_count, kept_bones, len. cbn [bones]. apply inj_le.
    set (left := filter (λ b, use_deform b) (filter (λ b, unused_bone o mesh b = false)
                                                    (bones arm))).
    rewrite <- (length_map bone_name left), <- (length_map vg_name (vertex_groups o)).
    apply submseteq_length, NoDup_submseteq.
    - eapply sublist_NoDup; [exact Hnd|]. apply fmap_sublist. subst left.
      etrans; apply sublist_filter.
    - intros nm (b & -> & Hb)%list_elem_of_fmap. subst left.
      apply list_elem_of_filter in Hb as [Hdeform Hb].
      apply list_elem_of_filter in Hb as [Hused _].
      unfold unused_bone in Hused. destruct (use_deform b); [|done]. cbn in Hused.
      apply negb_false_iff, bool_decide_eq_true in Hused.
      apply used_bones_spec in Hused as (v & g & vg & _ & _ & Hvg & <-).
      apply list_elem_of_fmap. exists vg. split; [done|]. by eapply list_elem_of_lookup_2. }
  split; [done|]. lia.
Qed.

(** On the demo scene, whose "Body" has three vertex groups. *)
Lemma optimize_bones_bounds_deform_bones_witness :
  deform_bone_count (kept_bones demo_body demo_mesh demo_armature) ≤ 3.
Proof.
  destruct (optimize_bones_bounds_deform_bones demo_world "Body" demo_body demo_mesh "Rig"
              demo_rig demo_armature) as (_ & Hbound & _); try reflexivity.
  - apply (bool_decide_unpack _). vm_compute. exact I.
  - exact Hbound.
Defined.

Lemma find_armature_app (mods : list Modifier) (m : Modifier) :
  mod_type m ≠ "ARMATURE" → find_armature (mods ++ [m]) = find_armature mods.
Proof.
  intros Hm. apply String.eqb_neq in Hm.
  induction mods as [|x mods IH]; cbn [app find_armature].
  - by rewrite Hm.
  - destruct (String.eqb _ _), (mod_object x); by rewrite ?IH.
Qed.

(** The result of the validator on an active mesh and the reports it
    adds, by the armature the first armature modifier with a target
    leads to. *)
Lemma validation_of_mesh (w : World) (k : string) (o : Object) (mesh : Mesh) :
  active_object (blend w) = Some (k, o) →
  data o = MeshData mesh →
  validation w
  = match find_armature (modifiers o) with
    | None => (Returned CANCELLED, [(ERROR, plain "Mesh has no armature modifier")])
    | Some a =>
        match data <$> data_objects (blend w) !! a with
        | None => (Raised ReferenceError, [])
        | Some (ArmatureData arm) => (Returned FINISHED, validation_reports arm mesh)
        | Some _ => (Raised AttributeError, [])
        end
    end.
Proof.
  intros Hact Hmesh. unfold validation, AVASTAR_OT_animesh_validate.execute.
  run_monad. rewrite Hact.
  destruct o as [nm d mods vgs ami]. cbn in Hmesh. subst d. cbn [modifiers].
  destruct (find_armature mods) as [a|].
  - world_simpl. destruct (data_objects (blend w) !! a) as [rig|]; cbn [fmap option_fmap option_map].
    + destruct (data rig) as [m|arm|kind]; cbn [fst snd].
      * by rewrite drop_all.
      * unfold validation_reports. cbv zeta. destruct (forallb _ _); cbn [fst snd];
          world_simpl; rewrite <- !app_assoc, drop_app_length; reflexivity.
      * by rewrite drop_all.
    + cbn [fst snd]. by rewrite drop_all.
  - cbn [fst snd]. world_simpl. by rewrite drop_app_length.
Qed.

(** Triangle reduction never changes what the validator says: run after
    [avastar.animesh_reduce_triangles], whatever the ratio, the validator
    returns or raises what it would have before and adds the same
    reports. *)
Theorem reduce_triangles_keeps_validation (r : float) (w : World) (k : string) (o : Object)
    (mesh : Mesh) :
  active_object (blend w) = Some (k, o) →
  data o = MeshData mesh →
  (AVASTAR_OT_animesh_reduce_triangles.execute r w).1 = Returned FINISHED
  ∧ validation (AVASTAR_OT_animesh_reduce_triangles.execute r w).2 = validation w.
Proof.
  intros Hact Hmesh.
  rewrite (reduce_triangles_run w k o mesh r Hact Hmesh). cbn [fst snd]. split; [done|].
  set (o1 := decimated o r).
  set (w1 := add_report _ _).
  apply active_object_inv in Hact as Hk. destruct Hk as [Hk Hko].
  assert (Hact1 : active_object (blend w1) = Some (k, o1)).
  { subst w1. unfold active_object. world_simpl. rewrite Hk. cbn.
    by rewrite lookup_insert_eq. }
  rewrite (validation_of_mesh w1 k o1 mesh Hact1 Hmesh).
  rewrite (validation_of_mesh w k o mesh) by (done || by apply active_object_inv).
  unfold o1, decimated. cbn [modifiers with_modifiers].
  rewrite find_armature_app by discriminate.
  destruct (find_armature (modifiers o)) as [a|]; [|done].
  subst w1. world_simpl. destruct (decide (a = k)) as [->|Hne].
  - rewrite lookup_insert_eq, Hko. cbn. by rewrite Hmesh.
  - by rewrite lookup_insert_ne.
Qed.

(** On the mesh above the triangle limit. *)
Lemma reduce_triangles_keeps_validation_witness :
  validation (AVASTAR_OT_animesh_reduce_triangles.execute 0.5 heavy_world).2
  = validation heavy_world.
Proof.
  apply (reduce_triangles_keeps_validation 0.5 heavy_world "Body" heavy_body heavy_mesh);
    reflexivity.
Defined.

(* ===================================================================== *)
(** ** Registration *)
(* ===================================================================== *)

Lemma run_bind_R {A B} (m : R A) (f : A → R B) (s : Session) :
  (m ≫= f) s = match m s with
               | (Returned a, s') => f a s'
               | (Raised e, s') => (Raised e, s')
               end.
Proof. reflexivity. Qed.

Lemma register_class_run (cls : string) (s : Session) :
  cls ∉ registered s →
  register_class cls s
  = (Returned tt, {| world := world s; registered := registered s ++ [cls] |}).
Proof. intros H. unfold register_class. by rewrite bool_decide_eq_false_2. Qed.

Lemma unregister_class_run (cls : string) (s : Session) :
  cls ∈ registered s →
  unregister_class cls s
  = (Returned tt, {| world := world s;
                     registered := filter (λ c, c ≠ cls) (registered s) |}).
Proof. intros H. unfold unregister_class. by rewrite bool_decide_eq_true_2. Qed.

Lemma register_classes_run (tag module_name : string) (classes : list string)
    (s : Session) :
  NoDup classes →
  Forall (λ cls, cls ∉ registered s) classes →
  register_classes tag module_name classes s
  = (Returned tt,
     {| world := foldl (λ w r, add_log r w) (world s)
                       (map (registration_record "Registered" tag module_name) classes);
        registered := registered s ++ classes |}).
Proof.
  unfold register_classes. revert s.
  induction classes as [|cls classes IH]; intros s Hnd Hnew; cbn [for_classes map foldl].
  - rewrite app_nil_r. by destruct s.
  - apply NoDup_cons in Hnd as [Hcls Hnd]. apply Forall_cons in Hnew as [Hc Hnew].
    rewrite run_bind_R, run_bind_R, register_class_run by done.
    unfold in_world at 1. cbn [world registered fst snd log_msg].
    rewrite IH; [|done|].
    + cbn [world registered]. by rewrite <- app_assoc.
    + cbn [registered]. apply Forall_forall. intros c Hin Hc'.
      apply elem_of_app in Hc' as [Hc'|Hc'].
      * by apply (proj1 (Forall_forall _ _) Hnew c).
      * apply list_elem_of_singleton in Hc'. by subst c.
Qed.

Lemma filter_out_last (reg classes : list string) (cls : string) :
  cls ∉ reg → cls ∉ classes →
  filter (λ c, c ≠ cls) (reg ++ classes ++ [cls]) = reg ++ classes.
Proof.
  intros Hreg Hcls. rewrite !filter_app.
  rewrite (filter_cons _ cls), decide_False, filter_nil, app_nil_r by tauto.
  f_equal.
  - induction reg as [|c reg IH]; [done|]. rewrite filter_cons.
    apply not_elem_of_cons in Hreg as [Hc Hreg]. rewrite decide_True by done.
    by rewrite IH.
  - induction classes as [|c classes IH]; [done|]. rewrite filter_cons.
    apply not_elem_of_cons in Hcls as [Hc Hcls]. rewrite decide_True by done.
    by rewrite IH.
Qed.

Lemma unregister_loop_run (tag module_name : string) (reversed : list string)
    (reg : list string) (w : World) :
  NoDup reversed →
  Forall (λ cls, cls ∉ reg) reversed →
  for_classes reversed
    (λ cls, unregister_class cls ;;
            in_world (log_msg register_log LOG_INFO
                        (plain ("Unregistered " +:+ tag +:+ ":"
                                +:+ class_str module_name cls))))
    {| world := w; registered := reg ++ rev reversed |}
  = (Returned tt,
     {| world := foldl (λ w r, add_log r w) w
                       (map (registration_record "Unregistered" tag module_name) reversed);
        registered := reg |}).
Proof.
  revert w. induction reversed as [|cls rest IH]; intros w Hnd Hnew;
    cbn [for_classes map foldl rev].
  - by rewrite app_nil_r.
  - apply NoDup_cons in Hnd as [Hcls Hnd]. apply Forall_cons in Hnew as [Hc Hnew].
    rewrite run_bind_R, run_bind_R, unregister_class_run.
    2:{ cbn [registered]. rewrite !elem_of_app. right; right. left. }
    unfold in_world at 1. cbn [world registered fst snd log_msg].
    rewrite filter_out_last; [|done|by rewrite list_elem_of_In, <- in_rev, <- list_elem_of_In].
    by rewrite IH.
Qed.

Lemma add_logs_parts (rs : list LogRecord) (w : World) :
  blend (foldl (λ w r, add_log r w) w rs) = blend w
  ∧ reports (foldl (λ w r, add_log r w) w rs) = reports w
  ∧ log (foldl (λ w r, add_log r w) w rs) = log w ++ rs
  ∧ _mesh_cache (foldl (λ w r, add_log r w) w rs) = _mesh_cache w
  ∧ _bone_cache (foldl (λ w r, add_log r w) w rs) = _bone_cache w.
Proof.
  revert w. induction rs as [|r rs IH]; intros w; cbn [foldl].
  - by rewrite app_nil_r.
  - destruct (IH (add_log r w)) as (-> & -> & -> & -> & ->). world_simpl.
    by rewrite <- app_assoc.
Qed.

Lemma file_classes_NoDup (f : addon_file) : NoDup (file_classes f).
Proof. destruct f; apply (bool_decide_unpack _); vm_compute; exact I. Qed.

Lemma file_register_run (f : addon_file) (module_name : string) (s : Session) :
  Forall (λ cls, cls ∉ registered s) (file_classes f) →
  file_register f module_name s
  = (Returned tt,
     {| world := foldl (λ w r, add_log r w) (world s)
                       (map (registration_record "Registered" (file_tag f) module_name)
                            (file_classes f));
        registered := registered s ++ file_classes f |}).
Proof.
  intros Hnew. pose proof (file_classes_NoDup f) as Hnd.
  destruct f; by apply register_classes_run.
Qed.

Lemma file_unregister_run (f : addon_file) (module_name : string) (reg : list string)
    (w : World) :
  Forall (λ cls, cls ∉ reg) (file_classes f) →
  file_unregister f module_name {| world := w; registered := reg ++ file_classes f |}
  = (Returned tt,
     {| world := foldl (λ w r, add_log r w) (unregister_start f w)
                       (map (registration_record "Unregistered" (file_tag f) module_name)
                            (rev (file_classes f)));
        registered := reg |}).
Proof.
  intros Hnew. pose proof (file_classes_NoDup f) as Hnd.
  assert (Hloop : ∀ w',
    unregister_classes (file_tag f) module_name (file_classes f)
      {| world := w'; registered := reg ++ file_classes f |}
    = (Returned tt,
       {| world := foldl (λ w r, add_log r w) w'
                         (map (registration_record "Unregistered" (file_tag f) module_name)
                              (rev (file_classes f)));
          registered := reg |})).
  { intros w'. unfold unregister_classes.
    pose proof (unregister_loop_run (file_tag f) module_name (rev (file_classes f)) reg w')
      as H.
    rewrite rev_involutive in H. apply H.
    - apply NoDup_ListNoDup, NoDup_rev, NoDup_ListNoDup, Hnd.
    - apply Forall_forall. intros c Hc.
      apply (proj1 (Forall_forall _ _) Hnew c).
      by rewrite list_elem_of_In, in_rev, <- list_elem_of_In. }
  destruct f; apply Hloop.
Qed.

(** Registration and back. With none of a file's classes registered,
    [register] registers them in the order of [classes], and [unregister]
    after it takes them out again in reverse order: the host's registry is
    what it was. The scene and the reports are untouched, each step is
    logged, and the caches are as they were, except that [unregister] of
    [performance.py] has emptied them. *)
Theorem registration_round_trip (f : addon_file) (module_name : string) (s : Session) :
  Forall (λ cls, cls ∉ registered s) (file_classes f) →
  let s1 := (file_register f module_name s).2 in
  let s2 := (file_unregister f module_name s1).2 in
  (file_register f module_name s).1 = Returned tt
  ∧ registered s1 = registered s ++ file_classes f
  ∧ (file_unregister f module_name s1).1 = Returned tt
  ∧ registered s2 = registered s
  ∧ blend (world s2) = blend (world s)
  ∧ reports (world s2) = reports (world s)
  ∧ log (world s2)
    = log (world s)
      ++ map (registration_record "Registered" (file_tag f) module_name) (file_classes f)
      ++ unregister_clearing f
      ++ map (registration_record "Unregistered" (file_tag f) module_name)
             (rev (file_classes f))
  ∧ _mesh_cache (world s2) = (if f is performance_py then ∅ else _mesh_cache (world s))
  ∧ _bone_cache (world s2) = (if f is performance_py then ∅ else _bone_cache (world s)).
Proof.
  intros Hnew s1 s2. subst s2 s1.
  rewrite (file_register_run f module_name s Hnew). cbn [fst snd].
  rewrite (file_unregister_run f module_name (registered s) _ Hnew). cbn [fst snd world registered].
  set (w1 := foldl _ (world s) _).
  destruct (add_logs_parts
              (map (registration_record "Registered" (file_tag f) module_name)
                   (file_classes f)) (world s)) as (Hb1 & Hr1 & Hl1 & Hm1 & Hc1).
  fold w1 in Hb1, Hr1, Hl1, Hm1, Hc1.
  destruct (add_logs_parts
              (map (registration_record "Unregistered" (file_tag f) module_name)
                   (rev (file_classes f))) (unregister_start f w1))
    as (-> & -> & -> & -> & ->).
  repeat split; try done.
  - destruct f; cbn [unregister_start]; unfold caches_cleared; world_simpl; done.
  - destruct f; cbn [unregister_start]; unfold caches_cleared; world_simpl; done.
  - destruct f; cbn [unregister_start unregister_clearing]; unfold caches_cleared; world_simpl;
      rewrite Hl1, <- ?app_assoc; done.
  - destruct f; cbn [unregister_start]; unfold caches_cleared; world_simpl; done.
  - destruct f; cbn [unregister_start]; unfold caches_cleared; world_simpl; done.
Qed.

(** [performance.py] in a session with a cache entry. *)
Lemma registration_round_trip_witness :
  let s1 := (performance.register "avastar.performance" fresh_session).2 in
  let s2 := (performance.unregister "avastar.performance" s1).2 in
  registered s1 = performance.classes
  ∧ registered s2 = []
  ∧ _mesh_cache (world fresh_session) ≠ ∅
  ∧ _mesh_cache (world s2) = ∅.
Proof.
  intros s1 s2.
  destruct (registration_round_trip performance_py "avastar.performance" fresh_session)
    as (_ & Hreg1 & _ & Hreg2 & _ & _ & _ & Hcache & _).
  - repeat constructor; by intros ?%elem_of_nil.
  - split; [exact Hreg1|]. split; [exact Hreg2|]. split; [|exact Hcache].
    intros Hempty. apply (f_equal (λ m : gmap string CacheEntry, m !! "Body")) in Hempty.
    vm_compute in Hempty. discriminate.
Defined.

(** Calls out of order. With none of a file's classes registered,
    [unregister] raises [RuntimeError] at the first class it tries, the
    last of [classes], and changes nothing, except that [unregister] of
    [performance.py] has cleared the caches by then; and a second
    [register] raises [ValueError] at the first class and changes
    nothing. *)
Theorem registration_out_of_order (f : addon_file) (module_name : string) (s : Session) :
  Forall (λ cls, cls ∉ registered s) (file_classes f) →
  let s1 := (file_register f module_name s).2 in
  file_unregister f module_name s
  = (Raised RuntimeError,
     {| world := unregister_start f (world s); registered := registered s |})
  ∧ file_register f module_name s1 = (Raised ValueError, s1).
Proof.
  intros Hnew s1. subst s1. split.
  - destruct f; cbn [file_classes] in Hnew;
      repeat (apply Forall_cons in Hnew as [? Hnew]);
      unfold file_unregister, animesh.unregister, bom.unregister, performance.unregister,
             unregister_classes;
      cbn [rev app animesh.classes bom.classes performance.classes for_classes];
      rewrite ?run_bind_R; unfold in_world; cbn [fst snd clear_performance_caches];
      rewrite ?run_bind_R; unfold unregister_class; cbn [registered];
      rewrite bool_decide_eq_false_2 by done; by destruct s.
  - rewrite (file_register_run f module_name s Hnew). cbn [snd].
    destruct f;
      unfold file_register, animesh.register, bom.register, performance.register,
             register_classes;
      cbn [animesh.classes bom.classes performance.classes file_classes for_classes];
      rewrite run_bind_R, run_bind_R; unfold register_class at 1; cbn [registered];
      rewrite bool_decide_eq_true_2; try done;
      apply elem_of_app; right; left.
Qed.

(** [unregister] of [animesh.py] and of [performance.py] in a session with
    nothing registered. *)
Lemma registration_out_of_order_witness :
  (animesh.unregister "avastar.animesh" fresh_session).1 = Raised RuntimeError
  ∧ _mesh_cache (world (performance.unregister "avastar.performance" fresh_session).2) = ∅.
Proof.
  destruct (registration_out_of_order animesh_py "avastar.animesh" fresh_session) as [Ha _].
  { repeat constructor; by intros ?%elem_of_nil. }
  destruct (registration_out_of_order performance_py "avastar.performance" fresh_session)
    as [Hp _].
  { repeat constructor; by intros ?%elem_of_nil. }
  cbn [file_unregister] in Ha, Hp. rewrite Ha, Hp. split; reflexivity.
Defined.

(* ===================================================================== *)
(** ** What the scene optimiser keeps *)
(* ===================================================================== *)

(** Removing a group no vertex refers to leaves every vertex with the
    weights it had, by group name. *)
Lemma named_weights_drop (vgs : list VertexGroup) (mesh : Mesh) (i : nat) (v : MeshVertex) :
  ¬ group_referenced mesh i → v ∈ vertices mesh →
  named_weights (delete i vgs) (drop_group i v) = named_weights vgs v.
Proof.
  intros Hno Hv. unfold named_weights. rewrite (drop_unreferenced mesh i v Hno Hv).
  assert (H : Forall (λ g, group g ≠ i) (groups v)).
  { apply Forall_forall. intros g Hg Heq. apply Hno. exists v, g. done. }
  induction H as [|g gs Hg _ IH]; [done|].
  assert (Hlook : delete i vgs !! group (renumber i g) = vgs !! group g).
  { unfold renumber. cbn [group]. case_bool_decide.
    - rewrite list_lookup_delete_ge by lia. f_equal. lia.
    - rewrite list_lookup_delete_lt by lia. done. }
  cbn [map omap list_omap]. rewrite Hlook. cbn [weight renumber].
  destruct (vgs !! group g); cbn [fmap option_fmap option_map]; by rewrite <- IH.
Qed.

(** The removal loop with one more invariant: the weights by group name
    and the geometry are those of the start. *)
Lemma removal_loop_keeps (used : gset nat) (n0 : nat) (a0 : Z) (j : nat)
    (st : list VertexGroup * Mesh * Z) (named : list (list (string * float)))
    (shape : nat * list MeshPolygon * list string * list (option string)) :
  removal_invariant used n0 a0 j st →
  map (named_weights st.1.1) (vertices st.1.2) = named →
  geometry st.1.2 = shape →
  ∃ st',
    fold_outcome
      (λ st i,
         if bool_decide (Z.to_nat i ∈ used) then Returned st
         else
           match st.1.1 !! Z.to_nat i with
           | None => Raised IndexError
           | Some _ => Returned (vertex_groups_remove (Z.to_nat i) st.1, st.2 + 1)
           end)
      (map Z.of_nat (rev (seq 0 j))) st
    = Returned st'
    ∧ removal_invariant used n0 a0 0 st'
    ∧ map (named_weights st'.1.1) (vertices st'.1.2) = named
    ∧ geometry st'.1.2 = shape
    ∧ sublist st'.1.1 st.1.1.
Proof.
  revert st. induction j as [|j IH]; intros st Hinv Hnamed Hshape.
  - exists st. done.
  - replace (rev (seq 0 (S j))) with (j :: rev (seq 0 j))
      by (by rewrite seq_S, rev_app_distr).
    cbn [map fold_outcome]. rewrite Nat2Z.id.
    pose proof Hinv as (Hhigh & Hlow & Hlen & Hrem & Hweights & Hcount).
    destruct (decide (j ∈ used)) as [Hin|Hnin].
    + rewrite bool_decide_eq_true_2 by done. apply IH; try done.
      split; [|split; [|split; [|done]]].
      * intros p Hp. destruct (decide (p = j)) as [->|]; [by apply Hlow; [lia|]|].
        apply Hhigh. lia.
      * intros p Hp. apply Hlow. lia.
      * lia.
    + rewrite bool_decide_eq_false_2 by done.
      destruct (lookup_lt_is_Some_2 st.1.1 j ltac:(lia)) as [vg Hvg]. rewrite Hvg.
      assert (Hno : ¬ group_referenced st.1.2 j) by (rewrite Hlow by lia; done).
      assert (Hdel : length (delete j st.1.1) = pred (length st.1.1)).
      { rewrite length_delete by (by eexists). lia. }
      destruct (IH (vertex_groups_remove j st.1, st.2 + 1)) as (st' & Hrun & H1 & H2 & H3 & H4).
      * unfold vertex_groups_remove, removal_invariant. cbn [fst snd].
        split; [|split; [|split; [|split; [|split]]]].
        -- intros p Hp. apply referenced_after_drop; [done|].
           right. split; [lia|]. apply Hhigh. lia.
        -- intros p Hp. rewrite referenced_after_drop by done.
           rewrite <- (Hlow p) by lia. split; [|intros; left; split; [lia|done]].
           intros [[_ H]|[H _]]; [done|lia].
        -- lia.
        -- unfold len. rewrite Hrem. unfold len. lia.
        -- by apply no_low_weights_drop.
        -- rewrite assignment_count_drop by done. done.
      * unfold vertex_groups_remove. cbn [fst snd vertices with_vertices].
        rewrite <- Hnamed, map_map. apply map_ext_in. intros v Hv%list_elem_of_In.
        by apply (named_weights_drop _ st.1.2).
      * unfold vertex_groups_remove, geometry. cbn [fst snd vertices with_vertices polygons
                                                    uv_layers materials].
        rewrite length_map. exact Hshape.
      * exists st'. do 4 (split; [done|]).
        etrans; [exact H4|]. unfold vertex_groups_remove. cbn [fst].
        apply sublist_delete.
Qed.

Lemma remove_unused_loop_keeps (vgs : list VertexGroup) (mesh : Mesh) :
  no_low_weights mesh →
  ∃ vgs' mesh',
    remove_unused_loop vgs mesh = Returned (vgs', mesh', len vgs - len vgs')
    ∧ map (named_weights vgs') (vertices mesh') = map (named_weights vgs) (vertices mesh)
    ∧ geometry mesh' = geometry mesh
    ∧ sublist vgs' vgs.
Proof.
  intros Hweights. unfold remove_unused_loop.
  unfold len at 1. rewrite range_down. cbn [mbind outcome_bind].
  destruct (removal_loop_keeps (used_groups mesh) (length vgs) (assignment_count mesh)
              (length vgs) (vgs, mesh, 0)
              (map (named_weights vgs) (vertices mesh)) (geometry mesh))
    as ([[vgs' mesh'] removed] & Hrun & Hinv & Hnamed & Hshape & Hsub); try done.
  { split; [|split; [|split; [|split; [|done]]]]; cbn [fst snd].
    - intros p Hp. lia.
    - intros p _. symmetry. apply used_groups_spec.
    - lia.
    - unfold len. lia. }
  destruct Hinv as (_ & _ & _ & Hrem & _). cbn [fst snd] in *.
  exists vgs', mesh'. rewrite Hrun, Hrem. unfold len. done.
Qed.

(** What the optimiser keeps. Run with [clean_weights] and
    [remove_unused_groups] on a mesh whose assignments refer to groups of
    the object, it leaves every vertex with the weights it had, by group
    name, apart from those below 0.001: removing a group renumbers the
    assignments to the groups after it, and the loop goes down the indices
    so that the ones it has yet to test still mean the same groups. The
    vertex groups left are groups the object had, in their order; the
    vertices, polygons, UV layers, material slots and modifiers are
    untouched. *)
Theorem optimize_scene_keeps_weights (w : World) (k : string) (o : Object) (mesh : Mesh) :
  active_object (blend w) = Some (k, o) →
  data o = MeshData mesh →
  valid_assignments (vertex_groups o) mesh →
  distinct_assignments mesh →
  ∃ o' mesh',
    (AVASTAR_OT_performance_optimize_scene.execute true true false w).1 = Returned FINISHED
    ∧ data_objects
        (blend (AVASTAR_OT_performance_optimize_scene.execute true true false w).2) !! k
      = Some o'
    ∧ data o' = MeshData mesh'
    ∧ map (named_weights (vertex_groups o')) (vertices mesh')
      = map (λ v, named_weights (vertex_groups o) (clean_vertex v)) (vertices mesh)
    ∧ geometry mesh' = geometry mesh
    ∧ sublist (vertex_groups o') (vertex_groups o)
    ∧ name o' = name o
    ∧ modifiers o' = modifiers o.
Proof.
  intros Hact Hmesh Hvalid Hdistinct.
  pose proof (clean_weights_loop_run (vertex_groups o) mesh Hvalid Hdistinct) as Hclean.
  set (mesh1 := with_vertices (map clean_vertex (vertices mesh)) mesh) in *.
  destruct (remove_unused_loop_keeps (vertex_groups o) mesh1 (no_low_weights_clean mesh))
    as (vgs' & mesh' & Hremove & Hnamed & Hshape & Hsub).
  exists (with_vertex_groups vgs' (with_data (MeshData mesh') o)), mesh'.
  assert (Hrun : ∃ message,
    AVASTAR_OT_performance_optimize_scene.execute true true false w
    = (Returned FINISHED,
       add_report (INFO, message)
         (caches_cleared
            (with_blend
               (with_objects
                  (<[k := with_vertex_groups vgs' (with_data (MeshData mesh') o)]>
                     (data_objects (blend w))) (blend w)) w)))).
  { unfold AVASTAR_OT_performance_optimize_scene.execute.
    rewrite run_bind, context_active_object_run, Hact.
    destruct o as [onm d mods vgs ami]. cbn in Hmesh. subst d. cbv beta iota.
    cbn [vertex_groups] in *.
    set (o := {| name := onm |}) in *.
    rewrite run_bind, Hclean. cbv beta iota.
    rewrite run_bind, store_object_run. cbv beta iota. cbn [mret M_ret]. cbv beta iota.
    rewrite run_bind, run_bind. unfold lift at 1. rewrite Hremove. cbv beta iota.
    rewrite run_bind, store_object_run. cbv beta iota. cbn [mret M_ret]. cbv beta iota.
    rewrite run_bind. cbn [mret M_ret]. cbv beta iota.
    rewrite run_bind, clear_performance_caches_run. cbv beta iota zeta.
    rewrite with_blend_twice. world_simpl. rewrite insert_insert_eq, with_objects_twice.
    destruct ((_ ++ _) ++ _) as [|line lines] eqn:E.
    { exfalso. destruct (0 <? _), (0 <? _); discriminate. }
    rewrite <- E. rewrite run_bind, report_run. cbn [mret M_ret]. eexists. reflexivity. }
  destruct Hrun as [message ->]. cbn [fst snd]. unfold caches_cleared. world_simpl.
  rewrite lookup_insert_eq. do 3 (split; [done|]).
  cbn [vertex_groups with_vertex_groups with_data]. split.
  { rewrite Hnamed. subst mesh1. cbn [vertices with_vertices]. by rewrite map_map. }
  split; [|done].
  rewrite Hshape. subst mesh1. unfold geometry. cbn [vertices with_vertices polygons uv_layers
                                                     materials].
  by rewrite length_map.
Qed.

(** On the demo scene: the weight of 0.0005 is gone, "Toe" is still the
    group of the third vertex, and "Spare" is no group any more. *)
Lemma optimize_scene_keeps_weights_witness :
  ∃ o' mesh',
    data_objects
      (blend (AVASTAR_OT_performance_optimize_scene.execute true true false demo_world).2)
      !! "Body" = Some o'
    ∧ data o' = MeshData mesh'
    ∧ map (named_weights (vertex_groups o')) (vertices mesh')
      = [[("Hip", 0.5%float)]; [("Hip", 1%float)]; [("Toe", 0.25%float)]].
Proof.
  destruct (optimize_scene_keeps_weights demo_world "Body" demo_body demo_mesh)
    as (o' & mesh' & _ & Hobj & Hdata & Hnamed & _); try reflexivity.
  - apply (bool_decide_unpack _). vm_compute. exact I.
  - apply (bool_decide_unpack _). vm_compute. exact I.
  - exists o', mesh'. split; [exact Hobj|]. split; [exact Hdata|]. rewrite Hnamed.
    vm_compute. reflexivity.
Defined.

(* ===================================================================== *)
(** ** What the panels draw *)
(* ===================================================================== *)

(** The animesh panel and the validator agree on the bones. For an active
    object whose first armature modifier with a target leads to an
    armature, the panel shows the number of deform bones the validator
    counts, and it shows the error icon exactly when the validator's bone
    line is the failing one. *)
Theorem animesh_panel_agrees_with_validator (b : Blend) (k : string) (o : Object)
    (a : string) (rig : Object) (arm : Armature) :
  active_object b = Some (k, o) →
  find_armature (modifiers o) = Some a →
  data_objects b !! a = Some rig →
  data rig = ArmatureData arm →
  ∃ layout,
    AVASTAR_PT_animesh_tools.draw b = Returned layout
    ∧ UILabel ("Bones: " +:+ str (deform_bone_count arm) +:+ "/110") None
      ∈ panel_leaves layout
    ∧ (UILabel "" (Some ICON_ERROR) ∈ panel_leaves layout
       ↔ ANIMESH_MAX_BONES < deform_bone_count arm)
    ∧ (UILabel "" (Some ICON_ERROR) ∈ panel_leaves layout
       ↔ str_in check_mark
           (AVASTAR_OT_animesh_validate.bone_issue (deform_bone_count arm)) = false).
Proof.
  intros Hact Hfind Hrig Harm.
  unfold AVASTAR_PT_animesh_tools.draw, AVASTAR_PT_animesh_tools.bone_stats.
  rewrite Hact, Hfind, Hrig, Harm. cbn [mbind outcome_bind mret outcome_ret].
  eexists. split; [reflexivity|].
  rewrite bone_issue_ok, negb_false_iff, Z.ltb_lt.
  unfold panel_leaves. cbn [flat_map leaves app].
  destruct (Z.ltb_spec ANIMESH_MAX_BONES (deform_bone_count arm)) as [Hover|Hin];
    cbn [flat_map leaves app].
  - split; [do 2 right; left|]. split; (split; [done|intros _; do 3 right; left]).
  - split; [do 2 right; left|].
    assert (Hno : UILabel "" (Some ICON_ERROR)
                  ∉ [UILabel "Validation" (Some ICON_INFO);
                     UIOperator "avastar.animesh_validate" None (Some (IconNamed "ZOOM_ALL"))
                                None;
                     UILabel ("Bones: " +:+ str (deform_bone_count arm) +:+ "/"
                              +:+ str ANIMESH_MAX_BONES) None;
                     UILabel "Optimization" (Some ICON_MESH_DATA);
                     UIOperator "avastar.animesh_optimize_bones" None None None;
                     UIOperator "avastar.animesh_reduce_triangles" None None None;
                     UILabel "Limits" (Some ICON_INFO);
                     UILabel ("Max Bones: " +:+ str ANIMESH_MAX_BONES) None;
                     UILabel ("Max Triangles: " +:+ format_comma ANIMESH_MAX_TRIANGLES) None;
                     UILabel ("Max Complexity: " +:+ format_comma ANIMESH_MAX_COMPLEXITY)
                             None]).
    { rewrite !not_elem_of_cons. repeat split; try discriminate. apply not_elem_of_nil. }
    split; (split; [intros H; by destruct (Hno H)|lia]).
Qed.

(** On the demo scene, and with an armature of 111 deform bones. *)
Lemma animesh_panel_agrees_with_validator_witness :
  (∃ layout, AVASTAR_PT_animesh_tools.draw demo_blend = Returned layout
             ∧ UILabel "Bones: 3/110" None ∈ panel_leaves layout
             ∧ UILabel "" (Some ICON_ERROR) ∉ panel_leaves layout)
  ∧ (∃ layout, AVASTAR_PT_animesh_tools.draw crowded_blend = Returned layout
               ∧ UILabel "Bones: 111/110" None ∈ panel_leaves layout
               ∧ UILabel "" (Some ICON_ERROR) ∈ panel_leaves layout).
Proof.
  split.
  - destruct (animesh_panel_agrees_with_validator demo_blend "Body" demo_body "Rig" demo_rig
                demo_armature eq_refl eq_refl eq_refl eq_refl)
      as (layout & Hdraw & Hbones & Hicon & _).
    exists layout. split; [exact Hdraw|]. split; [exact Hbones|].
    intros H. apply Hicon in H. vm_compute in H. discriminate.
  - destruct (animesh_panel_agrees_with_validator crowded_blend "Body" demo_body "Rig"
                (with_data (ArmatureData crowded_armature) demo_rig) crowded_armature
                eq_refl eq_refl eq_refl eq_refl)
      as (layout & Hdraw & Hbones & Hicon & _).
    exists layout. split; [exact Hdraw|]. split; [exact Hbones|].
    apply Hicon. vm_compute. reflexivity.
Defined.

(** The layer buttons of the Bakes-on-Mesh panel. On an active mesh they
    are drawn exactly when the object has an active material, and they
    are the buttons for skin, tattoo and clothing: the eyebrow and hair
    layers of the operator have no button. A button that is drawn never
    leads to the report 'No active material'. *)
Theorem bom_panel_layer_buttons (w : World) (k : string) (o : Object) (mesh : Mesh) :
  active_object (blend w) = Some (k, o) →
  data o = MeshData mesh →
  let layers := panel_layers (AVASTAR_PT_bom_tools.draw (blend w)) in
  layers = (if active_material (blend w) o is Some _
            then ["SKIN"; "TATTOO"; "CLOTHING"] else [])
  ∧ (∀ layer, layer_id layer ∈ layers →
       (AVASTAR_OT_bom_add_layer_slot.execute layer w
        ≠ (Returned CANCELLED,
           add_report (ERROR, plain "No active material. Run 'Setup BoM Material' first")
                      w)))
  ∧ (layer_id EYEBROW ∉ layers)
  ∧ (layer_id HAIR ∉ layers).
Proof.
  intros Hact Hmesh layers.
  assert (Hlayers : layers = if active_material (blend w) o is Some _
                             then ["SKIN"; "TATTOO"; "CLOTHING"] else []).
  { subst layers. unfold AVASTAR_PT_bom_tools.draw, AVASTAR_PT_bom_tools.layer_box.
    rewrite Hact. by destruct (active_material (blend w) o). }
  split; [done|]. rewrite Hlayers. split; [|split].
  - intros layer Hin Heq.
    destruct (active_material (blend w) o) as [[ref mat]|] eqn:Hmat;
      [|by apply elem_of_nil in Hin].
    assert (H : ∃ m : M OperatorResult,
              AVASTAR_OT_bom_add_layer_slot.execute layer w = m w
              ∧ adds_reports
                  (λ r, r ≠ (ERROR, plain "No active material. Run 'Setup BoM Material' first"))
                  m).
    { unfold AVASTAR_OT_bom_add_layer_slot.execute.
      rewrite run_bind, context_active_object_run, Hact.
      destruct o as [nm d mods vgs ami]. cbn in Hmesh. subst d. cbv beta iota.
      rewrite run_bind, get_blend_run. cbv beta iota. rewrite Hmat.
      eexists. split; [reflexivity|]. adds_reports_tac. }
    destruct H as (m & Hrun & Hadds). destruct (Hadds w) as (new & Hnew & HP).
    rewrite <- Hrun, Heq in Hnew. cbn [snd] in Hnew. world_simpl_in Hnew.
    apply app_inv_head in Hnew. subst new. apply Forall_cons in HP as [HP _]. done.
  - destruct (active_material (blend w) o); [|apply not_elem_of_nil].
    rewrite !not_elem_of_cons. repeat split; try discriminate. apply not_elem_of_nil.
  - destruct (active_material (blend w) o); [|apply not_elem_of_nil].
    rewrite !not_elem_of_cons. repeat split; try discriminate. apply not_elem_of_nil.
Qed.

(** On the demo scene after the material setup. *)
Lemma bom_panel_layer_buttons_witness :
  panel_layers (AVASTAR_PT_bom_tools.draw (blend bom_world)) = ["SKIN"; "TATTOO"; "CLOTHING"]
  ∧ panel_layers (AVASTAR_PT_bom_tools.draw (blend demo_world)) = [].
Proof.
  destruct (bom_panel_layer_buttons bom_world "Body" bom_body
              (with_materials [Some "Body_BoM"] demo_mesh)) as [Hlayers _].
  - vm_compute. reflexivity.
  - reflexivity.
  - split; [rewrite Hlayers; vm_compute; reflexivity|reflexivity].
Defined.

Ltac list_cases H :=
  repeat (apply elem_of_cons in H as [->|H]); try (by apply elem_of_nil in H).

Ltac list_member := repeat (first [by left | right]).

(** Every button of a panel is for an operator its file registers, under
    the [bl_idname] of the operator's class. The animesh and performance
    panels have one button for each operator of their file; the
    Bakes-on-Mesh panel has the buttons for the setup and the preview, and
    the layer operator is behind the layer buttons only. *)
Theorem panel_buttons_are_registered (b : Blend) :
  match AVASTAR_PT_animesh_tools.draw b with
  | Returned layout => panel_operators layout = file_operators animesh_py
  | Raised _ => True
  end
  ∧ panel_operators (AVASTAR_PT_performance_tools.draw b) = file_operators performance_py
  ∧ panel_operators (AVASTAR_PT_bom_tools.draw b) ⊆ file_operators bom_py
  ∧ (∀ idname, idname ∈ file_operators bom_py →
       idname ∈ panel_operators (AVASTAR_PT_bom_tools.draw b)
       ∨ idname = "avastar.bom_add_layer_slot"
         ∧ panel_layers (AVASTAR_PT_bom_tools.draw b) = []).
Proof.
  split; [|split; [reflexivity|split]].
  - unfold AVASTAR_PT_animesh_tools.draw.
    destruct (AVASTAR_PT_animesh_tools.bone_stats b) as [stats|e] eqn:Hstats; [|done].
    cbn [mbind outcome_bind mret outcome_ret].
    assert (Hnone : panel_operators stats = []).
    { unfold AVASTAR_PT_animesh_tools.bone_stats in Hstats.
      destruct (active_object b) as [[k obj]|]; [|by injection Hstats as <-].
      destruct (find_armature (modifiers obj)) as [a|]; [|by injection Hstats as <-].
      destruct (data_objects b !! a) as [rig|]; [|done].
      destruct (data rig) as [|arm|]; try done. injection Hstats as <-.
      by destruct (ANIMESH_MAX_BONES <? deform_bone_count arm). }
    unfold panel_operators, panel_leaves in *.
    cbn [flat_map leaves app omap list_omap]. rewrite omap_app.
    rewrite Hnone. reflexivity.
  - unfold AVASTAR_PT_bom_tools.draw, AVASTAR_PT_bom_tools.layer_box.
    destruct (active_object b) as [[k obj]|]; [destruct (active_material b obj)|];
      intros idname Hin; vm_compute in Hin; list_cases Hin; vm_compute; list_member.
  - unfold AVASTAR_PT_bom_tools.draw, AVASTAR_PT_bom_tools.layer_box.
    intros idname Hin. vm_compute in Hin. list_cases Hin.
    + left. destruct (active_object b) as [[k obj]|]; [destruct (active_material b obj)|];
        vm_compute; list_member.
    + destruct (active_object b) as [[k obj]|]; [destruct (active_material b obj)|].
      * left. vm_compute. list_member.
      * by right.
      * by right.
    + left. destruct (active_object b) as [[k obj]|]; [destruct (active_material b obj)|];
        vm_compute; list_member.
Qed.
